(** * MapaInteractivoApp: the location-tracking session of the driver screen

    A shallow embedding of the session logic of [screens/DriverScreen.tsx]
    and theorems about it.  The screen exists in two variants; this is
    the one whose [SentLocation] has the four kinds manual, auto, test
    and random and which carries the random data generator.  The other
    variant has the same [sendLocation], [getCurrentLocation],
    [connectToServer] and [stopTracking] without the kind random.

    Conventions of the model.
    - JavaScript numbers that hold measurements (coordinates, accuracy,
      distances, averages) are real numbers [R]; the counters
      [totalLocationsSent] and [randomDataGenerated] are [nat]; readings
      of the clock ([Date.now()]) are [N], in milliseconds; the text of
      [new Date().toISOString()] is given with the event.  The rounding
      of IEEE doubles and [NaN] are not represented.
    - A handler runs to completion on the single event loop, so it is a
      function [Session -> Session].  An [await] on a collaborator ends
      the handler; what follows the [await] is a second handler, enabled
      by the matching entry of [pending].
    - React state updates are applied where they are dispatched, and a
      handler reads the state and the refs of the moment it runs: the
      screen is taken to have rendered between two events, so a press
      handled by the closure of an earlier render, or an updater run
      after a ref has changed again, is not represented.
    - The collaborators (the socket.io sockets, the expo-location
      subscriptions, the timers, the [Alert] dialogs) are part of the
      state: [sockets], [subscriptions], [timers], [alerts], and the
      messages given to [socket.emit] are kept in [emitted].
    - A [LocationData] object is never changed once built; a reference
      to it is the pair [LocRef] of its address and its contents, and
      [!==] on two such references compares the addresses.
    - Not modelled: the map and its animations, [refreshing] and
      [isMapExpanded], the texts of the dialogs, logout and unmounting
      (after which the screen is gone).  Of the permission flow only the
      calls of [setPermissionStatus] are kept: the [getCurrentLocation]
      that follows a grant there runs in a closure that still holds the
      earlier, ungranted status and only raises an alert, which is left
      out with the other dialogs of that flow. *)

From Stdlib Require Import Reals Lra Lia String List.
From stdpp Require Import base decidable option list gmap strings pretty.
Import ListNotations.
Local Open Scope R_scope.

(** ** JavaScript helpers *)

(** [x || d] on an optional number: [undefined], [null] and [0] are falsy. *)
Definition jsOr (x : option R) (d : R) : R :=
  match x with
  | Some v => if Req_dec_T v 0 then d else v
  | None => d
  end.

(** [x || undefined] (also [x || null]). *)
Definition jsOrUndefined (x : option R) : option R :=
  match x with
  | Some v => if Req_dec_T v 0 then None else Some v
  | None => None
  end.

(** [Math.floor]. *)
Definition Math_floor (x : R) : Z := Int_part x.

(** [Math.atan2 y x]. *)
Definition Math_atan2 (y x : R) : R :=
  if Rlt_dec 0 x then atan (y / x)
  else if Rlt_dec x 0 then
    (if Rle_dec 0 y then atan (y / x) + PI else atan (y / x) - PI)
  else if Rlt_dec 0 y then PI / 2
  else if Rlt_dec y 0 then - (PI / 2)
  else 0.

(** [!token]: a missing or empty string is falsy. *)
Definition truthyToken (t : option string) : option string :=
  match t with
  | Some tok => if decide (tok = EmptyString) then None else Some tok
  | None => None
  end.

(** ** Data model (the interfaces of DriverScreen.tsx) *)

Record LocationData : Type := mkLocationData {
  latitude : R;
  longitude : R;
  accuracy : option R;
  timestamp : string;
  speed : option R;
  heading : option R
}.

(** A JavaScript reference to a [LocationData] object. *)
Record LocRef : Type := mkLocRef {
  addr : nat;
  deref : LocationData
}.

Inductive LocationType : Type := TManual | TAuto | TTest | TRandom.

(** [SentLocation extends LocationData]: the spread [...locationData]
    copies the six fields, kept here as [sl_data]. *)
Record SentLocation : Type := mkSentLocation {
  sl_data : LocationData;
  sl_id : string;
  sl_type : LocationType
}.

Record SessionStats : Type := mkSessionStats {
  totalLocationsSent : nat;
  sessionStartTime : string;
  lastLocationTime : string;
  avgAccuracy : R;
  totalDistance : R;
  isActive : bool;
  randomDataGenerated : nat
}.

Inductive PermissionStatus : Type := Granted | Denied | Undetermined.

(** [Location.LocationObject]: what expo-location delivers. *)
Record Coords : Type := mkCoords {
  c_latitude : R;
  c_longitude : R;
  c_altitude : option R;
  c_accuracy : option R;
  c_altitudeAccuracy : option R;
  c_heading : option R;
  c_speed : option R
}.

Record LocationObject : Type := mkLocationObject {
  coords : Coords;
  lo_timestamp : N
}.

(** The payload of the [sendLocation] message. *)
Record Payload : Type := mkPayload {
  p_vehicleId : string;
  p_latitude : R;
  p_longitude : R;
  p_timestamp : string;
  p_accuracy : option R;
  p_speed : option R;
  p_heading : option R
}.

(** The texts given to [setConnectionStatus]. *)
Inductive ConnectionStatus : Type :=
| StDesconectado                       (* "Desconectado" *)
| StConectando                         (* "Conectando..." *)
| StErrorAutenticacion                 (* "Error de autenticacion" *)
| StConectado                          (* "Conectado" *)
| StDesconectadoPor (reason : string)  (* `Desconectado: ${reason}` *)
| StError (message : string)           (* `Error: ${error.message}` *)
| StErrorConexion.                     (* "Error de conexion" *)

(** The dialogs raised with [Alert.alert], by the place that raises them. *)
Inductive Alert : Type :=
| AlPermisosRequeridos        (* getCurrentLocation: permission missing *)
| AlErrorUbicacion            (* getCurrentLocation: the fetch failed *)
| AlTokenNoEncontrado         (* connectToServer: no stored token *)
| AlConectado                 (* socket "connect" *)
| AlDesconectado              (* socket "disconnect" *)
| AlErrorConexion (message : string)  (* socket "connect_error" *)
| AlNoSePudoConectar          (* connectToServer: catch *)
| AlNoHayConexion             (* sendLocation: transport not connected *)
| AlPrimeroConectar           (* a control used while not connected *)
| AlPermisosTracking          (* startTracking: permission missing *)
| AlTrackingIniciado
| AlErrorTracking             (* startTracking: catch *)
| AlDatosAleatoriosIniciados
| AlEnviado                   (* sendCurrentLocationManually *)
| AlUbicacionDePrueba.        (* useCartagenaTestLocation *)

(** ** The collaborators, as far as the session observes them *)

(** A socket.io socket built by [connectToServer]. *)
Record Socket : Type := mkSocket {
  auth_token : string;
  connected : bool;
  closed : bool    (* [disconnect()] was called on it by the client *)
}.

Inductive TimerKind : Type := TimerTracking | TimerRandom.

(** Who called [getCurrentLocation] and waits for its result. *)
Inductive Caller : Type := CRefresh | CStart | CTimer | CManual.

(** A suspended [async] function: the collaborator call it awaits. *)
Inductive Pending : Type :=
| PToken                 (* connectToServer at SecureStore.getItemAsync *)
| PFetch (k : Caller)    (* getCurrentLocation at getCurrentPositionAsync *)
| PWatch.                (* startTracking at watchPositionAsync *)

(** A point of a generated route ([generateRandomRoute]). *)
Record RoutePoint : Type := mkRoutePoint {
  rp_latitude : R;
  rp_longitude : R
}.

(** ** The session: React state, refs, and the collaborators' state *)

Record Session : Type := mkSession {
  isConnected : bool;
  isConnecting : bool;
  currentLocation : option LocationObject;
  isTracking : bool;
  connectionStatus : ConnectionStatus;
  trackingInterval : N;
  permissionStatus : PermissionStatus;
  isGeneratingRandomData : bool;
  randomDataInterval : N;
  sentLocations : list SentLocation;
  sessionStats : SessionStats;
  socketRef : option nat;
  locationSubscription : option nat;
  trackingIntervalRef : option nat;
  randomDataIntervalRef : option nat;
  lastLocationRef : option LocRef;
  vehicleId : string;
  sockets : list Socket;
  emitted : list (nat * Payload);
  subscriptions : gset nat;
  timers : gmap nat TimerKind;
  pending : list Pending;
  routeDialog : option (list RoutePoint);
  routeTimeouts : list RoutePoint;
  nextId : nat;
  alerts : list Alert
}.

(** The setters: [setX v s] is [s] with the field changed.  The React
    setters keep their names; [putSentLocations] and [putSessionStats]
    are the value forms of [setSentLocations] and [setSessionStats]. *)

Definition setIsConnected (v : bool) (s : Session) : Session :=
  mkSession v (isConnecting s) (currentLocation s) (isTracking s)
  (connectionStatus s) (trackingInterval s) (permissionStatus s)
  (isGeneratingRandomData s) (randomDataInterval s) (sentLocations s)
  (sessionStats s) (socketRef s) (locationSubscription s)
  (trackingIntervalRef s) (randomDataIntervalRef s) (lastLocationRef s)
  (vehicleId s) (sockets s) (emitted s) (subscriptions s) (timers s)
  (pending s) (routeDialog s) (routeTimeouts s) (nextId s) (alerts s).

Definition setIsConnecting (v : bool) (s : Session) : Session :=
  mkSession (isConnected s) v (currentLocation s) (isTracking s)
  (connectionStatus s) (trackingInterval s) (permissionStatus s)
  (isGeneratingRandomData s) (randomDataInterval s) (sentLocations s)
  (sessionStats s) (socketRef s) (locationSubscription s)
  (trackingIntervalRef s) (randomDataIntervalRef s) (lastLocationRef s)
  (vehicleId s) (sockets s) (emitted s) (subscriptions s) (timers s)
  (pending s) (routeDialog s) (routeTimeouts s) (nextId s) (alerts s).

Definition setCurrentLocation (v : option LocationObject) (s : Session)
  : Session :=
  mkSession (isConnected s) (isConnecting s) v (isTracking s)
  (connectionStatus s) (trackingInterval s) (permissionStatus s)
  (isGeneratingRandomData s) (randomDataInterval s) (sentLocations s)
  (sessionStats s) (socketRef s) (locationSubscription s)
  (trackingIntervalRef s) (randomDataIntervalRef s) (lastLocationRef s)
  (vehicleId s) (sockets s) (emitted s) (subscriptions s) (timers s)
  (pending s) (routeDialog s) (routeTimeouts s) (nextId s) (alerts s).

Definition setIsTracking (v : bool) (s : Session) : Session :=
  mkSession (isConnected s) (isConnecting s) (currentLocation s) v
  (connectionStatus s) (trackingInterval s) (permissionStatus s)
  (isGeneratingRandomData s) (randomDataInterval s) (sentLocations s)
  (sessionStats s) (socketRef s) (locationSubscription s)
  (trackingIntervalRef s) (randomDataIntervalRef s) (lastLocationRef s)
  (vehicleId s) (sockets s) (emitted s) (subscriptions s) (timers s)
  (pending s) (routeDialog s) (routeTimeouts s) (nextId s) (alerts s).

Definition setConnectionStatus (v : ConnectionStatus) (s : Session)
  : Session :=
  mkSession (isConnected s) (isConnecting s) (currentLocation s)
  (isTracking s) v (trackingInterval s) (permissionStatus s)
  (isGeneratingRandomData s) (randomDataInterval s) (sentLocations s)
  (sessionStats s) (socketRef s) (locationSubscription s)
  (trackingIntervalRef s) (randomDataIntervalRef s) (lastLocationRef s)
  (vehicleId s) (sockets s) (emitted s) (subscriptions s) (timers s)
  (pending s) (routeDialog s) (routeTimeouts s) (nextId s) (alerts s).

Definition setTrackingInterval (v : N) (s : Session) : Session :=
  mkSession (isConnected s) (isConnecting s) (currentLocation s)
  (isTracking s) (connectionStatus s) v (permissionStatus s)
  (isGeneratingRandomData s) (randomDataInterval s) (sentLocations s)
  (sessionStats s) (socketRef s) (locationSubscription s)
  (trackingIntervalRef s) (randomDataIntervalRef s) (lastLocationRef s)
  (vehicleId s) (sockets s) (emitted s) (subscriptions s) (timers s)
  (pending s) (routeDialog s) (routeTimeouts s) (nextId s) (alerts s).

Definition setPermissionStatus (v : PermissionStatus) (s : Session)
  : Session :=
  mkSession (isConnected s) (isConnecting s) (currentLocation s)
  (isTracking s) (connectionStatus s) (trackingInterval s) v
  (isGeneratingRandomData s) (randomDataInterval s) (sentLocations s)
  (sessionStats s) (socketRef s) (locationSubscription s)
  (trackingIntervalRef s) (randomDataIntervalRef s) (lastLocationRef s)
  (vehicleId s) (sockets s) (emitted s) (subscriptions s) (timers s)
  (pending s) (routeDialog s) (routeTimeouts s) (nextId s) (alerts s).

Definition setIsGeneratingRandomData (v : bool) (s : Session) : Session :=
  mkSession (isConnected s) (isConnecting s) (currentLocation s)
  (isTracking s) (connectionStatus s) (trackingInterval s)
  (permissionStatus s) v (randomDataInterval s) (sentLocations s)
  (sessionStats s) (socketRef s) (locationSubscription s)
  (trackingIntervalRef s) (randomDataIntervalRef s) (lastLocationRef s)
  (vehicleId s) (sockets s) (emitted s) (subscriptions s) (timers s)
  (pending s) (routeDialog s) (routeTimeouts s) (nextId s) (alerts s).

Definition setRandomDataInterval (v : N) (s : Session) : Session :=
  mkSession (isConnected s) (isConnecting s) (currentLocation s)
  (isTracking s) (connectionStatus s) (trackingInterval s)
  (permissionStatus s) (isGeneratingRandomData s) v (sentLocations s)
  (sessionStats s) (socketRef s) (locationSubscription s)
  (trackingIntervalRef s) (randomDataIntervalRef s) (lastLocationRef s)
  (vehicleId s) (sockets s) (emitted s) (subscriptions s) (timers s)
  (pending s) (routeDialog s) (routeTimeouts s) (nextId s) (alerts s).

Definition putSentLocations (v : list SentLocation) (s : Session) : Session :=
  mkSession (isConnected s) (isConnecting s) (currentLocation s)
  (isTracking s) (connectionStatus s) (trackingInterval s)
  (permissionStatus s) (isGeneratingRandomData s) (randomDataInterval s) v
  (sessionStats s) (socketRef s) (locationSubscription s)
  (trackingIntervalRef s) (randomDataIntervalRef s) (lastLocationRef s)
  (vehicleId s) (sockets s) (emitted s) (subscriptions s) (timers s)
  (pending s) (routeDialog s) (routeTimeouts s) (nextId s) (alerts s).

Definition putSessionStats (v : SessionStats) (s : Session) : Session :=
  mkSession (isConnected s) (isConnecting s) (currentLocation s)
  (isTracking s) (connectionStatus s) (trackingInterval s)
  (permissionStatus s) (isGeneratingRandomData s) (randomDataInterval s)
  (sentLocations s) v (socketRef s) (locationSubscription s)
  (trackingIntervalRef s) (randomDataIntervalRef s) (lastLocationRef s)
  (vehicleId s) (sockets s) (emitted s) (subscriptions s) (timers s)
  (pending s) (routeDialog s) (routeTimeouts s) (nextId s) (alerts s).

Definition set_socketRef (v : option nat) (s : Session) : Session :=
  mkSession (isConnected s) (isConnecting s) (currentLocation s)
  (isTracking s) (connectionStatus s) (trackingInterval s)
  (permissionStatus s) (isGeneratingRandomData s) (randomDataInterval s)
  (sentLocations s) (sessionStats s) v (locationSubscription s)
  (trackingIntervalRef s) (randomDataIntervalRef s) (lastLocationRef s)
  (vehicleId s) (sockets s) (emitted s) (subscriptions s) (timers s)
  (pending s) (routeDialog s) (routeTimeouts s) (nextId s) (alerts s).

Definition set_locationSubscription (v : option nat) (s : Session)
  : Session :=
  mkSession (isConnected s) (isConnecting s) (currentLocation s)
  (isTracking s) (connectionStatus s) (trackingInterval s)
  (permissionStatus s) (isGeneratingRandomData s) (randomDataInterval s)
  (sentLocations s) (sessionStats s) (socketRef s) v (trackingIntervalRef s)
  (randomDataIntervalRef s) (lastLocationRef s) (vehicleId s) (sockets s)
  (emitted s) (subscriptions s) (timers s) (pending s) (routeDialog s)
  (routeTimeouts s) (nextId s) (alerts s).

Definition set_trackingIntervalRef (v : option nat) (s : Session) : Session :=
  mkSession (isConnected s) (isConnecting s) (currentLocation s)
  (isTracking s) (connectionStatus s) (trackingInterval s)
  (permissionStatus s) (isGeneratingRandomData s) (randomDataInterval s)
  (sentLocations s) (sessionStats s) (socketRef s) (locationSubscription s)
  v (randomDataIntervalRef s) (lastLocationRef s) (vehicleId s) (sockets s)
  (emitted s) (subscriptions s) (timers s) (pending s) (routeDialog s)
  (routeTimeouts s) (nextId s) (alerts s).

Definition set_randomDataIntervalRef (v : option nat) (s : Session)
  : Session :=
  mkSession (isConnected s) (isConnecting s) (currentLocation s)
  (isTracking s) (connectionStatus s) (trackingInterval s)
  (permissionStatus s) (isGeneratingRandomData s) (randomDataInterval s)
  (sentLocations s) (sessionStats s) (socketRef s) (locationSubscription s)
  (trackingIntervalRef s) v (lastLocationRef s) (vehicleId s) (sockets s)
  (emitted s) (subscriptions s) (timers s) (pending s) (routeDialog s)
  (routeTimeouts s) (nextId s) (alerts s).

Definition set_lastLocationRef (v : option LocRef) (s : Session) : Session :=
  mkSession (isConnected s) (isConnecting s) (currentLocation s)
  (isTracking s) (connectionStatus s) (trackingInterval s)
  (permissionStatus s) (isGeneratingRandomData s) (randomDataInterval s)
  (sentLocations s) (sessionStats s) (socketRef s) (locationSubscription s)
  (trackingIntervalRef s) (randomDataIntervalRef s) v (vehicleId s)
  (sockets s) (emitted s) (subscriptions s) (timers s) (pending s)
  (routeDialog s) (routeTimeouts s) (nextId s) (alerts s).

Definition set_sockets (v : list Socket) (s : Session) : Session :=
  mkSession (isConnected s) (isConnecting s) (currentLocation s)
  (isTracking s) (connectionStatus s) (trackingInterval s)
  (permissionStatus s) (isGeneratingRandomData s) (randomDataInterval s)
  (sentLocations s) (sessionStats s) (socketRef s) (locationSubscription s)
  (trackingIntervalRef s) (randomDataIntervalRef s) (lastLocationRef s)
  (vehicleId s) v (emitted s) (subscriptions s) (timers s) (pending s)
  (routeDialog s) (routeTimeouts s) (nextId s) (alerts s).

Definition set_emitted (v : list (nat * Payload)) (s : Session) : Session :=
  mkSession (isConnected s) (isConnecting s) (currentLocation s)
  (isTracking s) (connectionStatus s) (trackingInterval s)
  (permissionStatus s) (isGeneratingRandomData s) (randomDataInterval s)
  (sentLocations s) (sessionStats s) (socketRef s) (locationSubscription s)
  (trackingIntervalRef s) (randomDataIntervalRef s) (lastLocationRef s)
  (vehicleId s) (sockets s) v (subscriptions s) (timers s) (pending s)
  (routeDialog s) (routeTimeouts s) (nextId s) (alerts s).

Definition set_subscriptions (v : gset nat) (s : Session) : Session :=
  mkSession (isConnected s) (isConnecting s) (currentLocation s)
  (isTracking s) (connectionStatus s) (trackingInterval s)
  (permissionStatus s) (isGeneratingRandomData s) (randomDataInterval s)
  (sentLocations s) (sessionStats s) (socketRef s) (locationSubscription s)
  (trackingIntervalRef s) (randomDataIntervalRef s) (lastLocationRef s)
  (vehicleId s) (sockets s) (emitted s) v (timers s) (pending s)
  (routeDialog s) (routeTimeouts s) (nextId s) (alerts s).

Definition set_timers (v : gmap nat TimerKind) (s : Session) : Session :=
  mkSession (isConnected s) (isConnecting s) (currentLocation s)
  (isTracking s) (connectionStatus s) (trackingInterval s)
  (permissionStatus s) (isGeneratingRandomData s) (randomDataInterval s)
  (sentLocations s) (sessionStats s) (socketRef s) (locationSubscription s)
  (trackingIntervalRef s) (randomDataIntervalRef s) (lastLocationRef s)
  (vehicleId s) (sockets s) (emitted s) (subscriptions s) v (pending s)
  (routeDialog s) (routeTimeouts s) (nextId s) (alerts s).

Definition set_pending (v : list Pending) (s : Session) : Session :=
  mkSession (isConnected s) (isConnecting s) (currentLocation s)
  (isTracking s) (connectionStatus s) (trackingInterval s)
  (permissionStatus s) (isGeneratingRandomData s) (randomDataInterval s)
  (sentLocations s) (sessionStats s) (socketRef s) (locationSubscription s)
  (trackingIntervalRef s) (randomDataIntervalRef s) (lastLocationRef s)
  (vehicleId s) (sockets s) (emitted s) (subscriptions s) (timers s) v
  (routeDialog s) (routeTimeouts s) (nextId s) (alerts s).

Definition set_routeDialog (v : option (list RoutePoint)) (s : Session)
  : Session :=
  mkSession (isConnected s) (isConnecting s) (currentLocation s)
  (isTracking s) (connectionStatus s) (trackingInterval s)
  (permissionStatus s) (isGeneratingRandomData s) (randomDataInterval s)
  (sentLocations s) (sessionStats s) (socketRef s) (locationSubscription s)
  (trackingIntervalRef s) (randomDataIntervalRef s) (lastLocationRef s)
  (vehicleId s) (sockets s) (emitted s) (subscriptions s) (timers s)
  (pending s) v (routeTimeouts s) (nextId s) (alerts s).

Definition set_routeTimeouts (v : list RoutePoint) (s : Session) : Session :=
  mkSession (isConnected s) (isConnecting s) (currentLocation s)
  (isTracking s) (connectionStatus s) (trackingInterval s)
  (permissionStatus s) (isGeneratingRandomData s) (randomDataInterval s)
  (sentLocations s) (sessionStats s) (socketRef s) (locationSubscription s)
  (trackingIntervalRef s) (randomDataIntervalRef s) (lastLocationRef s)
  (vehicleId s) (sockets s) (emitted s) (subscriptions s) (timers s)
  (pending s) (routeDialog s) v (nextId s) (alerts s).

Definition set_nextId (v : nat) (s : Session) : Session :=
  mkSession (isConnected s) (isConnecting s) (currentLocation s)
  (isTracking s) (connectionStatus s) (trackingInterval s)
  (permissionStatus s) (isGeneratingRandomData s) (randomDataInterval s)
  (sentLocations s) (sessionStats s) (socketRef s) (locationSubscription s)
  (trackingIntervalRef s) (randomDataIntervalRef s) (lastLocationRef s)
  (vehicleId s) (sockets s) (emitted s) (subscriptions s) (timers s)
  (pending s) (routeDialog s) (routeTimeouts s) v (alerts s).

Definition set_alerts (v : list Alert) (s : Session) : Session :=
  mkSession (isConnected s) (isConnecting s) (currentLocation s)
  (isTracking s) (connectionStatus s) (trackingInterval s)
  (permissionStatus s) (isGeneratingRandomData s) (randomDataInterval s)
  (sentLocations s) (sessionStats s) (socketRef s) (locationSubscription s)
  (trackingIntervalRef s) (randomDataIntervalRef s) (lastLocationRef s)
  (vehicleId s) (sockets s) (emitted s) (subscriptions s) (timers s)
  (pending s) (routeDialog s) (routeTimeouts s) (nextId s) v.

(** ** The initial state ([useState] and [useRef] initial values) *)

(** [user?.vehicleId || "driver-mobile"]. *)
Definition vehicleIdOf (userVehicleId : option string) : string :=
  match userVehicleId with
  | Some v => if decide (v = EmptyString) then "driver-mobile"%string else v
  | None => "driver-mobile"%string
  end.

Definition initialStats (start : string) : SessionStats :=
  mkSessionStats 0 start EmptyString 0 0 false 0.

Definition initialSession (userVehicleId : option string) (start : string)
  : Session :=
  {| isConnected := false; isConnecting := false; currentLocation := None;
     isTracking := false; connectionStatus := StDesconectado;
     trackingInterval := 5%N; permissionStatus := Undetermined;
     isGeneratingRandomData := false; randomDataInterval := 3%N;
     sentLocations := []; sessionStats := initialStats start;
     socketRef := None; locationSubscription := None;
     trackingIntervalRef := None; randomDataIntervalRef := None;
     lastLocationRef := None; vehicleId := vehicleIdOf userVehicleId;
     sockets := []; emitted := []; subscriptions := ∅; timers := ∅;
     pending := []; routeDialog := None; routeTimeouts := []; nextId := 0;
     alerts := [] |}.

(** ** Small operations on React state and on the collaborators *)

(** [setSentLocations((prev) => ...)] and [setSessionStats((prev) => ...)]. *)
Definition setSentLocations (f : list SentLocation -> list SentLocation)
  (s : Session) : Session := putSentLocations (f (sentLocations s)) s.

Definition setSessionStats (f : SessionStats -> SessionStats) (s : Session)
  : Session := putSessionStats (f (sessionStats s)) s.

(** [Alert.alert(...)]: the dialog is recorded, newest first. *)
Definition alert (a : Alert) (s : Session) : Session :=
  set_alerts (a :: alerts s) s.

(** A fresh identity for a new object, subscription or timer. *)
Definition fresh (s : Session) : nat * Session :=
  (nextId s, set_nextId (S (nextId s)) s).

(** An [async] function stops at an [await]; it is resumed by index. *)
Definition suspend (p : Pending) (s : Session) : Session :=
  set_pending (pending s ++ [p]) s.

Definition resume (i : nat) (s : Session) : Session :=
  set_pending (delete i (pending s)) s.

(** [socketRef.current?.connected], with the socket it holds for. *)
Definition connectedSocket (s : Session) : option nat :=
  match socketRef s with
  | Some i =>
      match sockets s !! i with
      | Some sk => if connected sk then Some i else None
      | None => None
      end
  | None => None
  end.

Definition socketConnected (s : Session) : bool :=
  match connectedSocket s with Some _ => true | None => false end.

(** [socket.emit("sendLocation", payload)], newest first. *)
Definition emit (i : nat) (p : Payload) (s : Session) : Session :=
  set_emitted ((i, p) :: emitted s) s.

Definition setSocket (i : nat) (sk : Socket) (s : Session) : Session :=
  set_sockets (<[i := sk]> (sockets s)) s.

(** [subscription.remove()] and [clearInterval(t)]. *)
Definition removeSubscription (sub : nat) (s : Session) : Session :=
  set_subscriptions (subscriptions s ∖ {[sub]}) s.

Definition clearInterval (t : nat) (s : Session) : Session :=
  set_timers (delete t (timers s)) s.

(** ** calculateDistance *)

Definition calculateDistance (lat1 lon1 lat2 lon2 : R) : R :=
  let R_ := 6371 in
  let dLat := ((lat2 - lat1) * PI) / 180 in
  let dLon := ((lon2 - lon1) * PI) / 180 in
  let a :=
    sin (dLat / 2) * sin (dLat / 2) +
    cos ((lat1 * PI) / 180) * cos ((lat2 * PI) / 180) *
    sin (dLon / 2) * sin (dLon / 2) in
  let c := 2 * Math_atan2 (sqrt a) (sqrt (1 - a)) in
  R_ * c * 1000.

(** ** sendLocation *)

Definition withRandomDataGenerated (n : nat) (st : SessionStats)
  : SessionStats :=
  mkSessionStats (totalLocationsSent st) (sessionStartTime st)
    (lastLocationTime st) (avgAccuracy st) (totalDistance st) (isActive st) n.

Definition withTotalDistance (d : R) (st : SessionStats) : SessionStats :=
  mkSessionStats (totalLocationsSent st) (sessionStartTime st)
    (lastLocationTime st) (avgAccuracy st) d (isActive st)
    (randomDataGenerated st).

(** The updater given to [setSessionStats] by [sendLocation]; [last] is
    [lastLocationRef.current]. *)
Definition updateStats (last : option LocRef) (locationData : LocRef)
  (type : LocationType) (prev : SessionStats) : SessionStats :=
  let d := deref locationData in
  let newStats :=
    mkSessionStats
      (totalLocationsSent prev + 1)
      (sessionStartTime prev)
      (timestamp d)
      (if Req_dec_T (avgAccuracy prev) 0
       then jsOr (accuracy d) 0
       else (avgAccuracy prev + jsOr (accuracy d) 0) / 2)
      (totalDistance prev) (isActive prev) (randomDataGenerated prev) in
  let newStats :=
    match type with
    | TRandom => withRandomDataGenerated (randomDataGenerated prev + 1) newStats
    | _ => newStats
    end in
  match last with
  | Some l =>
      if decide (addr l = addr locationData) then newStats
      else
        let distance :=
          calculateDistance (latitude (deref l)) (longitude (deref l))
            (latitude d) (longitude d) in
        withTotalDistance (totalDistance prev + distance) newStats
  | None => newStats
  end.

Definition sendLocation (locationData : LocRef) (type : LocationType)
  (now : N) (s : Session) : Session :=
  match connectedSocket s with
  | None => alert AlNoHayConexion s
  | Some i =>
      let d := deref locationData in
      let payload :=
        mkPayload (vehicleId s) (latitude d) (longitude d) (timestamp d)
          (accuracy d) (speed d) (heading d) in
      let s := emit i payload s in
      let sentLocation := mkSentLocation d (pretty now) type in
      let s := setSentLocations (fun prev => sentLocation :: take 99 prev) s in
      setSessionStats (updateStats (lastLocationRef s) locationData type) s
  end.

(** ** getCurrentLocation and its callers *)

Definition locationDataOf (c : Coords) (iso : string) : LocationData :=
  mkLocationData (c_latitude c) (c_longitude c) (jsOrUndefined (c_accuracy c))
    iso (jsOrUndefined (c_speed c)) (jsOrUndefined (c_heading c)).

(** What the caller [k] does with the result of [getCurrentLocation]. *)
Definition afterLocation (k : Caller) (r : option LocRef) (now : N)
  (s : Session) : Session :=
  match k, r with
  | CRefresh, _ => s
  | CStart, Some l => suspend PWatch (sendLocation l TAuto now s)
  | CStart, None => suspend PWatch s
  | CTimer, Some l => sendLocation l TAuto now s
  | CTimer, None => s
  | CManual, Some l => alert AlEnviado (sendLocation l TManual now s)
  | CManual, None => s
  end.

(** [getCurrentLocation] up to its [await]; [perm] is the
    [permissionStatus] its closure captured.  Without the permission it
    returns [null] at once and the caller goes on. *)
Definition getCurrentLocation (perm : PermissionStatus) (k : Caller)
  (s : Session) : Session :=
  match perm with
  | Granted => suspend (PFetch k) s
  | _ => afterLocation k None 0%N (alert AlPermisosRequeridos s)
  end.

(** [getCurrentLocation] after [getCurrentPositionAsync] has settled
    ([None]: it threw). *)
Definition getCurrentLocation_settled (res : option LocationObject)
  (iso : string) (s : Session) : option LocRef * Session :=
  match res with
  | Some location =>
      let (a, s) := fresh s in
      let locationData := mkLocRef a (locationDataOf (coords location) iso) in
      let s := setCurrentLocation (Some location) s in
      let s := set_lastLocationRef (Some locationData) s in
      (Some locationData, s)
  | None => (None, alert AlErrorUbicacion s)
  end.

Definition positionResult (k : Caller) (res : option LocationObject)
  (iso : string) (now : N) (s : Session) : Session :=
  let (r, s) := getCurrentLocation_settled res iso s in
  afterLocation k r now s.

(** ** Tracking *)

Definition startTracking (s : Session) : Session :=
  if negb (isConnected s) then alert AlPrimeroConectar s
  else
    match permissionStatus s with
    | Granted => getCurrentLocation Granted CStart (setIsTracking true s)
    | _ => alert AlPermisosTracking s
    end.

(** [startTracking] after [watchPositionAsync] has settled. *)
Definition watchResult (ok : bool) (s : Session) : Session :=
  if ok then
    let (sub, s) := fresh s in
    let s := set_subscriptions ({[sub]} ∪ subscriptions s) s in
    let s := set_locationSubscription (Some sub) s in
    let (t, s) := fresh s in
    let s := set_timers (<[t := TimerTracking]> (timers s)) s in
    let s := set_trackingIntervalRef (Some t) s in
    alert AlTrackingIniciado s
  else setIsTracking false (alert AlErrorTracking s).

(** The callback given to [watchPositionAsync]. *)
Definition watchCallback (location : LocationObject) (iso : string) (now : N)
  (s : Session) : Session :=
  let s := setCurrentLocation (Some location) s in
  let (a, s) := fresh s in
  let locationData := mkLocRef a (locationDataOf (coords location) iso) in
  sendLocation locationData TAuto now s.

(** The callback given to [setInterval] by [startTracking]; its closure
    saw [permissionStatus === "granted"]. *)
Definition trackingTick (s : Session) : Session :=
  getCurrentLocation Granted CTimer s.

Definition stopTracking (s : Session) : Session :=
  let s := setIsTracking false s in
  let s :=
    match locationSubscription s with
    | Some sub => set_locationSubscription None (removeSubscription sub s)
    | None => s
    end in
  match trackingIntervalRef s with
  | Some t => set_trackingIntervalRef None (clearInterval t s)
  | None => s
  end.

(** ** Random test data (the fixture generators) *)

(** [Math.random()] is an input: [rnd i] is the result of the [i]-th call
    made by the handler. *)
Definition shift (n : nat) (rnd : nat -> R) : nat -> R :=
  fun i => rnd (n + i)%nat.

Definition generateCartagenaTestLocation (rnd : nat -> R) : R * R :=
  let north := 10.5 in
  let south := 10.28 in
  let east := -75.35 in
  let west := -75.6 in
  let lat := south + rnd 0%nat * (north - south) in
  let lng := west + rnd 1%nat * (east - west) in
  (lat, lng).

Definition testScenarios : list (R * R) :=
  [ (10.4236, -75.5378); (10.3997, -75.5513); (10.4219, -75.5433);
    (10.42, -75.55); (10.418, -75.542); (10.405, -75.525);
    (10.41, -75.53); (10.43, -75.52) ].

Record RandomTestData : Type := mkRandomTestData {
  rd_latitude : R;
  rd_longitude : R;
  rd_accuracy : R;
  rd_speed : R
}.

(** [None]: the index is outside [testScenarios] and reading [.lat] of
    [undefined] throws. *)
Definition generateRandomTestData (rnd : nat -> R) : option RandomTestData :=
  let idx := Math_floor (rnd 0%nat * INR (length testScenarios)) in
  if decide (0 <= idx)%Z then
    match testScenarios !! Z.to_nat idx with
    | Some (lat, lng) =>
        let randomOffset := 0.002 in
        Some (mkRandomTestData
                (lat + (rnd 1%nat - 0.5) * randomOffset)
                (lng + (rnd 2%nat - 0.5) * randomOffset)
                (IZR (Math_floor (rnd 3%nat * 20)) + 5)
                (rnd 4%nat * 50))
    | None => None
    end
  else None.

(** The loop of [generateRandomRoute]: [n] further points. *)
Fixpoint routeSteps (n : nat) (rnd : nat -> R) (currentLat currentLng : R)
  : list RoutePoint :=
  match n with
  | O => []
  | S n' =>
      let currentLat := currentLat + (rnd 0%nat - 0.5) * 0.001 in
      let currentLng := currentLng + (rnd 1%nat - 0.5) * 0.001 in
      mkRoutePoint currentLat currentLng
        :: routeSteps n' (shift 2 rnd) currentLat currentLng
  end.

Definition generateRandomRoute (startLocation : RandomTestData)
  (duration : nat) (rnd : nat -> R) : list RoutePoint :=
  mkRoutePoint (rd_latitude startLocation) (rd_longitude startLocation)
    :: routeSteps (duration - 1) rnd
         (rd_latitude startLocation) (rd_longitude startLocation).

(** The object given to [setCurrentLocation] for generated positions. *)
Definition fakeLocationObject (d : LocationData) (nowObj : N) : LocationObject :=
  mkLocationObject
    (mkCoords (latitude d) (longitude d) (Some 0)
       (Some (jsOr (accuracy d) 15)) None None (jsOrUndefined (speed d)))
    nowObj.

(** A generated sample is shown and sent with kind random. *)
Definition sendRandom (d : LocationData) (nowObj now : N) (s : Session)
  : Session :=
  let (a, s) := fresh s in
  let locationData := mkLocRef a d in
  let s := setCurrentLocation (Some (fakeLocationObject d nowObj)) s in
  sendLocation locationData TRandom now s.

Definition startRandomDataGeneration (s : Session) : Session :=
  if negb (isConnected s) then alert AlPrimeroConectar s
  else
    let s := setIsGeneratingRandomData true s in
    let (t, s) := fresh s in
    let s := set_timers (<[t := TimerRandom]> (timers s)) s in
    let s := set_randomDataIntervalRef (Some t) s in
    alert AlDatosAleatoriosIniciados s.

(** The callback given to [setInterval] by [startRandomDataGeneration]. *)
Definition randomTick (rnd : nat -> R) (iso : string) (nowObj now : N)
  (s : Session) : Session :=
  match generateRandomTestData rnd with
  | Some randomData =>
      sendRandom
        (mkLocationData (rd_latitude randomData) (rd_longitude randomData)
           (Some (rd_accuracy randomData)) iso (Some (rd_speed randomData))
           None)
        nowObj now s
  | None => s
  end.

Definition stopRandomDataGeneration (s : Session) : Session :=
  let s := setIsGeneratingRandomData false s in
  match randomDataIntervalRef s with
  | Some t => set_randomDataIntervalRef None (clearInterval t s)
  | None => s
  end.

(** [generateAndSendRandomRoute]: the route waits in a dialog. *)
Definition generateAndSendRandomRoute (rnd : nat -> R) (s : Session)
  : Session :=
  if negb (isConnected s) then alert AlPrimeroConectar s
  else
    match generateRandomTestData rnd with
    | Some startLocation =>
        set_routeDialog
          (Some (generateRandomRoute startLocation 8 (shift 5 rnd))) s
    | None => s
    end.

(** "Enviar": one [setTimeout] per point of the route. *)
Definition routeSend (s : Session) : Session :=
  match routeDialog s with
  | Some route =>
      set_routeDialog None (set_routeTimeouts (routeTimeouts s ++ route) s)
  | None => s
  end.

(** The callback of one of these timeouts. *)
Definition routeTimeout (point : RoutePoint) (rnd : nat -> R) (iso : string)
  (nowObj now : N) (s : Session) : Session :=
  sendRandom
    (mkLocationData (rp_latitude point) (rp_longitude point)
       (Some (IZR (Math_floor (rnd 0%nat * 15)) + 5)) iso
       (Some (rnd 1%nat * 40)) None)
    nowObj now s.

(** ** Connection *)

(** [connectToServer] up to [await SecureStore.getItemAsync]. *)
Definition connectToServer (s : Session) : Session :=
  if isConnecting s || isConnected s then s
  else suspend PToken (setConnectionStatus StConectando (setIsConnecting true s)).

(** [connectToServer] after the token read has settled ([None]: it threw). *)
Definition tokenResult (r : option (option string)) (s : Session) : Session :=
  match r with
  | Some t =>
      match truthyToken t with
      | None =>
          setIsConnecting false
            (setConnectionStatus StErrorAutenticacion
               (alert AlTokenNoEncontrado s))
      | Some token =>
          let i := length (sockets s) in
          let s := set_sockets (sockets s ++ [mkSocket token false false]) s in
          set_socketRef (Some i) s
      end
  | None =>
      alert AlNoSePudoConectar
        (setConnectionStatus StErrorConexion (setIsConnecting false s))
  end.

(** The three listeners registered on a socket. *)
Definition onConnect (iso : string) (s : Session) : Session :=
  let s := setIsConnected true s in
  let s := setIsConnecting false s in
  let s := setConnectionStatus StConectado s in
  let s :=
    setSessionStats
      (fun prev =>
         mkSessionStats (totalLocationsSent prev) iso (lastLocationTime prev)
           (avgAccuracy prev) (totalDistance prev) true
           (randomDataGenerated prev)) s in
  alert AlConectado s.

Definition onDisconnect (reason : string) (s : Session) : Session :=
  let s := setIsConnected false s in
  let s := setConnectionStatus (StDesconectadoPor reason) s in
  let s := stopTracking s in
  let s := stopRandomDataGeneration s in
  alert AlDesconectado s.

Definition onConnectError (message : string) (s : Session) : Session :=
  let s := setIsConnected false s in
  let s := setIsConnecting false s in
  let s := setConnectionStatus (StError message) s in
  alert (AlErrorConexion message) s.

(** [socket.disconnect()] on socket [i]: a connected socket fires its
    "disconnect" listener before the call returns. *)
Definition socketDisconnect (i : nat) (s : Session) : Session :=
  match sockets s !! i with
  | Some sk =>
      let s := setSocket i (mkSocket (auth_token sk) false true) s in
      if connected sk then onDisconnect "io client disconnect" s else s
  | None => s
  end.

Definition disconnectFromServer (s : Session) : Session :=
  let s :=
    match socketRef s with
    | Some i => set_socketRef None (socketDisconnect i s)
    | None => s
    end in
  let s := setIsConnected false s in
  let s := setConnectionStatus StDesconectado s in
  let s := stopTracking s in
  let s := stopRandomDataGeneration s in
  setSessionStats
    (fun prev =>
       mkSessionStats (totalLocationsSent prev) (sessionStartTime prev)
         (lastLocationTime prev) (avgAccuracy prev) (totalDistance prev) false
         (randomDataGenerated prev)) s.

(** ** Manual and test submission, history *)

Definition sendCurrentLocationManually (s : Session) : Session :=
  if negb (isConnected s) then alert AlPrimeroConectar s
  else getCurrentLocation (permissionStatus s) CManual s.

Definition useCartagenaTestLocation (rnd : nat -> R) (iso : string)
  (nowObj now : N) (s : Session) : Session :=
  let testCoords := generateCartagenaTestLocation rnd in
  let (a, s) := fresh s in
  let testLocation :=
    mkLocRef a
      (mkLocationData (fst testCoords) (snd testCoords) (Some 15) iso None None) in
  let fake :=
    mkLocationObject
      (mkCoords (fst testCoords) (snd testCoords) (Some 0) (Some 15) None None
         None) nowObj in
  let s := setCurrentLocation (Some fake) s in
  let s := set_lastLocationRef (Some testLocation) s in
  let s := if isConnected s then sendLocation testLocation TTest now s else s in
  alert AlUbicacionDePrueba s.

(** [clearHistory], once "Limpiar" is chosen. *)
Definition clearHistory (s : Session) : Session :=
  let s := setSentLocations (fun _ => []) s in
  setSessionStats
    (fun prev =>
       mkSessionStats 0 (sessionStartTime prev) (lastLocationTime prev) 0 0
         (isActive prev) 0) s.

Definition onRefresh (s : Session) : Session :=
  getCurrentLocation (permissionStatus s) CRefresh s.

(** ** Events and the step function

    One event is one task of the event loop: a press on a control of the
    screen (enabled as the JSX enables it), a collaborator settling an
    awaited call, a socket.io event, a timer or a position callback.  A
    socket fires "connect" and "connect_error" only while it is not
    connected and "disconnect" only while it is connected, and nothing
    once the client has closed it; its automatic reconnection is the
    reason "connect" may follow "disconnect" or "connect_error".
    [step s e = None] means that [e] cannot occur in [s]. *)

Inductive Event : Type :=
| EPermission (p : PermissionStatus)
| EConnectButton
| ETokenResult (i : nat) (r : option (option string))
| ESocketConnect (i : nat) (iso : string)
| ESocketDisconnect (i : nat) (reason : string)
| ESocketConnectError (i : nat) (message : string)
| ETrackingButton
| EPositionResult (i : nat) (res : option LocationObject) (iso : string)
    (now : N)
| EWatchResult (i : nat) (ok : bool)
| EWatchCallback (sub : nat) (location : LocationObject) (iso : string)
    (now : N)
| ETrackingTick (t : nat)
| ERandomButton
| ERandomTick (t : nat) (rnd : nat -> R) (iso : string) (nowObj now : N)
| ERouteButton (rnd : nat -> R)
| ERouteCancel
| ERouteSend
| ERouteTimeout (i : nat) (rnd : nat -> R) (iso : string) (nowObj now : N)
| EManualButton
| ETestButton (rnd : nat -> R) (iso : string) (nowObj now : N)
| EClearConfirmed
| ERefresh
| EIntervalButton (n : N).

Definition intervalChoices : list N := [2; 3; 5; 10]%N.

Definition step (s : Session) (e : Event) : option Session :=
  match e with
  | EPermission p => Some (setPermissionStatus p s)
  | EConnectButton =>
      if isConnecting s then None
      else if isConnected s then Some (disconnectFromServer s)
      else Some (connectToServer s)
  | ETokenResult i r =>
      match pending s !! i with
      | Some PToken => Some (tokenResult r (resume i s))
      | _ => None
      end
  | ESocketConnect i iso =>
      match sockets s !! i with
      | Some sk =>
          if closed sk || connected sk then None
          else Some (onConnect iso
                       (setSocket i (mkSocket (auth_token sk) true false) s))
      | None => None
      end
  | ESocketDisconnect i reason =>
      match sockets s !! i with
      | Some sk =>
          if connected sk
          then Some (onDisconnect reason
                       (setSocket i (mkSocket (auth_token sk) false (closed sk)) s))
          else None
      | None => None
      end
  | ESocketConnectError i message =>
      match sockets s !! i with
      | Some sk =>
          if closed sk || connected sk then None
          else Some (onConnectError message s)
      | None => None
      end
  | ETrackingButton =>
      if isConnected s then
        match permissionStatus s with
        | Granted =>
            Some (if isTracking s then stopTracking s else startTracking s)
        | _ => None
        end
      else None
  | EPositionResult i res iso now =>
      match pending s !! i with
      | Some (PFetch k) => Some (positionResult k res iso now (resume i s))
      | _ => None
      end
  | EWatchResult i ok =>
      match pending s !! i with
      | Some PWatch => Some (watchResult ok (resume i s))
      | _ => None
      end
  | EWatchCallback sub location iso now =>
      if decide (sub ∈ subscriptions s)
      then Some (watchCallback location iso now s)
      else None
  | ETrackingTick t =>
      match timers s !! t with
      | Some TimerTracking => Some (trackingTick s)
      | _ => None
      end
  | ERandomButton =>
      if isConnected s then
        Some (if isGeneratingRandomData s then stopRandomDataGeneration s
              else startRandomDataGeneration s)
      else None
  | ERandomTick t rnd iso nowObj now =>
      match timers s !! t with
      | Some TimerRandom => Some (randomTick rnd iso nowObj now s)
      | _ => None
      end
  | ERouteButton rnd =>
      if isConnected s then Some (generateAndSendRandomRoute rnd s) else None
  | ERouteCancel =>
      match routeDialog s with
      | Some _ => Some (set_routeDialog None s)
      | None => None
      end
  | ERouteSend =>
      match routeDialog s with
      | Some _ => Some (routeSend s)
      | None => None
      end
  | ERouteTimeout i rnd iso nowObj now =>
      match routeTimeouts s !! i with
      | Some point =>
          Some (routeTimeout point rnd iso nowObj now
                  (set_routeTimeouts (delete i (routeTimeouts s)) s))
      | None => None
      end
  | EManualButton =>
      if isConnected s then Some (sendCurrentLocationManually s) else None
  | ETestButton rnd iso nowObj now =>
      Some (useCartagenaTestLocation rnd iso nowObj now s)
  | EClearConfirmed => Some (clearHistory s)
  | ERefresh => Some (onRefresh s)
  | EIntervalButton n =>
      if isTracking s || isGeneratingRandomData s then None
      else if decide (n ∈ intervalChoices)
           then Some (setRandomDataInterval n (setTrackingInterval n s))
           else None
  end.

(** Running a list of events, oldest first. *)
Fixpoint run (s : Session) (es : list Event) : option Session :=
  match es with
  | [] => Some s
  | e :: es' =>
      match step s e with
      | Some s' => run s' es'
      | None => None
      end
  end.

(** The states the screen can be in. *)
Inductive reachable : Session -> Prop :=
| reachable_initial (userVehicleId : option string) (start : string) :
    reachable (initialSession userVehicleId start)
| reachable_step (s s' : Session) (e : Event) :
    reachable s -> step s e = Some s' -> reachable s'.

(** A sequence of calls of [sendLocation], oldest first. *)
Definition Submission : Type := LocRef * LocationType * N.

Definition submit (s : Session) (c : Submission) : Session :=
  let '(locationData, type, now) := c in sendLocation locationData type now s.

Definition submitAll (cs : list Submission) (s : Session) : Session :=
  fold_left submit cs s.

(** The record a call of [sendLocation] puts into the history. *)
Definition recordOf (c : Submission) : SentLocation :=
  let '(locationData, type, now) := c in
  mkSentLocation (deref locationData) (pretty now) type.

(** Does the event assign [lastLocationRef.current]? *)
Definition writesLastLocation (e : Event) : bool :=
  match e with
  | EPositionResult _ (Some _) _ _ => true
  | ETestButton _ _ _ _ => true
  | _ => false
  end.

(** The part of the state that submissions act on: history, counter,
    emitted messages and the distance baseline. *)
Definition books (s : Session)
  : list SentLocation * nat * list (nat * Payload) * option LocRef :=
  (sentLocations s, totalLocationsSent (sessionStats s), emitted s,
   lastLocationRef s).

(** The ledger of a session: its history, [totalLocationsSent] and the
    messages emitted so far. *)
Inductive ledgerChange (e : Event)
  (h : list SentLocation) (n : nat) (em : list (nat * Payload))
  (h' : list SentLocation) (n' : nat) (em' : list (nat * Payload)) : Prop :=
| ledger_same : h' = h -> n' = n -> em' = em -> ledgerChange e h n em h' n' em'
| ledger_sent (c : Submission) (x : nat * Payload) :
    h' = recordOf c :: take 99 h -> n' = (n + 1)%nat -> em' = x :: em ->
    ledgerChange e h n em h' n' em'
| ledger_cleared :
    e = EClearConfirmed -> h' = [] -> n' = 0%nat -> em' = em ->
    ledgerChange e h n em h' n' em'.

(** The effect of an event on the books. *)
Definition effect (e : Event) (s s' : Session) : Prop :=
  ledgerChange e
    (sentLocations s) (totalLocationsSent (sessionStats s)) (emitted s)
    (sentLocations s') (totalLocationsSent (sessionStats s')) (emitted s')
  /\ (writesLastLocation e = false -> lastLocationRef s' = lastLocationRef s).



(** ** Sample sessions, used to exercise the statements *)

Definition freshSession : Session :=
  initialSession None "2024-05-01T10:00:00.000Z".

Definition connectEvents : list Event :=
  [ EPermission Granted; EConnectButton;
    ETokenResult 0 (Some (Some "abc123"%string));
    ESocketConnect 0 "2024-05-01T10:00:01.000Z" ].

Definition connectedSession : Session :=
  default freshSession (run freshSession connectEvents).

Definition sampleAt (a : nat) (lat lon : R) (iso : string) : LocRef :=
  mkLocRef a (mkLocationData lat lon (Some 5) iso None None).

Definition positionAt (lat lon : R) (ms : N) : LocationObject :=
  mkLocationObject (mkCoords lat lon None (Some 5) None None None) ms.

Definition trackingEvents : list Event :=
  [ ETrackingButton;
    EPositionResult 0 (Some (positionAt 0 0 1714557602000)) 
      "2024-05-01T10:00:02.000Z" 1714557602001;
    EWatchResult 0 true ].

(** Connected and tracking: subscription 1 and timer 2 are live. *)
Definition trackingSession : Session :=
  default connectedSession (run connectedSession trackingEvents).

Definition randomStarted : Session :=
  startRandomDataGeneration connectedSession.

(** What [generateRandomTestData] returns when every draw is 0. *)
Definition randomDraw0 : RandomTestData :=
  mkRandomTestData (10.4236 + (0 - 0.5) * 0.002)
    (-75.5378 + (0 - 0.5) * 0.002) (IZR 0 + 5) (0 * 50).

Definition randomSample : LocationData :=
  mkLocationData (rd_latitude randomDraw0) (rd_longitude randomDraw0)
    (Some (rd_accuracy randomDraw0)) "2024-05-01T10:00:02.000Z"
    (Some (rd_speed randomDraw0)) None.

Definition randomSent : Session :=
  sendRandom randomSample 1714557602000 1714557602000 randomStarted.

Definition randomEvents : list Event :=
  [ ERandomButton;
    ERandomTick 0 (fun _ => 0) "2024-05-01T10:00:02.000Z" 1714557602000
      1714557602000 ].

(** Two position callbacks handled within the same millisecond. *)
Definition sameClockEvents : list Event :=
  [ EWatchCallback 1 (positionAt 0 0 1714557603000)
      "2024-05-01T10:00:03.000Z" 1714557603001;
    EWatchCallback 1 (positionAt 0 180 1714557603000)
      "2024-05-01T10:00:03.001Z" 1714557603001 ].

Definition sameClockFirst : Session :=
  watchCallback (positionAt 0 0 1714557603000) "2024-05-01T10:00:03.000Z"
    1714557603001 trackingSession.

Definition sameClockSecond : Session :=
  watchCallback (positionAt 0 180 1714557603000) "2024-05-01T10:00:03.001Z"
    1714557603001 sameClockFirst.

(** While tracking, a pull-to-refresh fetches a position on the other
    side of the globe; it is shown but not submitted. *)
Definition baselineEvents : list Event :=
  [ ERefresh;
    EPositionResult 0 (Some (positionAt 0 180 1714557604000))
      "2024-05-01T10:00:04.000Z" 1714557604001 ].

Definition baselineSession : Session :=
  default trackingSession (run trackingSession baselineEvents).

(** The first socket loses its connection, the driver connects again
    (a second socket), the first socket reconnects by itself, tracking
    is started, and the second socket fails to connect. *)
Definition raceEvents : list Event :=
  [ EPermission Granted;
    EConnectButton;
    ETokenResult 0 (Some (Some "abc123"%string));
    ESocketConnect 0 "2024-05-01T10:00:01.000Z";
    ESocketDisconnect 0 "transport close";
    EConnectButton;
    ETokenResult 0 (Some (Some "abc123"%string));
    ESocketConnect 0 "2024-05-01T10:00:05.000Z";
    ETrackingButton;
    EPositionResult 0 (Some (positionAt 0 0 1714557606000))
      "2024-05-01T10:00:06.000Z" 1714557606001;
    EWatchResult 0 true;
    ESocketConnectError 1 "timeout" ].

Definition raceSession : Session :=
  default freshSession (run freshSession raceEvents).

(** Tracking is started, stopped while the first position fetch is
    still pending, and started again; then both starts run to their
    end: the first makes subscription 1 and timer 2, the second
    subscription 4 and timer 5. *)
Definition restartEvents : list Event :=
  [ ETrackingButton;
    ETrackingButton;
    ETrackingButton;
    EPositionResult 0 (Some (positionAt 0 0 1714557602000))
      "2024-05-01T10:00:02.000Z" 1714557602001;
    EWatchResult 1 true;
    EPositionResult 0 (Some (positionAt 0 0 1714557603000))
      "2024-05-01T10:00:03.000Z" 1714557603001;
    EWatchResult 0 true ].

Definition restartedSession : Session :=
  default connectedSession (run connectedSession restartEvents).

(** The driver stops tracking. *)
Definition stoppedSession : Session := stopTracking restartedSession.

(** The proofs below reason about these three through their lemmas. *)
Arguments calculateDistance : simpl never.
Arguments updateStats : simpl never.
Arguments sendLocation : simpl never.

(** Computing with the setters on a session given field by field. *)
Ltac session_fields :=
  cbv [setIsConnected setIsConnecting setCurrentLocation setIsTracking
       setConnectionStatus setTrackingInterval setPermissionStatus
       setIsGeneratingRandomData setRandomDataInterval putSentLocations
       putSessionStats set_socketRef set_locationSubscription
       set_trackingIntervalRef set_randomDataIntervalRef set_lastLocationRef
       set_sockets set_emitted set_subscriptions set_timers set_pending
       set_routeDialog set_routeTimeouts set_nextId set_alerts
       alert resume suspend
       isConnected isConnecting currentLocation isTracking connectionStatus
       trackingInterval permissionStatus isGeneratingRandomData
       randomDataInterval sentLocations sessionStats socketRef
       locationSubscription trackingIntervalRef randomDataIntervalRef
       lastLocationRef vehicleId sockets emitted subscriptions timers pending
       routeDialog routeTimeouts nextId alerts].

(** ** Further notions *)

(** What ties the refs to the collaborators: a ref holds a live
    subscription or timer of the right kind, [socketRef] a socket that
    exists, and identities are below [nextId]. *)
Record consistent (s : Session) : Prop := mkConsistent {
  socketRef_exists :
    forall i, socketRef s = Some i -> (i < length (sockets s))%nat;
  locationSubscription_live :
    forall sub, locationSubscription s = Some sub -> sub ∈ subscriptions s;
  trackingIntervalRef_live :
    forall t, trackingIntervalRef s = Some t ->
              timers s !! t = Some TimerTracking;
  randomDataIntervalRef_live :
    forall t, randomDataIntervalRef s = Some t ->
              timers s !! t = Some TimerRandom;
  subscriptions_below :
    forall sub, sub ∈ subscriptions s -> (sub < nextId s)%nat;
  timers_below :
    forall t k, timers s !! t = Some k -> (t < nextId s)%nat;
  lastLocationRef_below :
    forall l, lastLocationRef s = Some l -> (addr l < nextId s)%nat
}.

(** The fields [consistent] speaks about. *)
Definition wiring (s : Session) :=
  (socketRef s, length (sockets s), locationSubscription s,
   trackingIntervalRef s, randomDataIntervalRef s, subscriptions s, timers s,
   nextId s, lastLocationRef s).

(** Closing the goals of a [consistent] proof after a small change. *)
Ltac consistent_goal :=
  simpl in *; intros; simplify_eq;
  try match goal with
      | H : _ ∈ {[_]} ∪ _ |- _ =>
          apply elem_of_union in H as [H|H];
          [apply elem_of_singleton in H; subst|]
      | H : _ ∈ _ ∖ _ |- _ => apply elem_of_difference in H as [H ?]
      | H : <[_:=_]> _ !! _ = Some _ |- _ =>
          apply lookup_insert_Some in H as [[? ?]|[? H]]; subst
      | H : delete _ _ !! _ = Some _ |- _ =>
          apply lookup_delete_Some in H as [? H]
      end;
  first
    [ assumption
    | reflexivity
    | lia
    | solve [eauto 2]
    | match goal with
      | Hb : forall x, ?f = Some x -> _, H : ?f = Some _ |- _ =>
          specialize (Hb _ H); lia
      end
    | match goal with
      | Hb : forall x, x ∈ _ -> _, H : _ ∈ _ |- _ => specialize (Hb _ H); lia
      end
    | match goal with
      | Hb : forall t k, _ !! t = Some k -> _, H : _ !! _ = Some _ |- _ =>
          specialize (Hb _ _ H); lia
      end
    | idtac ].

(** The quantity [a] of [calculateDistance]. *)
Definition haversineOf (lat1 lon1 lat2 lon2 : R) : R :=
  sin (((lat2 - lat1) * PI) / 180 / 2) * sin (((lat2 - lat1) * PI) / 180 / 2) +
  cos ((lat1 * PI) / 180) * cos ((lat2 * PI) / 180) *
  sin (((lon2 - lon1) * PI) / 180 / 2) * sin (((lon2 - lon1) * PI) / 180 / 2).

(** What the statistics and the transport log keep in every state: no
    more random submissions than submissions, and messages that name the
    session's vehicle, whose name is never empty. *)
Record accounted (s : Session) : Prop := mkAccounted {
  random_counted :
    (randomDataGenerated (sessionStats s)
     <= totalLocationsSent (sessionStats s))%nat;
  emitted_vehicle :
    Forall (fun x => p_vehicleId (snd x) = vehicleId s) (emitted s);
  vehicle_named : vehicleId s <> EmptyString
}.

(** The fields [accounted] speaks about. *)
Definition accounts (s : Session) := (sessionStats s, emitted s, vehicleId s).

(** ** The route drawn on the map *)

(** [getRouteCoordinates]: the 20 newest records, oldest first. *)
Definition getRouteCoordinates (s : Session) : list (R * R) :=
  (fun loc => (latitude (sl_data loc), longitude (sl_data loc)))
    <$> reverse (take 20 (sentLocations s)).

(** ** The authentication context (context/AuthContext.tsx)

    The secure store and the authentication API are collaborators: what
    each call of them does is given to the function, [Throws] standing
    for a rejected promise. *)

Module Auth.

Record User : Type := mkUser {
  id : string;
  email : string;
  role : string;
  name : option string;
  vehicleId : option string
}.

Inductive Outcome (A : Type) : Type :=
| Ok (a : A)
| Throws.
Arguments Ok {A} a.
Arguments Throws {A}.

(** The body of the answer to [POST /user/login], once parsed. *)
Record LoginResponse : Type := mkLoginResponse {
  login_ok : bool;                    (* response.ok *)
  access_token : option string;       (* data.data?.access_token *)
  message : option string             (* data.message *)
}.

(** The answer to [GET /user/me]; its body is parsed only when it is ok. *)
Record MeResponse : Type := mkMeResponse {
  me_ok : bool;                       (* response.ok *)
  me_json : Outcome (option User)     (* (await response.json()).data *)
}.

Inductive Alert : Type :=
| AlLoginError (text : string)   (* "Error de inicio de sesion" *)
| AlNetworkError.                (* "Error de red" *)

Record State : Type := mkState {
  user : option User;
  isLoading : bool;
  accessToken : option string;      (* SecureStore, key "accessToken" *)
  alerts : list Alert
}.

Definition setUser (u : option User) (st : State) : State :=
  mkState u (isLoading st) (accessToken st) (alerts st).

Definition setIsLoading (b : bool) (st : State) : State :=
  mkState (user st) b (accessToken st) (alerts st).

Definition setItem (t : string) (st : State) : State :=
  mkState (user st) (isLoading st) (Some t) (alerts st).

Definition deleteItem (st : State) : State :=
  mkState (user st) (isLoading st) None (alerts st).

Definition alert (a : Alert) (st : State) : State :=
  mkState (user st) (isLoading st) (accessToken st) (a :: alerts st).

Definition initial : State := mkState None true None [].

(** [x || d] on an optional string. *)
Definition orString (x : option string) (d : string) : string :=
  match truthyToken x with Some v => v | None => d end.

(** What the collaborators do during one call of [login]. *)
Record LoginEnv : Type := mkLoginEnv {
  loginFetch : Outcome LoginResponse;   (* fetch and response.json() *)
  storeSet : bool;                      (* setItemAsync succeeds *)
  meFetch : Outcome MeResponse
}.

(** [login]; the [bool] tells whether the promise resolves. *)
Definition login (env : LoginEnv) (st : State) : State * bool :=
  let st := setIsLoading true st in
  let catch (st : State) : State * bool :=
    (setIsLoading false (alert AlNetworkError st), false) in
  match loginFetch env with
  | Throws => catch st
  | Ok data =>
      match (if login_ok data then truthyToken (access_token data) else None)
      with
      | Some token =>
          if storeSet env then
            let st := setItem token st in
            match meFetch env with
            | Throws => catch st
            | Ok userResponse =>
                if me_ok userResponse then
                  match me_json userResponse with
                  | Ok userData => (setIsLoading false (setUser userData st), true)
                  | Throws => catch st
                  end
                else catch st
            end
          else catch st
      | None =>
          catch
            (alert
               (AlLoginError (orString (message data) "Credenciales incorrectas."))
               st)
      end
  end.

(** [logout]; [deleted] tells whether [deleteItemAsync] succeeds. *)
Definition logout (deleted : bool) (st : State) : State :=
  if deleted then setUser None (deleteItem st) else st.

(** What the collaborators do during [loadUserFromStorage]. *)
Record LoadEnv : Type := mkLoadEnv {
  storeGet : bool;          (* getItemAsync succeeds *)
  loadMe : Outcome MeResponse;
  deleteInvalid : bool;     (* the deleteItemAsync of the rejected token *)
  deleteOnError : bool      (* the deleteItemAsync of the catch block *)
}.

Definition loadUserFromStorage (env : LoadEnv) (st : State) : State :=
  let st := setIsLoading true st in
  let catch (st : State) : State :=
    setIsLoading false (if deleteOnError env then deleteItem st else st) in
  if storeGet env then
    match truthyToken (accessToken st) with
    | Some token =>
        match loadMe env with
        | Throws => catch st
        | Ok response =>
            if me_ok response then
              match me_json response with
              | Ok userData => setIsLoading false (setUser userData st)
              | Throws => catch st
              end
            else if deleteInvalid env then setIsLoading false (deleteItem st)
                 else catch st
        end
    | None => setIsLoading false st
    end
  else catch st.

(** [useProtectedRoute]: the path given to [router.replace], if any. *)
Definition currentPathOf (segments : list string) : string :=
  let p := ("/" ++ String.concat "/" segments)%string in
  if decide (p = EmptyString) then "/"%string else p.

Definition isLoginRoute (currentPath : string) : bool :=
  bool_decide (currentPath = "/(tabs)"%string)
  || bool_decide (currentPath = "/"%string).

Definition isDriverRoute (currentPath : string) : bool :=
  String.prefix "/(tabs)/driver" currentPath.

Definition useProtectedRoute (user : option User) (isLoading : bool)
  (segments : list string) : option string :=
  if isLoading then None
  else
    let currentPath := currentPathOf segments in
    let isAuthenticated := match user with Some _ => true | None => false end in
    if negb isAuthenticated && isDriverRoute currentPath
    then Some "/(tabs)"%string
    else if isAuthenticated && isLoginRoute currentPath
         then Some "/(tabs)/driver"%string
         else None.

End Auth.

(** [disconnectFromServer] after it has dealt with the socket. *)
Definition disconnectTail (s : Session) : Session :=
  let s := setIsConnected false s in
  let s := setConnectionStatus StDesconectado s in
  let s := stopTracking s in
  let s := stopRandomDataGeneration s in
  setSessionStats
    (fun prev =>
       mkSessionStats (totalLocationsSent prev) (sessionStartTime prev)
         (lastLocationTime prev) (avgAccuracy prev) (totalDistance prev) false
         (randomDataGenerated prev)) s.

(** The events whose handler reaches [sendLocation]. *)
Definition maySubmit (e : Event) : bool :=
  match e with
  | EPositionResult _ (Some _) _ _ => true
  | EWatchCallback _ _ _ _ => true
  | ERandomTick _ _ _ _ _ => true
  | ERouteTimeout _ _ _ _ _ => true
  | ETestButton _ _ _ _ => true
  | _ => false
  end.

(** A draw of [Math.random()] lies in [0, 1). *)
Definition unitDraws (rnd : nat -> R) : Prop := forall i, 0 <= rnd i < 1.

(** The rectangle of [generateCartagenaTestLocation]. *)
Definition inCartagena (lat lng : R) : Prop :=
  10.28 <= lat <= 10.5 /\ -75.6 <= lng <= -75.35.

(** * Properties *)

(** ** Numbers *)

Lemma jsOr_zero (x : option R) : jsOr x 0 = default 0 x.
Proof.
  destruct x as [v|]; simpl; [|reflexivity].
  destruct (Req_dec_T v 0) as [->|_]; reflexivity.
Qed.

Lemma Math_atan2_0_1 : Math_atan2 0 1 = 0.
Proof.
  unfold Math_atan2. destruct (Rlt_dec 0 1) as [_|H]; [|lra].
  replace (0 / 1) with 0 by lra. apply atan_0.
Qed.

Lemma Math_atan2_1_0 : Math_atan2 1 0 = PI / 2.
Proof.
  unfold Math_atan2.
  destruct (Rlt_dec 0 0) as [H|_]; [lra|].
  destruct (Rlt_dec 0 1) as [_|H]; [reflexivity|lra].
Qed.

(** Two samples at the same coordinates are at distance 0. *)
Lemma calculateDistance_same (lat lon : R) :
  calculateDistance lat lon lat lon = 0.
Proof.
  unfold calculateDistance. cbv zeta.
  replace ((lat - lat) * PI / 180 / 2) with 0 by lra.
  replace ((lon - lon) * PI / 180 / 2) with 0 by lra.
  rewrite sin_0.
  replace (0 * 0 + cos (lat * PI / 180) * cos (lat * PI / 180) * 0 * 0)
    with 0 by lra.
  replace (1 - 0) with 1 by lra.
  rewrite sqrt_0, sqrt_1, Math_atan2_0_1. lra.
Qed.

(** Half the way round the equator. *)
Lemma calculateDistance_antipodes :
  calculateDistance 0 180 0 0 = 6371000 * PI.
Proof.
  unfold calculateDistance. cbv zeta.
  replace ((0 - 0) * PI / 180 / 2) with 0 by lra.
  replace ((0 - 180) * PI / 180 / 2) with (- (PI / 2)) by lra.
  replace (0 * PI / 180) with 0 by lra.
  rewrite sin_0, cos_0, sin_neg, sin_PI2.
  replace (0 * 0 + 1 * 1 * - (1) * - (1)) with 1 by lra.
  replace (1 - 1) with 0 by lra.
  rewrite sqrt_1, sqrt_0, Math_atan2_1_0. lra.
Qed.

Lemma calculateDistance_antipodes_pos : 0 < calculateDistance 0 180 0 0.
Proof. rewrite calculateDistance_antipodes. pose proof PI_RGT_0. lra. Qed.

(** ** sendLocation, field by field *)

Section SendLocation.
Variables (locationData : LocRef) (type : LocationType) (now : N).
Variable s : Session.

Lemma socketConnected_true :
  socketConnected s = true -> exists i, connectedSocket s = Some i.
Proof.
  unfold socketConnected. destruct (connectedSocket s) as [i|]; [|discriminate].
  intros _. exists i. reflexivity.
Qed.

Lemma sendLocation_disconnected :
  socketConnected s = false ->
  sendLocation locationData type now s = alert AlNoHayConexion s.
Proof.
  unfold socketConnected, sendLocation.
  destruct (connectedSocket s); [discriminate|reflexivity].
Qed.

Lemma sendLocation_lastLocationRef :
  lastLocationRef (sendLocation locationData type now s) = lastLocationRef s.
Proof. unfold sendLocation. destruct (connectedSocket s); reflexivity. Qed.

Lemma sendLocation_connectedSocket :
  connectedSocket (sendLocation locationData type now s) = connectedSocket s.
Proof.
  unfold sendLocation. destruct (connectedSocket s) eqn:E; [|exact E].
  rewrite <- E. reflexivity.
Qed.

Lemma sendLocation_socketConnected :
  socketConnected (sendLocation locationData type now s) = socketConnected s.
Proof. unfold socketConnected. rewrite sendLocation_connectedSocket. reflexivity. Qed.

Section Connected.
Hypothesis Hconnected : socketConnected s = true.

Lemma sendLocation_sentLocations :
  sentLocations (sendLocation locationData type now s)
  = recordOf (locationData, type, now) :: take 99 (sentLocations s).
Proof.
  destruct (socketConnected_true Hconnected) as [i Hi].
  unfold sendLocation. rewrite Hi. reflexivity.
Qed.

Lemma sendLocation_sessionStats :
  sessionStats (sendLocation locationData type now s)
  = updateStats (lastLocationRef s) locationData type (sessionStats s).
Proof.
  destruct (socketConnected_true Hconnected) as [i Hi].
  unfold sendLocation. rewrite Hi. reflexivity.
Qed.

Lemma sendLocation_emitted :
  exists i,
    connectedSocket s = Some i /\
    emitted (sendLocation locationData type now s)
    = (i, mkPayload (vehicleId s) (latitude (deref locationData))
             (longitude (deref locationData))
             (timestamp (deref locationData))
             (accuracy (deref locationData)) (speed (deref locationData))
             (heading (deref locationData))) :: emitted s.
Proof.
  destruct (socketConnected_true Hconnected) as [i Hi].
  exists i. split; [exact Hi|].
  unfold sendLocation. rewrite Hi. reflexivity.
Qed.
End Connected.
End SendLocation.

Lemma updateStats_count last l ty prev :
  totalLocationsSent (updateStats last l ty prev)
  = (totalLocationsSent prev + 1)%nat.
Proof.
  unfold updateStats.
  destruct last as [l0|]; [destruct (decide (addr l0 = addr l))|];
    destruct ty; reflexivity.
Qed.

Lemma updateStats_lastLocationTime last l ty prev :
  lastLocationTime (updateStats last l ty prev) = timestamp (deref l).
Proof.
  unfold updateStats.
  destruct last as [l0|]; [destruct (decide (addr l0 = addr l))|];
    destruct ty; reflexivity.
Qed.

Lemma updateStats_avgAccuracy last l ty prev :
  avgAccuracy (updateStats last l ty prev)
  = if Req_dec_T (avgAccuracy prev) 0
    then jsOr (accuracy (deref l)) 0
    else (avgAccuracy prev + jsOr (accuracy (deref l)) 0) / 2.
Proof.
  unfold updateStats.
  destruct last as [l0|]; [destruct (decide (addr l0 = addr l))|];
    destruct ty; reflexivity.
Qed.

Lemma updateStats_totalDistance last l ty prev :
  totalDistance (updateStats last l ty prev)
  = match last with
    | Some l0 =>
        if decide (addr l0 = addr l) then totalDistance prev
        else totalDistance prev
             + calculateDistance (latitude (deref l0)) (longitude (deref l0))
                 (latitude (deref l)) (longitude (deref l))
    | None => totalDistance prev
    end.
Proof.
  unfold updateStats.
  destruct last as [l0|]; [destruct (decide (addr l0 = addr l))|];
    destruct ty; reflexivity.
Qed.

(** ** What one step does to the history, the counter and the transport *)

Lemma ledgerChange_send e l ty now s h n em :
  sentLocations s = h -> totalLocationsSent (sessionStats s) = n ->
  emitted s = em ->
  ledgerChange e h n em
    (sentLocations (sendLocation l ty now s))
    (totalLocationsSent (sessionStats (sendLocation l ty now s)))
    (emitted (sendLocation l ty now s)).
Proof.
  intros <- <- <-. unfold sendLocation.
  destruct (connectedSocket s) as [i|].
  - eapply (ledger_sent _ _ _ _ _ _ _ (l, ty, now)); simpl;
      [reflexivity| |reflexivity].
    apply updateStats_count.
  - apply ledger_same; reflexivity.
Qed.

(** The part of the state the submissions act on. *)
Lemma books_eq (s s' : Session) :
  books s' = books s ->
  sentLocations s' = sentLocations s /\
  totalLocationsSent (sessionStats s') = totalLocationsSent (sessionStats s) /\
  emitted s' = emitted s /\ lastLocationRef s' = lastLocationRef s.
Proof. unfold books. intros H. injection H as -> -> -> ->. auto. Qed.

(** *** Handlers that leave the books alone *)

Section Quiet.
Variable s : Session.

Lemma alert_books a : books (alert a s) = books s.
Proof. reflexivity. Qed.

Lemma suspend_books p : books (suspend p s) = books s.
Proof. reflexivity. Qed.

Lemma resume_books i : books (resume i s) = books s.
Proof. reflexivity. Qed.

Lemma setSocket_books i sk : books (setSocket i sk s) = books s.
Proof. reflexivity. Qed.

Lemma setIsTracking_books b : books (setIsTracking b s) = books s.
Proof. reflexivity. Qed.

Lemma setIsConnected_books b : books (setIsConnected b s) = books s.
Proof. reflexivity. Qed.

Lemma setConnectionStatus_books c : books (setConnectionStatus c s) = books s.
Proof. reflexivity. Qed.

Lemma setCurrentLocation_books c : books (setCurrentLocation c s) = books s.
Proof. reflexivity. Qed.

Lemma set_socketRef_books r : books (set_socketRef r s) = books s.
Proof. reflexivity. Qed.

Lemma fresh_books : books (snd (fresh s)) = books s.
Proof. reflexivity. Qed.

Lemma stopTracking_books : books (stopTracking s) = books s.
Proof. unfold stopTracking; simpl; repeat (case_match; simpl); reflexivity. Qed.

Lemma stopRandomDataGeneration_books :
  books (stopRandomDataGeneration s) = books s.
Proof.
  unfold stopRandomDataGeneration; simpl; repeat (case_match; simpl);
    reflexivity.
Qed.

Lemma startRandomDataGeneration_books :
  books (startRandomDataGeneration s) = books s.
Proof. unfold startRandomDataGeneration. case_match; reflexivity. Qed.

Lemma connectToServer_books : books (connectToServer s) = books s.
Proof. unfold connectToServer. case_match; reflexivity. Qed.

Lemma tokenResult_books r : books (tokenResult r s) = books s.
Proof. unfold tokenResult. repeat case_match; reflexivity. Qed.

Lemma onConnect_books iso : books (onConnect iso s) = books s.
Proof. reflexivity. Qed.

Lemma onConnectError_books m : books (onConnectError m s) = books s.
Proof. reflexivity. Qed.

Lemma watchResult_books ok : books (watchResult ok s) = books s.
Proof. destruct ok; reflexivity. Qed.

Lemma afterLocation_None_books k now : books (afterLocation k None now s) = books s.
Proof. destruct k; reflexivity. Qed.

Lemma routeSend_books : books (routeSend s) = books s.
Proof. unfold routeSend. case_match; reflexivity. Qed.

Lemma generateAndSendRandomRoute_books rnd :
  books (generateAndSendRandomRoute rnd s) = books s.
Proof. unfold generateAndSendRandomRoute. repeat case_match; reflexivity. Qed.
End Quiet.

Lemma onDisconnect_books reason s : books (onDisconnect reason s) = books s.
Proof.
  unfold onDisconnect. cbv zeta.
  rewrite alert_books, stopRandomDataGeneration_books, stopTracking_books.
  reflexivity.
Qed.

Lemma socketDisconnect_books i s : books (socketDisconnect i s) = books s.
Proof.
  unfold socketDisconnect. repeat case_match; rewrite ?onDisconnect_books;
    reflexivity.
Qed.

Lemma disconnectFromServer_books s : books (disconnectFromServer s) = books s.
Proof.
  unfold disconnectFromServer. cbv zeta.
  set (s1 := match socketRef s with Some i => _ | None => s end).
  assert (H1 : books s1 = books s).
  { subst s1. case_match; [|reflexivity].
    rewrite set_socketRef_books. apply socketDisconnect_books. }
  rewrite <- H1. generalize s1. clear. intros s.
  set (s2 := stopRandomDataGeneration _).
  assert (H2 : books s2 = books s).
  { subst s2. rewrite stopRandomDataGeneration_books, stopTracking_books.
    reflexivity. }
  rewrite <- H2. generalize s2. clear. intros s. reflexivity.
Qed.

Lemma getCurrentLocation_books perm k s :
  books (getCurrentLocation perm k s) = books s.
Proof.
  unfold getCurrentLocation.
  destruct perm; rewrite ?afterLocation_None_books; reflexivity.
Qed.

Lemma startTracking_books s : books (startTracking s) = books s.
Proof.
  unfold startTracking. repeat case_match; rewrite ?getCurrentLocation_books;
    reflexivity.
Qed.

Lemma trackingTick_books s : books (trackingTick s) = books s.
Proof. apply getCurrentLocation_books. Qed.

Lemma sendCurrentLocationManually_books s :
  books (sendCurrentLocationManually s) = books s.
Proof.
  unfold sendCurrentLocationManually.
  case_match; rewrite ?getCurrentLocation_books; reflexivity.
Qed.

Lemma onRefresh_books s : books (onRefresh s) = books s.
Proof. apply getCurrentLocation_books. Qed.

(** *** The effect of an event *)

Lemma effect_quiet e s s' : books s' = books s -> effect e s s'.
Proof.
  intros H. apply books_eq in H as (Hh & Hn & Hem & Hl).
  split; [apply ledger_same; assumption | intros _; exact Hl].
Qed.

(** One call of [sendLocation] after steps that left the books alone. *)
Lemma effect_send e l ty now s s1 :
  books s1 = books s -> effect e s (sendLocation l ty now s1).
Proof.
  intros H. apply books_eq in H as (Hh & Hn & Hem & Hl).
  split.
  - rewrite <- Hh, <- Hn, <- Hem. apply ledgerChange_send; reflexivity.
  - intros _. rewrite sendLocation_lastLocationRef. exact Hl.
Qed.

(** The same for the two events that assign [lastLocationRef] first. *)
Lemma effect_send_writing e l ty now s s1 :
  writesLastLocation e = true ->
  sentLocations s1 = sentLocations s ->
  totalLocationsSent (sessionStats s1) = totalLocationsSent (sessionStats s) ->
  emitted s1 = emitted s ->
  effect e s (sendLocation l ty now s1).
Proof.
  intros Hw Hh Hn Hem. split.
  - rewrite <- Hh, <- Hn, <- Hem. apply ledgerChange_send; reflexivity.
  - rewrite Hw. discriminate.
Qed.

Lemma effect_then e s s1 s2 : effect e s s1 -> books s2 = books s1 -> effect e s s2.
Proof.
  intros [Hl Hr] H. apply books_eq in H as (Hh & Hn & Hem & Hlast).
  split.
  - rewrite Hh, Hn, Hem. exact Hl.
  - intros Hw. rewrite Hlast. apply Hr. exact Hw.
Qed.

Lemma afterLocation_effect e k r now s s1 :
  books s1 = books s -> effect e s (afterLocation k r now s1).
Proof.
  intros H. destruct r as [l|].
  - destruct k; simpl.
    + apply effect_quiet. exact H.
    + eapply effect_then; [apply effect_send; exact H | apply suspend_books].
    + apply effect_send. exact H.
    + eapply effect_then; [apply effect_send; exact H | apply alert_books].
  - apply effect_quiet. rewrite afterLocation_None_books. exact H.
Qed.

Lemma positionResult_effect k res iso now i s :
  effect (EPositionResult i res iso now) s (positionResult k res iso now (resume i s)).
Proof.
  unfold positionResult, getCurrentLocation_settled.
  destruct res as [location|]; simpl.
  - destruct k; simpl.
    + split; [apply ledger_same; reflexivity | discriminate].
    + eapply effect_then; [|apply suspend_books].
      apply effect_send_writing; reflexivity.
    + apply effect_send_writing; reflexivity.
    + eapply effect_then; [|apply alert_books].
      apply effect_send_writing; reflexivity.
  - apply afterLocation_effect. reflexivity.
Qed.

Lemma watchCallback_effect e location iso now s :
  effect e s (watchCallback location iso now s).
Proof. unfold watchCallback. simpl. apply effect_send. reflexivity. Qed.

Lemma sendRandom_effect e d nowObj now s s1 :
  books s1 = books s -> effect e s (sendRandom d nowObj now s1).
Proof. intros H. unfold sendRandom. simpl. apply effect_send. exact H. Qed.

Lemma randomTick_effect e rnd iso nowObj now s :
  effect e s (randomTick rnd iso nowObj now s).
Proof.
  unfold randomTick. case_match.
  - apply sendRandom_effect. reflexivity.
  - apply effect_quiet. reflexivity.
Qed.

Lemma useCartagenaTestLocation_effect rnd iso nowObj now s :
  effect (ETestButton rnd iso nowObj now) s
    (useCartagenaTestLocation rnd iso nowObj now s).
Proof.
  unfold useCartagenaTestLocation. simpl. destruct (isConnected s).
  - eapply effect_then; [|apply alert_books].
    apply effect_send_writing; reflexivity.
  - split; [apply ledger_same; reflexivity | discriminate].
Qed.

Lemma clearHistory_effect s : effect EClearConfirmed s (clearHistory s).
Proof.
  split; [apply ledger_cleared; reflexivity | intros _; reflexivity].
Qed.

(** Every step leaves the ledger alone, makes one submission, or is the
    confirmed clearing; and only a settled position fetch and the test
    button assign [lastLocationRef]. *)
Lemma step_effect s e s' : step s e = Some s' -> effect e s s'.
Proof.
  destruct e; simpl; intros H; repeat case_match; simplify_eq.
  all: try (apply effect_quiet;
            rewrite ?disconnectFromServer_books, ?connectToServer_books,
              ?tokenResult_books, ?onConnect_books, ?onDisconnect_books,
              ?onConnectError_books, ?stopTracking_books, ?startTracking_books,
              ?watchResult_books, ?trackingTick_books,
              ?stopRandomDataGeneration_books, ?startRandomDataGeneration_books,
              ?generateAndSendRandomRoute_books, ?routeSend_books,
              ?sendCurrentLocationManually_books, ?onRefresh_books;
            reflexivity).
  - apply positionResult_effect.
  - apply watchCallback_effect.
  - apply randomTick_effect.
  - apply sendRandom_effect. reflexivity.
  - apply useCartagenaTestLocation_effect.
  - apply clearHistory_effect.
Qed.

Lemma ledgerChange_length e h n em h' n' em' :
  ledgerChange e h n em h' n' em' ->
  (length h <= 100)%nat -> (length h' <= 100)%nat.
Proof.
  intros [-> _ _| r x -> _ _ | _ -> _ _] Hh; simpl; [exact Hh| |lia].
  rewrite length_take. lia.
Qed.

Lemma reachable_history_length s :
  reachable s -> (length (sentLocations s) <= 100)%nat.
Proof.
  induction 1 as [v start | s s' e _ IH Hstep]; simpl; [lia|].
  destruct (step_effect _ _ _ Hstep) as [Hl _].
  eapply ledgerChange_length; [exact Hl | exact IH].
Qed.

(** Without a clearing, the counter moves with the emitted messages. *)
Lemma run_count_emitted es : forall s s',
  run s es = Some s' -> EClearConfirmed ∉ es ->
  (totalLocationsSent (sessionStats s') + length (emitted s)
   = totalLocationsSent (sessionStats s) + length (emitted s'))%nat.
Proof.
  induction es as [|e es IH]; intros s s' Hrun Hno; simpl in Hrun.
  - simplify_eq. reflexivity.
  - destruct (step s e) as [s1|] eqn:Hstep; [|discriminate].
    apply not_elem_of_cons in Hno as [Hne Hno].
    specialize (IH _ _ Hrun Hno).
    destruct (step_effect _ _ _ Hstep) as [[Hh Hn Hem | r x Hh Hn Hem | He _ _ _] _].
    + rewrite Hn, Hem in IH. exact IH.
    + rewrite Hn, Hem in IH. simpl in IH. lia.
    + congruence.
Qed.

(** ** Sequences of submissions *)

Lemma submitAll_cons c cs s : submitAll (c :: cs) s = submitAll cs (submit s c).
Proof. reflexivity. Qed.

Lemma submit_socketConnected s c : socketConnected (submit s c) = socketConnected s.
Proof. destruct c as [[l ty] now]. apply sendLocation_socketConnected. Qed.

Lemma submit_sentLocations s c :
  socketConnected s = true ->
  sentLocations (submit s c) = recordOf c :: take 99 (sentLocations s).
Proof. destruct c as [[l ty] now]. apply sendLocation_sentLocations. Qed.

Lemma submit_count s c :
  socketConnected s = true ->
  totalLocationsSent (sessionStats (submit s c))
  = (totalLocationsSent (sessionStats s) + 1)%nat.
Proof.
  destruct c as [[l ty] now]. intros H. simpl.
  rewrite sendLocation_sessionStats by exact H. apply updateStats_count.
Qed.

Lemma submitAll_count cs : forall s,
  socketConnected s = true ->
  totalLocationsSent (sessionStats (submitAll cs s))
  = (totalLocationsSent (sessionStats s) + length cs)%nat.
Proof.
  induction cs as [|c cs IH]; intros s H; simpl; [lia|].
  fold (submitAll cs (submit s c)).
  rewrite IH by (rewrite submit_socketConnected; exact H).
  rewrite submit_count by exact H. lia.
Qed.

(** Cutting the tail of the old history before pushing in front of it
    does not change what the next cut keeps. *)
Lemma take_push_take {A} (r : A) (h : list A) (n : nat) : forall (l : list A) (m : nat),
  (m <= S n)%nat -> take m (l ++ r :: take n h) = take m (l ++ r :: h).
Proof.
  induction l as [|a l IH]; intros m Hm; simpl.
  - destruct m as [|m]; simpl; [reflexivity|].
    rewrite take_take. f_equal. f_equal. lia.
  - destruct m as [|m]; simpl; [reflexivity|].
    f_equal. apply IH. lia.
Qed.

Lemma submitAll_sentLocations cs : forall s,
  socketConnected s = true ->
  take 100 (sentLocations (submitAll cs s))
  = take 100 (reverse (recordOf <$> cs) ++ sentLocations s).
Proof.
  induction cs as [|c cs IH]; intros s H; [reflexivity|].
  rewrite submitAll_cons, IH by (rewrite submit_socketConnected; exact H).
  rewrite submit_sentLocations by exact H.
  rewrite fmap_cons, reverse_cons, <- app_assoc. simpl.
  apply take_push_take. lia.
Qed.

Lemma submitAll_length cs : forall s,
  socketConnected s = true -> (length (sentLocations s) <= 100)%nat ->
  (length (sentLocations (submitAll cs s)) <= 100)%nat.
Proof.
  induction cs as [|c cs IH]; intros s H Hl; [exact Hl|].
  rewrite submitAll_cons. apply IH.
  - rewrite submit_socketConnected. exact H.
  - rewrite submit_sentLocations by exact H. simpl. rewrite length_take. lia.
Qed.

(** ** Runs and reachability *)

Lemma run_app es1 : forall s es2,
  run s (es1 ++ es2) = run s es1 ≫= fun s1 => run s1 es2.
Proof.
  induction es1 as [|e es1 IH]; intros s es2; simpl; [reflexivity|].
  destruct (step s e) as [s'|]; [apply IH|reflexivity].
Qed.

Lemma run_reachable es : forall s s',
  reachable s -> run s es = Some s' -> reachable s'.
Proof.
  induction es as [|e es IH]; intros s s' Hs Hrun; simpl in Hrun.
  - simplify_eq. exact Hs.
  - destruct (step s e) as [s1|] eqn:Hstep; [|discriminate].
    apply (IH s1); [|exact Hrun].
    eapply reachable_step; [exact Hs|exact Hstep].
Qed.

Lemma freshSession_reachable : reachable freshSession.
Proof. apply reachable_initial. Qed.

Lemma run_connectEvents : run freshSession connectEvents = Some connectedSession.
Proof.
  unfold connectedSession.
  destruct (run freshSession connectEvents) eqn:E; [reflexivity|].
  vm_compute in E. discriminate E.
Qed.

Lemma run_trackingEvents :
  run connectedSession trackingEvents = Some trackingSession.
Proof.
  unfold trackingSession.
  destruct (run connectedSession trackingEvents) eqn:E; [reflexivity|].
  vm_compute in E. discriminate E.
Qed.

Lemma connectedSession_reachable : reachable connectedSession.
Proof.
  apply (run_reachable connectEvents freshSession);
    [apply freshSession_reachable|apply run_connectEvents].
Qed.

Lemma trackingSession_reachable : reachable trackingSession.
Proof.
  apply (run_reachable trackingEvents connectedSession);
    [apply connectedSession_reachable|apply run_trackingEvents].
Qed.


(** ** The random fixture at the draw 0 *)

Lemma Math_floor_0 (x : R) : Math_floor (0 * x) = 0%Z.
Proof.
  unfold Math_floor. symmetry. apply Int_part_spec.
  rewrite Rmult_0_l. simpl. lra.
Qed.

Lemma generateRandomTestData_0 :
  generateRandomTestData (fun _ => 0) = Some randomDraw0.
Proof.
  unfold generateRandomTestData. cbv zeta. rewrite !Math_floor_0. reflexivity.
Qed.

(** ** Single steps, for evaluating runs *)

Section Steps.
Variable s : Session.

Lemma step_ERandomButton_start :
  isConnected s = true -> isGeneratingRandomData s = false ->
  step s ERandomButton = Some (startRandomDataGeneration s).
Proof. intros H1 H2. simpl. rewrite H1, H2. reflexivity. Qed.

Lemma step_ERandomTick t rnd iso nowObj now :
  timers s !! t = Some TimerRandom ->
  step s (ERandomTick t rnd iso nowObj now)
  = Some (randomTick rnd iso nowObj now s).
Proof. intros H. simpl. rewrite H. reflexivity. Qed.

Lemma step_EWatchCallback sub location iso now :
  sub ∈ subscriptions s ->
  step s (EWatchCallback sub location iso now)
  = Some (watchCallback location iso now s).
Proof.
  intros H. simpl.
  destruct (decide (sub ∈ subscriptions s)); [reflexivity|contradiction].
Qed.


Lemma watchCallback_subscriptions location iso now :
  subscriptions (watchCallback location iso now s) = subscriptions s.
Proof.
  unfold watchCallback, sendLocation. simpl. case_match; reflexivity.
Qed.

Lemma watchCallback_socketConnected location iso now :
  socketConnected (watchCallback location iso now s) = socketConnected s.
Proof.
  unfold watchCallback. simpl. rewrite sendLocation_socketConnected.
  reflexivity.
Qed.

Lemma watchCallback_sentLocations location iso now :
  socketConnected s = true ->
  sentLocations (watchCallback location iso now s)
  = mkSentLocation (locationDataOf (coords location) iso) (pretty now) TAuto
      :: take 99 (sentLocations s).
Proof.
  intros H. unfold watchCallback. simpl.
  rewrite sendLocation_sentLocations; [reflexivity|exact H].
Qed.

(** The distance a position callback adds is measured from the object
    in [lastLocationRef], whatever was submitted before. *)
Lemma watchCallback_totalDistance location iso now last :
  socketConnected s = true ->
  lastLocationRef s = Some last ->
  addr last <> nextId s ->
  totalDistance (sessionStats (watchCallback location iso now s))
  = totalDistance (sessionStats s)
    + calculateDistance (latitude (deref last)) (longitude (deref last))
        (c_latitude (coords location)) (c_longitude (coords location)).
Proof.
  intros Hc Hl Ha. unfold watchCallback. simpl.
  rewrite sendLocation_sessionStats by exact Hc.
  rewrite updateStats_totalDistance. simpl. rewrite Hl. simpl.
  destruct (decide (addr last = nextId s)); [contradiction|reflexivity].
Qed.

(** A sample that comes from [getCurrentLocation] is its own baseline:
    submitting it adds no distance. *)
Lemma positionResult_totalDistance k location iso now :
  totalDistance (sessionStats (positionResult k (Some location) iso now s))
  = totalDistance (sessionStats s).
Proof.
  unfold positionResult, getCurrentLocation_settled. simpl.
  assert (H : forall ty s1,
            lastLocationRef s1
            = Some (mkLocRef (nextId s)
                      (locationDataOf (coords location) iso)) ->
            totalDistance
              (sessionStats
                 (sendLocation
                    (mkLocRef (nextId s)
                       (locationDataOf (coords location) iso)) ty now s1))
            = totalDistance (sessionStats s1)).
  { intros ty s1 Hl. unfold sendLocation.
    destruct (connectedSocket s1); [|reflexivity]. simpl.
    rewrite updateStats_totalDistance, Hl. simpl.
    destruct (decide (nextId s = nextId s)); [reflexivity|contradiction]. }
  destruct k; simpl; rewrite ?H; reflexivity.
Qed.

(** The same holds for the test location. *)
Lemma useCartagenaTestLocation_totalDistance rnd iso nowObj now :
  totalDistance (sessionStats (useCartagenaTestLocation rnd iso nowObj now s))
  = totalDistance (sessionStats s).
Proof.
  unfold useCartagenaTestLocation. simpl.
  destruct (isConnected s); [|reflexivity]. simpl.
  unfold sendLocation. case_match; [|reflexivity]. simpl.
  rewrite updateStats_totalDistance. simpl.
  destruct (decide (nextId s = nextId s)); [reflexivity|contradiction].
Qed.
End Steps.

(** * The claims *)

(** ** Submissions while the transport is connected *)

(** C4.  After [N] successful calls of [sendLocation] in a row, starting
    from a counter of 0 and with no clearing in between,
    [totalLocationsSent] is [N]: the cut of the history to 100 entries
    never takes anything from the counter. *)
Theorem totalLocationsSent_counts_submissions (cs : list Submission)
  (s : Session) :
  socketConnected s = true ->
  totalLocationsSent (sessionStats s) = 0%nat ->
  totalLocationsSent (sessionStats (submitAll cs s)) = length cs.
Proof.
  intros Hc H0. rewrite submitAll_count by exact Hc. rewrite H0. reflexivity.
Qed.

Lemma totalLocationsSent_counts_submissions_witness :
  socketConnected connectedSession = true /\
  totalLocationsSent (sessionStats connectedSession) = 0%nat /\
  totalLocationsSent
    (sessionStats
       (submitAll (replicate 101 (sampleAt 7 10 (-75) "t", TAuto, 1714557600000%N))
          connectedSession))
  = 101%nat.
Proof.
  split; [reflexivity|]. split; [reflexivity|].
  apply (totalLocationsSent_counts_submissions
           (replicate 101 (sampleAt 7 10 (-75) "t", TAuto, 1714557600000%N))
           connectedSession); reflexivity.
Defined.

(** C5.  After [N] successful submissions on an empty history the history
    holds the [min N 100] newest records, newest first: it is the first
    100 entries of the reversed sequence of submissions, so its first
    element is the last submission and the oldest ones are the ones left
    out.  In every reachable state the history has at most 100 entries. *)
Theorem history_newest_first_capped (cs : list Submission) (s : Session) :
  socketConnected s = true ->
  sentLocations s = [] ->
  sentLocations (submitAll cs s) = take 100 (reverse (recordOf <$> cs))
  /\ length (sentLocations (submitAll cs s)) = (length cs `min` 100)%nat
  /\ head (sentLocations (submitAll cs s)) = recordOf <$> last cs
  /\ (forall s', reachable s' -> (length (sentLocations s') <= 100)%nat).
Proof.
  intros Hc He.
  assert (Hs : sentLocations (submitAll cs s)
               = take 100 (reverse (recordOf <$> cs))).
  { rewrite <- (take_ge (sentLocations (submitAll cs s)) 100).
    - rewrite submitAll_sentLocations by exact Hc.
      rewrite He, app_nil_r. reflexivity.
    - apply submitAll_length; [exact Hc|]. rewrite He. simpl. lia. }
  split; [exact Hs|]. rewrite Hs. split; [|split].
  - rewrite length_take, length_reverse, length_fmap. lia.
  - rewrite <- fmap_last, <- head_reverse.
    destruct (reverse (recordOf <$> cs)); reflexivity.
  - exact reachable_history_length.
Qed.

Lemma history_newest_first_capped_witness :
  socketConnected connectedSession = true /\
  sentLocations connectedSession = [] /\
  length
    (sentLocations
       (submitAll
          (replicate 100 (sampleAt 7 10 (-75) "t", TAuto, 1714557600000%N)
           ++ [(sampleAt 8 11 (-75) "u", TManual, 1714557600001%N)])
          connectedSession))
  = 100%nat.
Proof.
  split; [reflexivity|]. split; [reflexivity|].
  apply (history_newest_first_capped
           (replicate 100 (sampleAt 7 10 (-75) "t", TAuto, 1714557600000%N)
            ++ [(sampleAt 8 11 (-75) "u", TManual, 1714557600001%N)])
           connectedSession); reflexivity.
Defined.

(** C6.  A successful submission adds one to [totalLocationsSent], sets
    [lastLocationTime] to the sample's timestamp, and moves the running
    accuracy by [avg' = (avg == 0 ? accuracy : (avg + accuracy) / 2)],
    where a sample without accuracy counts as accuracy 0. *)
Theorem sendLocation_updates_stats (locationData : LocRef)
  (type : LocationType) (now : N) (s : Session) :
  socketConnected s = true ->
  let prev := sessionStats s in
  let next := sessionStats (sendLocation locationData type now s) in
  let acc := default 0 (accuracy (deref locationData)) in
  totalLocationsSent next = (totalLocationsSent prev + 1)%nat
  /\ lastLocationTime next = timestamp (deref locationData)
  /\ avgAccuracy next
     = (if Req_dec_T (avgAccuracy prev) 0 then acc
        else (avgAccuracy prev + acc) / 2).
Proof.
  intros Hc prev next acc. subst prev next acc.
  rewrite sendLocation_sessionStats by exact Hc.
  rewrite updateStats_count, updateStats_lastLocationTime,
    updateStats_avgAccuracy, jsOr_zero.
  auto.
Qed.

Lemma sendLocation_updates_stats_witness :
  socketConnected connectedSession = true /\
  avgAccuracy
    (sessionStats
       (sendLocation (sampleAt 7 10 (-75) "t") TManual 1714557600000%N
          connectedSession))
  = 5.
Proof.
  split; [reflexivity|].
  destruct (sendLocation_updates_stats (sampleAt 7 10 (-75) "t") TManual
              1714557600000%N connectedSession eq_refl) as (_ & _ & H).
  rewrite H. simpl. destruct (Req_dec_T 0 0) as [_|Hne]; [reflexivity|].
  exfalso. apply Hne. reflexivity.
Defined.

(** C7.  While the transport is not connected, [sendLocation] raises the
    "no connection" alert and does nothing else: history, statistics,
    distance baseline and every other part of the state are as before
    and nothing is emitted. *)
Theorem sendLocation_without_transport (locationData : LocRef)
  (type : LocationType) (now : N) (s : Session) :
  socketConnected s = false ->
  sendLocation locationData type now s
  = set_alerts (AlNoHayConexion :: alerts s) s
  /\ sentLocations (sendLocation locationData type now s) = sentLocations s
  /\ sessionStats (sendLocation locationData type now s) = sessionStats s
  /\ emitted (sendLocation locationData type now s) = emitted s
  /\ lastLocationRef (sendLocation locationData type now s) = lastLocationRef s.
Proof.
  intros H. rewrite (sendLocation_disconnected _ _ _ _ H).
  repeat split; reflexivity.
Qed.

Lemma sendLocation_without_transport_witness :
  socketConnected freshSession = false /\
  sendLocation (sampleAt 7 10 (-75) "t") TManual 1714557600000%N freshSession
  = set_alerts (AlNoHayConexion :: alerts freshSession) freshSession.
Proof.
  split; [reflexivity|].
  apply (sendLocation_without_transport (sampleAt 7 10 (-75) "t") TManual
           1714557600000%N freshSession). reflexivity.
Defined.

(** ** Stopping *)

(** [stopTracking] done twice is [stopTracking] done once.  It removes
    the position subscription and clears the timer that the two refs
    hold, and it leaves history and statistics as they are. *)
Lemma stopTracking_idempotent (s : Session) :
  stopTracking (stopTracking s) = stopTracking s
  /\ isTracking (stopTracking s) = false
  /\ locationSubscription (stopTracking s) = None
  /\ trackingIntervalRef (stopTracking s) = None
  /\ subscriptions (stopTracking s)
     = match locationSubscription s with
       | Some sub => subscriptions s ∖ {[sub]}
       | None => subscriptions s
       end
  /\ timers (stopTracking s)
     = match trackingIntervalRef s with
       | Some t => delete t (timers s)
       | None => timers s
       end
  /\ sentLocations (stopTracking s) = sentLocations s
  /\ sessionStats (stopTracking s) = sessionStats s.
Proof.
  destruct s as [? ? ? ? ? ? ? ? ? ? ? ? sub t ? ? ? ? ? ? ? ? ? ? ? ?].
  unfold stopTracking. simpl.
  destruct sub as [sub|], t as [t|]; simpl; repeat split; reflexivity.
Qed.

Lemma run_restartEvents :
  run connectedSession restartEvents = Some restartedSession.
Proof.
  unfold restartedSession.
  destruct (run connectedSession restartEvents) eqn:E; [reflexivity|].
  vm_compute in E. discriminate E.
Qed.

Lemma step_ETrackingButton_stop (s : Session) :
  isConnected s = true -> permissionStatus s = Granted -> isTracking s = true ->
  step s ETrackingButton = Some (stopTracking s).
Proof. intros Hc Hp Ht. cbn [step]. rewrite Hc, Hp, Ht. reflexivity. Qed.

(** C9, the code at the failing input.  Tracking is started, stopped
    while the first position fetch is pending, and started again; both
    starts run to their end, and the second overwrites the two refs.
    The press that follows is handled by [stopTracking]: it returns with
    tracking off and both refs empty, but the subscription and the timer
    of the first start are still alive.  A sample then delivered by that
    subscription is submitted, and that timer still fires. *)
Theorem stopTracking_leaves_first_start_alive :
  run connectedSession restartEvents = Some restartedSession
  /\ step restartedSession ETrackingButton = Some stoppedSession
  /\ reachable stoppedSession
  /\ isTracking stoppedSession = false
  /\ locationSubscription stoppedSession = None
  /\ trackingIntervalRef stoppedSession = None
  /\ 1%nat ∈ subscriptions stoppedSession
  /\ timers stoppedSession !! 2%nat = Some TimerTracking
  /\ step stoppedSession
       (EWatchCallback 1 (positionAt 0 0 1714557604000)
          "2024-05-01T10:00:04.000Z" 1714557604001)
     = Some (watchCallback (positionAt 0 0 1714557604000)
               "2024-05-01T10:00:04.000Z" 1714557604001 stoppedSession)
  /\ length
       (emitted
          (watchCallback (positionAt 0 0 1714557604000)
             "2024-05-01T10:00:04.000Z" 1714557604001 stoppedSession))
     = S (length (emitted stoppedSession))
  /\ step stoppedSession (ETrackingTick 2) = Some (trackingTick stoppedSession)
  /\ stopTracking stoppedSession = stoppedSession.
Proof.
  assert (Hstop : step restartedSession ETrackingButton = Some stoppedSession).
  { apply step_ETrackingButton_stop; vm_compute; reflexivity. }
  assert (Hsub : 1%nat ∈ subscriptions stoppedSession)
    by (vm_compute; reflexivity).
  assert (Htimer : timers stoppedSession !! 2%nat = Some TimerTracking)
    by (vm_compute; reflexivity).
  split; [apply run_restartEvents|]. split; [exact Hstop|].
  split.
  { apply (reachable_step restartedSession stoppedSession ETrackingButton);
      [|exact Hstop].
    apply (run_reachable restartEvents connectedSession);
      [apply connectedSession_reachable|apply run_restartEvents]. }
  split; [reflexivity|].
  split; [vm_compute; reflexivity|]. split; [vm_compute; reflexivity|].
  split; [exact Hsub|]. split; [exact Htimer|].
  split; [apply step_EWatchCallback, Hsub|].
  split; [vm_compute; reflexivity|].
  split; [cbn [step]; rewrite Htimer; reflexivity|].
  unfold stoppedSession.
  destruct (stopTracking_idempotent restartedSession) as [H _]. exact H.
Qed.

(** ** The distance baseline *)

(** C10.  [sendLocation] leaves [lastLocationRef] as it is; of all the
    events only a settled one-shot position fetch and the test-location
    button assign it; in particular the callback of the continuous
    subscription does not, so the sample it delivers is not the baseline
    of a later submission. *)
Theorem lastLocationRef_frame (s s' : Session) (e : Event) :
  step s e = Some s' ->
  (writesLastLocation e = false -> lastLocationRef s' = lastLocationRef s)
  /\ (forall l ty now,
        lastLocationRef (sendLocation l ty now s) = lastLocationRef s)
  /\ (forall location iso now,
        lastLocationRef (watchCallback location iso now s) = lastLocationRef s).
Proof.
  intros H. split; [|split].
  - apply (step_effect _ _ _ H).
  - intros l ty now. apply sendLocation_lastLocationRef.
  - intros location iso now. unfold watchCallback. simpl.
    rewrite sendLocation_lastLocationRef. reflexivity.
Qed.

Lemma lastLocationRef_frame_witness :
  step trackingSession
    (EWatchCallback 1 (positionAt 0 180 1714557603000)
       "2024-05-01T10:00:03.000Z" 1714557603001)
  = Some (watchCallback (positionAt 0 180 1714557603000)
            "2024-05-01T10:00:03.000Z" 1714557603001 trackingSession)
  /\ lastLocationRef
       (watchCallback (positionAt 0 180 1714557603000)
          "2024-05-01T10:00:03.000Z" 1714557603001 trackingSession)
     = lastLocationRef trackingSession.
Proof.
  assert (H : step trackingSession
                (EWatchCallback 1 (positionAt 0 180 1714557603000)
                   "2024-05-01T10:00:03.000Z" 1714557603001)
              = Some (watchCallback (positionAt 0 180 1714557603000)
                        "2024-05-01T10:00:03.000Z" 1714557603001
                        trackingSession)) by reflexivity.
  split; [exact H|].
  exact (proj1 (lastLocationRef_frame _ _ _ H) eq_refl).
Defined.

(** ** Identifier and kind of a record *)


(** The identifier is the clock reading, so it repeats when two
    submissions are handled within the same millisecond. *)
Lemma same_clock_same_id :
  exists r1 r2,
    run trackingSession sameClockEvents = Some sameClockSecond /\
    sentLocations sameClockSecond !! 0%nat = Some r1 /\
    sentLocations sameClockSecond !! 1%nat = Some r2 /\
    sl_data r1 <> sl_data r2 /\ sl_id r1 = sl_id r2.
Proof.
  assert (Hsub : 1%nat ∈ subscriptions trackingSession)
    by (vm_compute; reflexivity).
  assert (Hc : socketConnected trackingSession = true)
    by (vm_compute; reflexivity).
  exists (mkSentLocation
            (locationDataOf (coords (positionAt 0 180 1714557603000))
               "2024-05-01T10:00:03.001Z")
            (pretty 1714557603001%N) TAuto),
    (mkSentLocation
       (locationDataOf (coords (positionAt 0 0 1714557603000))
          "2024-05-01T10:00:03.000Z")
       (pretty 1714557603001%N) TAuto).
  split; [|split; [|split; [|split]]].
  - unfold sameClockEvents. cbn [run].
    rewrite step_EWatchCallback by exact Hsub. fold sameClockFirst.
    rewrite step_EWatchCallback
      by (unfold sameClockFirst; rewrite watchCallback_subscriptions; exact Hsub).
    reflexivity.
  - unfold sameClockSecond.
    rewrite watchCallback_sentLocations; [reflexivity|].
    unfold sameClockFirst. rewrite watchCallback_socketConnected. exact Hc.
  - unfold sameClockSecond.
    rewrite watchCallback_sentLocations
      by (unfold sameClockFirst; rewrite watchCallback_socketConnected; exact Hc).
    unfold sameClockFirst.
    rewrite watchCallback_sentLocations by exact Hc. reflexivity.
  - simpl. intros H. injection H as H. lra.
  - reflexivity.
Qed.




(** ** Connecting without a token *)

Lemma lookup_app_length {A} (l : list A) (x : A) : (l ++ [x]) !! length l = Some x.
Proof. induction l as [|a l IH]; simpl; [reflexivity|exact IH]. Qed.

Lemma delete_app_length {A} (l : list A) (x : A) : delete (length l) (l ++ [x]) = l.
Proof. induction l as [|a l IH]; simpl; [reflexivity|]. f_equal. exact IH. Qed.

Lemma token_missing_state (s : Session) :
  isConnecting s = false ->
  setIsConnecting false
    (setConnectionStatus StErrorAutenticacion
       (alert AlTokenNoEncontrado
          (resume (length (pending s))
             (suspend PToken
                (setConnectionStatus StConectando (setIsConnecting true s))))))
  = set_alerts (AlTokenNoEncontrado :: alerts s)
      (setConnectionStatus StErrorAutenticacion s).
Proof.
  destruct s. cbn [isConnecting]. intros ->. session_fields.
  rewrite delete_app_length. reflexivity.
Qed.

(** C8, as stated, fails: the press on "connect" makes the session
    connecting before the token is read, and the failed read leaves the
    status text changed. *)
Lemma connecting_before_token_is_read :
  exists s1 s2,
    step freshSession EConnectButton = Some s1 /\
    isConnecting s1 = true /\
    step s1 (ETokenResult 0 (Some None)) = Some s2 /\
    connectionStatus s2 <> connectionStatus freshSession.
Proof.
  exists (connectToServer freshSession),
    (tokenResult (Some None) (resume 0 (connectToServer freshSession))).
  split; [reflexivity|]. split; [reflexivity|]. split; [reflexivity|].
  simpl. discriminate.
Qed.

(** C8, amended.  With no token in the store (or an empty one),
    [connectToServer] raises the missing-token alert and opens no
    transport: no socket is created, [socketRef] is not assigned and the
    session never becomes connected.  From the press until the read
    settles the session is connecting; afterwards it is as before the
    press except for the alert and the status text. *)
Theorem connect_without_token (s : Session) (t : option string) :
  isConnecting s = false ->
  isConnected s = false ->
  truthyToken t = None ->
  let s1 := connectToServer s in
  step s EConnectButton = Some s1
  /\ isConnecting s1 = true /\ isConnected s1 = false
  /\ sockets s1 = sockets s /\ socketRef s1 = socketRef s
  /\ step s1 (ETokenResult (length (pending s)) (Some t))
     = Some (set_alerts (AlTokenNoEncontrado :: alerts s)
               (setConnectionStatus StErrorAutenticacion s)).
Proof.
  intros Hg Hd Ht s1. subst s1.
  assert (Hs1 : connectToServer s
                = suspend PToken
                    (setConnectionStatus StConectando (setIsConnecting true s))).
  { unfold connectToServer. rewrite Hg, Hd. reflexivity. }
  split; [simpl; rewrite Hg, Hd; reflexivity|].
  rewrite Hs1. split; [reflexivity|]. split; [exact Hd|].
  split; [reflexivity|]. split; [reflexivity|].
  cbn [step]. unfold suspend at 1. cbn [pending set_pending].
  rewrite lookup_app_length. f_equal.
  unfold tokenResult. rewrite Ht.
  apply (token_missing_state s Hg).
Qed.

Lemma connect_without_token_witness :
  isConnecting freshSession = false /\
  isConnected freshSession = false /\
  truthyToken (Some EmptyString) = None /\
  step (connectToServer freshSession) (ETokenResult 0 (Some (Some EmptyString)))
  = Some (set_alerts [AlTokenNoEncontrado]
            (setConnectionStatus StErrorAutenticacion freshSession)).
Proof.
  split; [reflexivity|]. split; [reflexivity|]. split; [reflexivity|].
  apply (connect_without_token freshSession (Some EmptyString));
    reflexivity.
Defined.

(** ** Transport errors and tracking *)

(** The "disconnect" listener stops tracking and both sampling paths. *)
Lemma onDisconnect_cascades (reason : string) (s : Session) :
  isConnected (onDisconnect reason s) = false
  /\ isTracking (onDisconnect reason s) = false
  /\ locationSubscription (onDisconnect reason s) = None
  /\ trackingIntervalRef (onDisconnect reason s) = None.
Proof.
  destruct s as [? ? ? ? ? ? ? ? ? ? ? ? sub t r ? ? ? ? ? ? ? ? ? ? ?].
  unfold onDisconnect, stopRandomDataGeneration, stopTracking. simpl.
  destruct sub, t, r; simpl; repeat split; reflexivity.
Qed.

(** The "connect_error" listener does not. *)
Lemma onConnectError_keeps_tracking (message : string) (s : Session) :
  isConnected (onConnectError message s) = false
  /\ isTracking (onConnectError message s) = isTracking s
  /\ locationSubscription (onConnectError message s) = locationSubscription s
  /\ trackingIntervalRef (onConnectError message s) = trackingIntervalRef s
  /\ subscriptions (onConnectError message s) = subscriptions s
  /\ timers (onConnectError message s) = timers s.
Proof. repeat split; reflexivity. Qed.

Lemma run_raceEvents : run freshSession raceEvents = Some raceSession.
Proof.
  unfold raceSession.
  destruct (run freshSession raceEvents) eqn:E; [reflexivity|].
  vm_compute in E. discriminate E.
Qed.

(** C2, the code at the failing input: after a "connect_error" of a
    second socket the session is reachable, not connected, and still
    tracking with its subscription and its timer alive. *)
Theorem connect_error_leaves_tracking_on :
  run freshSession raceEvents = Some raceSession
  /\ reachable raceSession
  /\ isConnected raceSession = false
  /\ isTracking raceSession = true
  /\ locationSubscription raceSession = Some 1%nat
  /\ 1%nat ∈ subscriptions raceSession
  /\ trackingIntervalRef raceSession = Some 2%nat
  /\ timers raceSession !! 2%nat = Some TimerTracking.
Proof.
  split; [apply run_raceEvents|].
  split.
  { apply (run_reachable raceEvents freshSession);
      [apply freshSession_reachable|apply run_raceEvents]. }
  repeat split; vm_compute; reflexivity.
Qed.

(** ** The distance that is accumulated *)

Lemma run_baselineEvents :
  run trackingSession baselineEvents = Some baselineSession.
Proof.
  unfold baselineSession.
  destruct (run trackingSession baselineEvents) eqn:E; [reflexivity|].
  vm_compute in E. discriminate E.
Qed.

(** C1, the code at the failing input.  A sample that went through
    [getCurrentLocation] adds no distance when it is submitted, wherever
    the previous submission was.  And with one sample submitted at
    (0, 0) and a later fetch at (0, 180) that was not submitted, the
    next sample of the subscription, again at (0, 0), adds half the
    circumference of the Earth, where two submissions at the same place
    are at distance 0. *)
Theorem distance_measured_from_last_fetch :
  (forall s k location iso now,
     totalDistance (sessionStats (positionResult k (Some location) iso now s))
     = totalDistance (sessionStats s))
  /\ run trackingSession baselineEvents = Some baselineSession
  /\ sentLocations baselineSession
     = [ mkSentLocation
           (locationDataOf (coords (positionAt 0 0 1714557602000))
              "2024-05-01T10:00:02.000Z")
           (pretty 1714557602001%N) TAuto ]
  /\ step baselineSession
       (EWatchCallback 1 (positionAt 0 0 1714557605000)
          "2024-05-01T10:00:05.000Z" 1714557605001)
     = Some (watchCallback (positionAt 0 0 1714557605000)
               "2024-05-01T10:00:05.000Z" 1714557605001 baselineSession)
  /\ totalDistance
       (sessionStats
          (watchCallback (positionAt 0 0 1714557605000)
             "2024-05-01T10:00:05.000Z" 1714557605001 baselineSession))
     = totalDistance (sessionStats baselineSession) + 6371000 * PI
  /\ calculateDistance 0 0 0 0 = 0.
Proof.
  split; [intros; apply positionResult_totalDistance|].
  split; [apply run_baselineEvents|].
  split; [vm_compute; reflexivity|].
  split; [apply step_EWatchCallback; vm_compute; reflexivity|].
  split; [|apply calculateDistance_same].
  rewrite (watchCallback_totalDistance baselineSession _ _ _
             (mkLocRef 3 (locationDataOf (coords (positionAt 0 180 1714557604000))
                            "2024-05-01T10:00:04.000Z"))).
  - simpl. rewrite calculateDistance_antipodes. reflexivity.
  - vm_compute. reflexivity.
  - vm_compute. reflexivity.
  - vm_compute. discriminate.
Qed.

(** ** Scenarios of the specification *)

(** Clearing empties the history and zeroes the counters; connection and
    tracking are as before. *)
Lemma clearHistory_resets (s : Session) :
  sentLocations (clearHistory s) = []
  /\ totalLocationsSent (sessionStats (clearHistory s)) = 0%nat
  /\ totalDistance (sessionStats (clearHistory s)) = 0
  /\ avgAccuracy (sessionStats (clearHistory s)) = 0
  /\ isConnected (clearHistory s) = isConnected s
  /\ isTracking (clearHistory s) = isTracking s.
Proof. repeat split; reflexivity. Qed.

(** Starting while not connected only raises an alert. *)
Lemma startTracking_not_connected (s : Session) :
  isConnected s = false -> startTracking s = alert AlPrimeroConectar s.
Proof. intros H. unfold startTracking. rewrite H. reflexivity. Qed.

(** With a token the transport is opened, and its "connect" event makes
    the session connected and active, with a new start instant. *)
Lemma connectedSession_connected :
  isConnected connectedSession = true
  /\ isConnecting connectedSession = false
  /\ socketConnected connectedSession = true
  /\ isActive (sessionStats connectedSession) = true
  /\ sessionStartTime (sessionStats connectedSession)
     = "2024-05-01T10:00:01.000Z"%string.
Proof. repeat split; vm_compute; reflexivity. Qed.

(** The running accuracy is a smoothing, not the mean: after accuracies
    10, 20 and 30 it is 22.5, and the mean is 20. *)
Lemma avgAccuracy_is_not_the_mean :
  avgAccuracy
    (sessionStats
       (submitAll
          [ (mkLocRef 7 (mkLocationData 0 0 (Some 10) "a" None None), TAuto, 1%N);
            (mkLocRef 8 (mkLocationData 0 0 (Some 20) "b" None None), TAuto, 2%N);
            (mkLocRef 9 (mkLocationData 0 0 (Some 30) "c" None None), TAuto, 3%N) ]
          connectedSession))
  = 22.5.
Proof.
  unfold submitAll, fold_left, submit.
  assert (Hc : socketConnected connectedSession = true)
    by (vm_compute; reflexivity).
  assert (H0 : avgAccuracy (sessionStats connectedSession) = 0)
    by (vm_compute; reflexivity).
  rewrite !sendLocation_sessionStats
    by (rewrite ?sendLocation_socketConnected; exact Hc).
  rewrite !updateStats_avgAccuracy, H0, !jsOr_zero. simpl.
  destruct (Req_dec_T 0 0) as [_|Hn]; [|contradiction].
  destruct (Req_dec_T 10 0) as [H|_]; [lra|].
  destruct (Req_dec_T ((10 + 20) / 2) 0) as [H|_]; [lra|].
  lra.
Qed.

(** * Further properties of the screen *)

(** ** The refs and the collaborators *)

Lemma consistent_wiring (s s' : Session) :
  wiring s' = wiring s -> consistent s -> consistent s'.
Proof.
  unfold wiring. intros H [H1 H2 H3 H4 H5 H6 H7].
  injection H as E1 E2 E3 E4 E5 E6 E7 E8 E9.
  constructor; rewrite ?E1, ?E2, ?E3, ?E4, ?E5, ?E6, ?E7, ?E8, ?E9;
    assumption.
Qed.

Lemma sendLocation_wiring l ty now s : wiring (sendLocation l ty now s) = wiring s.
Proof. unfold sendLocation. case_match; reflexivity. Qed.

Lemma consistent_sendLocation l ty now s :
  consistent s -> consistent (sendLocation l ty now s).
Proof. apply consistent_wiring, sendLocation_wiring. Qed.

Lemma consistent_initial v start : consistent (initialSession v start).
Proof.
  constructor; simpl; intros; try discriminate; reflexivity.
Qed.

(** A new identity is above all the ones in use. *)
Lemma consistent_fresh s : consistent s -> consistent (snd (fresh s)).
Proof.
  intros [H1 H2 H3 H4 H5 H6 H7]. constructor; consistent_goal.
Qed.

Lemma consistent_stopTracking s : consistent s -> consistent (stopTracking s).
Proof.
  intros [H1 H2 H3 H4 H5 H6 H7]. unfold stopTracking.
  destruct s; simpl in *. repeat (case_match; simpl in *);
    constructor; consistent_goal.
  all: pose proof (H3 _ eq_refl); pose proof (H4 _ eq_refl).
  all: rewrite lookup_delete_ne; [solve [eauto 2]|].
  all: intros ?; subst; congruence.
Qed.

Lemma consistent_stopRandomDataGeneration s :
  consistent s -> consistent (stopRandomDataGeneration s).
Proof.
  intros [H1 H2 H3 H4 H5 H6 H7]. unfold stopRandomDataGeneration.
  destruct s; simpl in *. repeat (case_match; simpl in *);
    constructor; consistent_goal.
  all: pose proof (H3 _ eq_refl); pose proof (H4 _ eq_refl).
  all: rewrite lookup_delete_ne; [solve [eauto 2]|].
  all: intros ?; subst; congruence.
Qed.

Lemma consistent_startRandomDataGeneration s :
  consistent s -> consistent (startRandomDataGeneration s).
Proof.
  intros [H1 H2 H3 H4 H5 H6 H7]. unfold startRandomDataGeneration.
  destruct s; simpl in *. repeat (case_match; simpl in *);
    constructor; consistent_goal.
  all: try (pose proof (H3 _ eq_refl)); try (pose proof (H4 _ eq_refl));
    try (pose proof (H7 _ eq_refl)); try lia.
  all: try (rewrite lookup_insert_eq; reflexivity).
  all: try (rewrite lookup_insert_ne;
            [solve [eauto 2]
            |intros ?; subst;
             match goal with
             | Hx : _ !! _ = Some _ |- _ => specialize (H6 _ _ Hx); lia
             end]).
Qed.

Lemma consistent_watchResult ok s :
  consistent s -> consistent (watchResult ok s).
Proof.
  intros [H1 H2 H3 H4 H5 H6 H7]. unfold watchResult.
  destruct s, ok; simpl in *; constructor; consistent_goal.
  all: try (pose proof (H3 _ eq_refl)); try (pose proof (H4 _ eq_refl));
    try (pose proof (H7 _ eq_refl)); try lia.
  all: try (rewrite lookup_insert_eq; reflexivity).
  all: try (rewrite lookup_insert_ne;
            [solve [eauto 2]
            |intros ?; subst;
             match goal with
             | Hx : _ !! _ = Some _ |- _ => specialize (H6 _ _ Hx); lia
             end]).
  all: set_solver.
Qed.

Lemma consistent_connectToServer s :
  consistent s -> consistent (connectToServer s).
Proof.
  intros [H1 H2 H3 H4 H5 H6 H7]. unfold connectToServer.
  destruct s; simpl in *. repeat (case_match; simpl in *);
    constructor; consistent_goal.
Qed.

Lemma consistent_tokenResult r s :
  consistent s -> consistent (tokenResult r s).
Proof.
  intros [H1 H2 H3 H4 H5 H6 H7]. unfold tokenResult.
  destruct s; simpl in *. repeat (case_match; simpl in *);
    constructor; consistent_goal.
  all: rewrite length_app; simpl; lia.
Qed.

Lemma consistent_onConnect iso s : consistent s -> consistent (onConnect iso s).
Proof.
  intros [H1 H2 H3 H4 H5 H6 H7]. constructor; consistent_goal.
Qed.

Lemma consistent_onConnectError m s :
  consistent s -> consistent (onConnectError m s).
Proof.
  intros [H1 H2 H3 H4 H5 H6 H7]. constructor; consistent_goal.
Qed.

Lemma consistent_setIsConnected_false s :
  consistent s -> consistent (setIsConnected false s).
Proof.
  intros [H1 H2 H3 H4 H5 H6 H7]. constructor; consistent_goal.
Qed.

Lemma consistent_setSocket i sk s :
  consistent s -> consistent (setSocket i sk s).
Proof.
  apply consistent_wiring. unfold wiring, setSocket. simpl.
  rewrite length_insert. reflexivity.
Qed.

Lemma consistent_set_socketRef_None s :
  consistent s -> consistent (set_socketRef None s).
Proof.
  intros [H1 H2 H3 H4 H5 H6 H7]. constructor; consistent_goal.
Qed.

(** Changes that do not touch the wiring. *)
Lemma consistent_alert a s : consistent s -> consistent (alert a s).
Proof. apply consistent_wiring. reflexivity. Qed.

Lemma consistent_suspend p s : consistent s -> consistent (suspend p s).
Proof. apply consistent_wiring. reflexivity. Qed.

Lemma consistent_resume i s : consistent s -> consistent (resume i s).
Proof. apply consistent_wiring. reflexivity. Qed.

Lemma consistent_setIsTracking b s : consistent s -> consistent (setIsTracking b s).
Proof. apply consistent_wiring. reflexivity. Qed.

Lemma consistent_setConnectionStatus c s :
  consistent s -> consistent (setConnectionStatus c s).
Proof. apply consistent_wiring. reflexivity. Qed.

Lemma consistent_setCurrentLocation c s :
  consistent s -> consistent (setCurrentLocation c s).
Proof. apply consistent_wiring. reflexivity. Qed.

Lemma consistent_setSessionStats f s :
  consistent s -> consistent (setSessionStats f s).
Proof. apply consistent_wiring. reflexivity. Qed.

Lemma consistent_setSentLocations f s :
  consistent s -> consistent (setSentLocations f s).
Proof. apply consistent_wiring. reflexivity. Qed.

Lemma consistent_set_routeDialog d s :
  consistent s -> consistent (set_routeDialog d s).
Proof. apply consistent_wiring. reflexivity. Qed.

Lemma consistent_set_routeTimeouts d s :
  consistent s -> consistent (set_routeTimeouts d s).
Proof. apply consistent_wiring. reflexivity. Qed.

Lemma consistent_onDisconnect reason s :
  consistent s -> consistent (onDisconnect reason s).
Proof.
  intros H. unfold onDisconnect. cbv zeta.
  apply consistent_alert, consistent_stopRandomDataGeneration,
    consistent_stopTracking, consistent_setConnectionStatus,
    consistent_setIsConnected_false, H.
Qed.

Lemma consistent_socketDisconnect i s :
  consistent s -> consistent (socketDisconnect i s).
Proof.
  intros H. unfold socketDisconnect. repeat case_match; [| |exact H].
  - apply consistent_onDisconnect, consistent_setSocket. exact H.
  - apply consistent_setSocket. exact H.
Qed.

Lemma consistent_disconnectFromServer s :
  consistent s -> consistent (disconnectFromServer s).
Proof.
  intros H. unfold disconnectFromServer. cbv zeta.
  apply consistent_setSessionStats, consistent_stopRandomDataGeneration,
    consistent_stopTracking, consistent_setConnectionStatus,
    consistent_setIsConnected_false.
  case_match; [|exact H].
  apply consistent_set_socketRef_None, consistent_socketDisconnect. exact H.
Qed.

(** A new object as the distance baseline. *)
Lemma consistent_baseline d c s :
  consistent s ->
  consistent
    (set_lastLocationRef (Some (mkLocRef (nextId s) d))
       (setCurrentLocation c (snd (fresh s)))).
Proof.
  intros [H1 H2 H3 H4 H5 H6 H7]. constructor; consistent_goal.
Qed.

Lemma consistent_afterLocation k r now s :
  consistent s -> consistent (afterLocation k r now s).
Proof.
  intros H. destruct k, r as [l|]; simpl; try exact H.
  - apply consistent_suspend, consistent_sendLocation, H.
  - apply consistent_suspend, H.
  - apply consistent_sendLocation, H.
  - apply consistent_alert, consistent_sendLocation, H.
Qed.

Lemma consistent_getCurrentLocation perm k s :
  consistent s -> consistent (getCurrentLocation perm k s).
Proof.
  intros H. unfold getCurrentLocation. destruct perm.
  - apply consistent_suspend, H.
  - apply consistent_afterLocation, consistent_alert, H.
  - apply consistent_afterLocation, consistent_alert, H.
Qed.

Lemma consistent_positionResult k res iso now s :
  consistent s -> consistent (positionResult k res iso now s).
Proof.
  intros H. unfold positionResult, getCurrentLocation_settled.
  destruct res as [location|]; simpl; apply consistent_afterLocation.
  - apply (consistent_baseline _ _ s H).
  - apply consistent_alert, H.
Qed.

Lemma consistent_startTracking s : consistent s -> consistent (startTracking s).
Proof.
  intros H. unfold startTracking. repeat case_match.
  - apply consistent_alert, H.
  - apply consistent_getCurrentLocation, consistent_setIsTracking, H.
  - apply consistent_alert, H.
  - apply consistent_alert, H.
Qed.

Lemma consistent_watchCallback location iso now s :
  consistent s -> consistent (watchCallback location iso now s).
Proof.
  intros H. unfold watchCallback. simpl. apply consistent_sendLocation.
  apply (consistent_fresh (setCurrentLocation (Some location) s)).
  apply consistent_setCurrentLocation, H.
Qed.

Lemma consistent_sendRandom d nowObj now s :
  consistent s -> consistent (sendRandom d nowObj now s).
Proof.
  intros H. unfold sendRandom. simpl. apply consistent_sendLocation.
  apply consistent_setCurrentLocation. apply (consistent_fresh s H).
Qed.

Lemma consistent_useCartagenaTestLocation rnd iso nowObj now s :
  consistent s -> consistent (useCartagenaTestLocation rnd iso nowObj now s).
Proof.
  intros H. unfold useCartagenaTestLocation. simpl.
  apply consistent_alert. destruct (isConnected s).
  - apply consistent_sendLocation. apply (consistent_baseline _ _ s H).
  - apply (consistent_baseline _ _ s H).
Qed.

(** [consistent] holds in every state the screen can reach. *)
Lemma step_consistent s e s' :
  consistent s -> step s e = Some s' -> consistent s'.
Proof.
  intros H. destruct e; simpl; intros Hs; repeat case_match; simplify_eq.
  - eapply consistent_wiring; [|exact H]. reflexivity.
  - apply consistent_disconnectFromServer, H.
  - apply consistent_connectToServer, H.
  - apply consistent_tokenResult, consistent_resume, H.
  - apply consistent_onConnect, consistent_setSocket, H.
  - apply consistent_onDisconnect, consistent_setSocket, H.
  - apply consistent_onConnectError, H.
  - apply consistent_stopTracking, H.
  - apply consistent_startTracking, H.
  - apply consistent_positionResult, consistent_resume, H.
  - apply consistent_watchResult, consistent_resume, H.
  - apply consistent_watchCallback, H.
  - apply consistent_getCurrentLocation, H.
  - apply consistent_stopRandomDataGeneration, H.
  - apply consistent_startRandomDataGeneration, H.
  - unfold randomTick. case_match; [apply consistent_sendRandom|]; exact H.
  - unfold generateAndSendRandomRoute. repeat case_match; try exact H.
    + apply consistent_alert, H.
    + apply consistent_set_routeDialog, H.
  - apply consistent_set_routeDialog, H.
  - unfold routeSend. case_match; [|exact H].
    apply consistent_set_routeDialog, consistent_set_routeTimeouts, H.
  - apply consistent_sendRandom, consistent_set_routeTimeouts, H.
  - unfold sendCurrentLocationManually. case_match.
    + apply consistent_alert, H.
    + apply consistent_getCurrentLocation, H.
  - apply consistent_useCartagenaTestLocation, H.
  - apply consistent_setSessionStats, consistent_setSentLocations, H.
  - apply consistent_getCurrentLocation, H.
  - eapply consistent_wiring; [|exact H]. reflexivity.
Qed.

Lemma reachable_consistent s : reachable s -> consistent s.
Proof.
  induction 1 as [v start | s s' e _ IH Hstep];
    [apply consistent_initial|exact (step_consistent _ _ _ IH Hstep)].
Qed.

(** ** The distance formula *)

Lemma calculateDistance_haversineOf lat1 lon1 lat2 lon2 :
  calculateDistance lat1 lon1 lat2 lon2
  = 6371 * (2 * Math_atan2 (sqrt (haversineOf lat1 lon1 lat2 lon2))
                  (sqrt (1 - haversineOf lat1 lon1 lat2 lon2))) * 1000.
Proof. reflexivity. Qed.

(** X2.  [calculateDistance] does not depend on the order of the two
    points. *)
Theorem calculateDistance_sym (lat1 lon1 lat2 lon2 : R) :
  calculateDistance lat1 lon1 lat2 lon2 = calculateDistance lat2 lon2 lat1 lon1.
Proof.
  rewrite !calculateDistance_haversineOf.
  assert (H : haversineOf lat1 lon1 lat2 lon2 = haversineOf lat2 lon2 lat1 lon1).
  { unfold haversineOf.
    replace ((lat1 - lat2) * PI / 180 / 2)
      with (- ((lat2 - lat1) * PI / 180 / 2)) by lra.
    replace ((lon1 - lon2) * PI / 180 / 2)
      with (- ((lon2 - lon1) * PI / 180 / 2)) by lra.
    rewrite !sin_neg. ring. }
  rewrite H. reflexivity.
Qed.

(** ** Statistics and emitted messages *)

Lemma accounted_accounts (s s' : Session) :
  accounts s' = accounts s -> accounted s -> accounted s'.
Proof.
  unfold accounts. intros H [H2 H3 H4].
  injection H as E1 E2 E3. constructor; rewrite ?E1, ?E2, ?E3; assumption.
Qed.

Lemma vehicleIdOf_named (userVehicleId : option string) :
  vehicleIdOf userVehicleId <> EmptyString.
Proof.
  unfold vehicleIdOf. destruct userVehicleId as [v|]; [|discriminate].
  destruct (decide (v = EmptyString)); [discriminate|assumption].
Qed.

Lemma accounted_initial v start : accounted (initialSession v start).
Proof.
  constructor; simpl; [lia|constructor|apply vehicleIdOf_named].
Qed.

Lemma updateStats_randomDataGenerated last l ty prev :
  randomDataGenerated (updateStats last l ty prev)
  = match ty with
    | TRandom => (randomDataGenerated prev + 1)%nat
    | _ => randomDataGenerated prev
    end.
Proof.
  unfold updateStats.
  destruct last as [l0|]; [destruct (decide (addr l0 = addr l))|];
    destruct ty; reflexivity.
Qed.

Lemma accounted_sendLocation l ty now s :
  accounted s -> accounted (sendLocation l ty now s).
Proof.
  intros [H2 H3 H4]. unfold sendLocation.
  destruct (connectedSocket s) as [i|];
    [|apply (accounted_accounts s); [reflexivity|constructor; assumption]].
  constructor; simpl.
  - rewrite updateStats_randomDataGenerated, updateStats_count.
    destruct ty; lia.
  - constructor; [reflexivity|exact H3].
  - exact H4.
Qed.

Section QuietAccounts.
Variable s : Session.
Hypothesis Hs : accounted s.

Lemma accounted_alert a : accounted (alert a s).
Proof. apply (accounted_accounts s); [reflexivity|exact Hs]. Qed.

Lemma accounted_suspend p : accounted (suspend p s).
Proof. apply (accounted_accounts s); [reflexivity|exact Hs]. Qed.

Lemma accounted_resume i : accounted (resume i s).
Proof. apply (accounted_accounts s); [reflexivity|exact Hs]. Qed.

Lemma accounted_setSocket i sk : accounted (setSocket i sk s).
Proof. apply (accounted_accounts s); [reflexivity|exact Hs]. Qed.

Lemma accounted_setIsTracking b : accounted (setIsTracking b s).
Proof. apply (accounted_accounts s); [reflexivity|exact Hs]. Qed.

Lemma accounted_setIsConnected b : accounted (setIsConnected b s).
Proof. apply (accounted_accounts s); [reflexivity|exact Hs]. Qed.

Lemma accounted_setConnectionStatus c : accounted (setConnectionStatus c s).
Proof. apply (accounted_accounts s); [reflexivity|exact Hs]. Qed.

Lemma accounted_set_socketRef r : accounted (set_socketRef r s).
Proof. apply (accounted_accounts s); [reflexivity|exact Hs]. Qed.

Lemma accounted_set_routeDialog d : accounted (set_routeDialog d s).
Proof. apply (accounted_accounts s); [reflexivity|exact Hs]. Qed.

Lemma accounted_set_routeTimeouts d : accounted (set_routeTimeouts d s).
Proof. apply (accounted_accounts s); [reflexivity|exact Hs]. Qed.

(** A new object, shown and perhaps made the baseline. *)
Lemma accounted_shown c : accounted (setCurrentLocation c (snd (fresh s))).
Proof. apply (accounted_accounts s); [reflexivity|exact Hs]. Qed.

Lemma accounted_baseline r c :
  accounted (set_lastLocationRef r (setCurrentLocation c (snd (fresh s)))).
Proof. apply (accounted_accounts s); [reflexivity|exact Hs]. Qed.

Lemma accounted_stopTracking : accounted (stopTracking s).
Proof.
  apply (accounted_accounts s); [|exact Hs].
  unfold stopTracking; simpl; repeat (case_match; simpl); reflexivity.
Qed.

Lemma accounted_stopRandomDataGeneration :
  accounted (stopRandomDataGeneration s).
Proof.
  apply (accounted_accounts s); [|exact Hs].
  unfold stopRandomDataGeneration; simpl; repeat (case_match; simpl);
    reflexivity.
Qed.

Lemma accounted_startRandomDataGeneration :
  accounted (startRandomDataGeneration s).
Proof.
  apply (accounted_accounts s); [|exact Hs].
  unfold startRandomDataGeneration. case_match; reflexivity.
Qed.

Lemma accounted_connectToServer : accounted (connectToServer s).
Proof.
  apply (accounted_accounts s); [|exact Hs].
  unfold connectToServer. case_match; reflexivity.
Qed.

Lemma accounted_tokenResult r : accounted (tokenResult r s).
Proof.
  apply (accounted_accounts s); [|exact Hs].
  unfold tokenResult. repeat case_match; reflexivity.
Qed.

Lemma accounted_onConnectError m : accounted (onConnectError m s).
Proof. apply (accounted_accounts s); [reflexivity|exact Hs]. Qed.

Lemma accounted_watchResult ok : accounted (watchResult ok s).
Proof. apply (accounted_accounts s); [destruct ok; reflexivity|exact Hs]. Qed.

Lemma accounted_routeSend : accounted (routeSend s).
Proof.
  apply (accounted_accounts s); [|exact Hs].
  unfold routeSend. case_match; reflexivity.
Qed.

Lemma accounted_generateAndSendRandomRoute rnd :
  accounted (generateAndSendRandomRoute rnd s).
Proof.
  apply (accounted_accounts s); [|exact Hs].
  unfold generateAndSendRandomRoute. repeat case_match; reflexivity.
Qed.

(** The three places besides [sendLocation] that write the statistics. *)
Lemma accounted_onConnect iso : accounted (onConnect iso s).
Proof. destruct Hs as [H2 H3 H4]. constructor; assumption. Qed.

Lemma accounted_inactive :
  accounted
    (setSessionStats
       (fun prev =>
          mkSessionStats (totalLocationsSent prev) (sessionStartTime prev)
            (lastLocationTime prev) (avgAccuracy prev) (totalDistance prev)
            false (randomDataGenerated prev)) s).
Proof. destruct Hs as [H2 H3 H4]. constructor; assumption. Qed.

Lemma accounted_clearHistory : accounted (clearHistory s).
Proof.
  destruct Hs as [H2 H3 H4]. constructor; simpl; [lia|exact H3|exact H4].
Qed.
End QuietAccounts.

Lemma accounted_onDisconnect reason s :
  accounted s -> accounted (onDisconnect reason s).
Proof.
  intros H. unfold onDisconnect. cbv zeta.
  apply accounted_alert, accounted_stopRandomDataGeneration,
    accounted_stopTracking, accounted_setConnectionStatus,
    accounted_setIsConnected, H.
Qed.

Lemma accounted_socketDisconnect i s :
  accounted s -> accounted (socketDisconnect i s).
Proof.
  intros H. unfold socketDisconnect. repeat case_match; [| |exact H].
  - apply accounted_onDisconnect, accounted_setSocket, H.
  - apply accounted_setSocket, H.
Qed.

Lemma accounted_disconnectFromServer s :
  accounted s -> accounted (disconnectFromServer s).
Proof.
  intros H. unfold disconnectFromServer. cbv zeta.
  apply accounted_inactive, accounted_stopRandomDataGeneration,
    accounted_stopTracking, accounted_setConnectionStatus,
    accounted_setIsConnected.
  case_match; [|exact H].
  apply accounted_set_socketRef, accounted_socketDisconnect, H.
Qed.

Lemma accounted_afterLocation k r now s :
  accounted s -> accounted (afterLocation k r now s).
Proof.
  intros H. destruct k, r as [l|]; simpl; try exact H.
  - apply accounted_suspend, accounted_sendLocation, H.
  - apply accounted_suspend, H.
  - apply accounted_sendLocation, H.
  - apply accounted_alert, accounted_sendLocation, H.
Qed.

Lemma accounted_getCurrentLocation perm k s :
  accounted s -> accounted (getCurrentLocation perm k s).
Proof.
  intros H. unfold getCurrentLocation. destruct perm.
  - apply accounted_suspend, H.
  - apply accounted_afterLocation, accounted_alert, H.
  - apply accounted_afterLocation, accounted_alert, H.
Qed.

Lemma accounted_positionResult k res iso now s :
  accounted s -> accounted (positionResult k res iso now s).
Proof.
  intros H. unfold positionResult, getCurrentLocation_settled.
  destruct res as [location|]; simpl; apply accounted_afterLocation.
  - apply (accounted_baseline s H).
  - apply accounted_alert, H.
Qed.

Lemma accounted_startTracking s : accounted s -> accounted (startTracking s).
Proof.
  intros H. unfold startTracking. repeat case_match.
  - apply accounted_alert, H.
  - apply accounted_getCurrentLocation, accounted_setIsTracking, H.
  - apply accounted_alert, H.
  - apply accounted_alert, H.
Qed.

Lemma accounted_watchCallback location iso now s :
  accounted s -> accounted (watchCallback location iso now s).
Proof.
  intros H. unfold watchCallback. simpl. apply accounted_sendLocation.
  apply (accounted_accounts s); [reflexivity|exact H].
Qed.

Lemma accounted_sendRandom d nowObj now s :
  accounted s -> accounted (sendRandom d nowObj now s).
Proof.
  intros H. unfold sendRandom. simpl. apply accounted_sendLocation.
  apply (accounted_shown s H).
Qed.

Lemma accounted_useCartagenaTestLocation rnd iso nowObj now s :
  accounted s -> accounted (useCartagenaTestLocation rnd iso nowObj now s).
Proof.
  intros H. unfold useCartagenaTestLocation. simpl.
  apply accounted_alert. destruct (isConnected s).
  - apply accounted_sendLocation. apply (accounted_baseline s H).
  - apply (accounted_baseline s H).
Qed.

Lemma step_accounted s e s' :
  accounted s -> step s e = Some s' -> accounted s'.
Proof.
  intros H. destruct e; simpl; intros Hs; repeat case_match; simplify_eq.
  - apply (accounted_accounts s); [reflexivity|exact H].
  - apply accounted_disconnectFromServer, H.
  - apply accounted_connectToServer, H.
  - apply accounted_tokenResult, accounted_resume, H.
  - apply accounted_onConnect, accounted_setSocket, H.
  - apply accounted_onDisconnect, accounted_setSocket, H.
  - apply accounted_onConnectError, H.
  - apply accounted_stopTracking, H.
  - apply accounted_startTracking, H.
  - apply accounted_positionResult, accounted_resume, H.
  - apply accounted_watchResult, accounted_resume, H.
  - apply accounted_watchCallback, H.
  - apply accounted_getCurrentLocation, H.
  - apply accounted_stopRandomDataGeneration, H.
  - apply accounted_startRandomDataGeneration, H.
  - unfold randomTick. case_match; [apply accounted_sendRandom|]; exact H.
  - apply accounted_generateAndSendRandomRoute, H.
  - apply accounted_set_routeDialog, H.
  - apply accounted_routeSend, H.
  - apply accounted_sendRandom, accounted_set_routeTimeouts, H.
  - unfold sendCurrentLocationManually. case_match.
    + apply accounted_alert, H.
    + apply accounted_getCurrentLocation, H.
  - apply accounted_useCartagenaTestLocation, H.
  - apply accounted_clearHistory, H.
  - apply accounted_getCurrentLocation, H.
  - apply (accounted_accounts s); [reflexivity|exact H].
Qed.

Lemma reachable_accounted s : reachable s -> accounted s.
Proof.
  induction 1 as [v start | s s' e _ IH Hstep];
    [apply accounted_initial|exact (step_accounted _ _ _ IH Hstep)].
Qed.

(** ** Invariants of the reachable states *)

(** X3.  In every reachable state the refs of the tracker are wired to
    the collaborators: [socketRef] holds a socket that was created,
    [locationSubscription] a live subscription, [trackingIntervalRef] a
    live timer of the tracking kind and [randomDataIntervalRef] a live
    timer of the random kind. *)
Theorem reachable_refs_are_live (s : Session) :
  reachable s ->
  (forall i, socketRef s = Some i -> is_Some (sockets s !! i))
  /\ (forall sub, locationSubscription s = Some sub -> sub ∈ subscriptions s)
  /\ (forall t, trackingIntervalRef s = Some t ->
                timers s !! t = Some TimerTracking)
  /\ (forall t, randomDataIntervalRef s = Some t ->
                timers s !! t = Some TimerRandom).
Proof.
  intros Hr. destruct (reachable_consistent s Hr) as [H1 H2 H3 H4 _ _ _].
  split; [|auto]. intros i Hi. apply lookup_lt_is_Some. apply H1, Hi.
Qed.

Lemma reachable_refs_are_live_witness :
  reachable trackingSession /\
  timers trackingSession !! 2%nat = Some TimerTracking.
Proof.
  split; [apply trackingSession_reachable|].
  apply (reachable_refs_are_live trackingSession trackingSession_reachable).
  vm_compute. reflexivity.
Defined.

(** X5.  In every reachable state the history holds as many records as
    were counted since the last clearing, up to 100:
    its length is [min totalLocationsSent 100]. *)
Theorem reachable_history_length_min (s : Session) :
  reachable s ->
  length (sentLocations s)
  = (totalLocationsSent (sessionStats s) `min` 100)%nat.
Proof.
  induction 1 as [v start | s s' e _ IH Hstep]; [reflexivity|].
  destruct (step_effect _ _ _ Hstep)
    as [[-> -> _| c x -> -> _ | _ -> -> _] _]; simpl.
  - exact IH.
  - rewrite length_take, IH. lia.
  - reflexivity.
Qed.

Lemma reachable_history_length_min_witness :
  reachable trackingSession /\
  length (sentLocations trackingSession) = 1%nat.
Proof.
  split; [apply trackingSession_reachable|].
  rewrite (reachable_history_length_min trackingSession
             trackingSession_reachable).
  vm_compute. reflexivity.
Defined.

(** X6.  As long as the history is not cleared, [totalLocationsSent]
    is the number of messages given to the transport: after any run of
    events from the initial state without a confirmed clearing the two
    are equal. *)
Theorem counter_is_emitted_messages (userVehicleId : option string)
  (start : string) (es : list Event) (s : Session) :
  run (initialSession userVehicleId start) es = Some s ->
  EClearConfirmed ∉ es ->
  totalLocationsSent (sessionStats s) = length (emitted s).
Proof.
  intros Hrun Hno.
  pose proof (run_count_emitted es _ _ Hrun Hno) as H. simpl in H. lia.
Qed.

Lemma counter_is_emitted_messages_witness :
  run freshSession (connectEvents ++ trackingEvents) = Some trackingSession /\
  (EClearConfirmed ∉ (connectEvents ++ trackingEvents)) /\
  totalLocationsSent (sessionStats trackingSession)
  = length (emitted trackingSession).
Proof.
  assert (Hrun : run freshSession (connectEvents ++ trackingEvents)
                 = Some trackingSession).
  { rewrite run_app, run_connectEvents. unfold mbind, option_bind.
    cbv beta iota. apply run_trackingEvents. }
  assert (Hno : EClearConfirmed ∉ (connectEvents ++ trackingEvents)).
  { unfold connectEvents, trackingEvents. cbn [app]. intros H.
    repeat (apply elem_of_cons in H as [H|H]; [discriminate H|]).
    apply elem_of_nil in H. exact H. }
  split; [exact Hrun|]. split; [exact Hno|].
  apply (counter_is_emitted_messages None "2024-05-01T10:00:00.000Z"
           (connectEvents ++ trackingEvents) trackingSession Hrun Hno).
Defined.

(** X7.  In every reachable state the random submissions counted are
    not more than the submissions counted. *)
Theorem reachable_random_counted (s : Session) :
  reachable s ->
  (randomDataGenerated (sessionStats s)
   <= totalLocationsSent (sessionStats s))%nat.
Proof.
  intros Hr. destruct (reachable_accounted s Hr) as [H2 _ _]. exact H2.
Qed.

Lemma reachable_random_counted_witness :
  reachable randomSent /\
  (randomDataGenerated (sessionStats randomSent)
   <= totalLocationsSent (sessionStats randomSent))%nat.
Proof.
  assert (Hr : reachable randomSent).
  { apply (run_reachable randomEvents connectedSession);
      [apply connectedSession_reachable|].
    unfold randomEvents. cbn [run].
    rewrite step_ERandomButton_start by (vm_compute; reflexivity).
    fold randomStarted.
    rewrite step_ERandomTick by (vm_compute; reflexivity).
    unfold randomTick. rewrite generateRandomTestData_0. reflexivity. }
  split; [exact Hr|]. apply (reachable_random_counted randomSent Hr).
Defined.

(** X8.  Every message given to the transport names the vehicle of the
    session, and that name is never empty: it is the user's vehicle id
    or, without one, "driver-mobile". *)
Theorem reachable_emitted_vehicle (s : Session) (i : nat) (p : Payload) :
  reachable s ->
  (i, p) ∈ emitted s ->
  p_vehicleId p = vehicleId s /\ vehicleId s <> EmptyString.
Proof.
  intros Hr Hin. destruct (reachable_accounted s Hr) as [_ H3 H4].
  split; [|exact H4].
  rewrite Forall_forall in H3. apply (H3 (i, p) Hin).
Qed.

Lemma reachable_emitted_vehicle_witness :
  exists i p,
    reachable trackingSession /\ (i, p) ∈ emitted trackingSession /\
    p_vehicleId p = "driver-mobile"%string.
Proof.
  assert (Hex : exists i p, (i, p) ∈ emitted trackingSession).
  { destruct (emitted trackingSession) as [|[i p] em] eqn:E;
      [vm_compute in E; discriminate E|].
    exists i, p. apply list_elem_of_here. }
  destruct Hex as (i & p & Hin). exists i, p.
  split; [apply trackingSession_reachable|]. split; [exact Hin|].
  destruct (reachable_emitted_vehicle trackingSession i p
              trackingSession_reachable Hin) as [Hv _].
  rewrite Hv. vm_compute. reflexivity.
Defined.

(** ** Disconnecting and stopping *)

(** A session that is already down is left as it is. *)
Lemma disconnectFromServer_down (s : Session) :
  socketRef s = None -> isConnected s = false ->
  connectionStatus s = StDesconectado -> isTracking s = false ->
  locationSubscription s = None -> trackingIntervalRef s = None ->
  isGeneratingRandomData s = false -> randomDataIntervalRef s = None ->
  isActive (sessionStats s) = false ->
  disconnectFromServer s = s.
Proof.
  destruct s as [? ? ? ? ? ? ? ? ? ? st ? ? ? ? ? ? ? ? ? ? ? ? ? ? ?].
  destruct st. simpl. intros -> -> -> -> -> -> -> -> ->. reflexivity.
Qed.

Lemma disconnectFromServer_tail (s : Session) :
  disconnectFromServer s
  = disconnectTail
      match socketRef s with
      | Some i => set_socketRef None (socketDisconnect i s)
      | None => s
      end.
Proof. reflexivity. Qed.

Lemma disconnectTail_result (s : Session) :
  socketRef (disconnectTail s) = socketRef s
  /\ isConnected (disconnectTail s) = false
  /\ connectionStatus (disconnectTail s) = StDesconectado
  /\ isTracking (disconnectTail s) = false
  /\ locationSubscription (disconnectTail s) = None
  /\ trackingIntervalRef (disconnectTail s) = None
  /\ isGeneratingRandomData (disconnectTail s) = false
  /\ randomDataIntervalRef (disconnectTail s) = None
  /\ isActive (sessionStats (disconnectTail s)) = false.
Proof.
  destruct s as [? ? ? ? ? ? ? ? ? ? ? ? ls tr rr ? ? ? ? ? ? ? ? ? ? ?].
  unfold disconnectTail, stopTracking, stopRandomDataGeneration.
  destruct ls, tr, rr; simpl; repeat split; reflexivity.
Qed.

Lemma disconnectFromServer_result (s : Session) :
  socketRef (disconnectFromServer s) = None
  /\ isConnected (disconnectFromServer s) = false
  /\ connectionStatus (disconnectFromServer s) = StDesconectado
  /\ isTracking (disconnectFromServer s) = false
  /\ locationSubscription (disconnectFromServer s) = None
  /\ trackingIntervalRef (disconnectFromServer s) = None
  /\ isGeneratingRandomData (disconnectFromServer s) = false
  /\ randomDataIntervalRef (disconnectFromServer s) = None
  /\ isActive (sessionStats (disconnectFromServer s)) = false.
Proof.
  rewrite disconnectFromServer_tail.
  set (s1 := match socketRef s with
             | Some i => set_socketRef None (socketDisconnect i s)
             | None => s
             end).
  assert (Hs1 : socketRef s1 = None)
    by (subst s1; destruct (socketRef s) eqn:E; [reflexivity|exact E]).
  destruct (disconnectTail_result s1) as (H1 & H2).
  split; [rewrite H1; exact Hs1|exact H2].
Qed.

Lemma disconnectTail_sockets (s : Session) :
  sockets (disconnectTail s) = sockets s.
Proof.
  destruct s as [? ? ? ? ? ? ? ? ? ? ? ? ls tr rr ? ? ? ? ? ? ? ? ? ? ?].
  unfold disconnectTail, stopTracking, stopRandomDataGeneration.
  destruct ls, tr, rr; reflexivity.
Qed.

Lemma onDisconnect_sockets (reason : string) (s : Session) :
  sockets (onDisconnect reason s) = sockets s.
Proof.
  destruct s as [? ? ? ? ? ? ? ? ? ? ? ? ls tr rr ? ? ? ? ? ? ? ? ? ? ?].
  unfold onDisconnect, stopTracking, stopRandomDataGeneration.
  destruct ls, tr, rr; reflexivity.
Qed.

(** X10.  [disconnectFromServer] takes the session down: not connected,
    not tracking, not generating, no socket, subscription or timer held,
    statistics inactive; history, counter, emitted messages and distance
    baseline are untouched.  Every later [sendLocation] is refused, and
    disconnecting a second time changes nothing. *)
Theorem disconnectFromServer_goes_down (s : Session) :
  let s' := disconnectFromServer s in
  (socketRef s' = None /\ isConnected s' = false
   /\ connectionStatus s' = StDesconectado /\ isTracking s' = false
   /\ locationSubscription s' = None /\ trackingIntervalRef s' = None
   /\ isGeneratingRandomData s' = false /\ randomDataIntervalRef s' = None
   /\ isActive (sessionStats s') = false)
  /\ books s' = books s
  /\ (forall l ty now, sendLocation l ty now s' = alert AlNoHayConexion s')
  /\ disconnectFromServer s' = s'.
Proof.
  intros s'. subst s'.
  pose proof (disconnectFromServer_result s) as Hr.
  split; [exact Hr|].
  destruct Hr as (H1 & H2 & H3 & H4 & H5 & H6 & H7 & H8 & H9).
  split; [apply disconnectFromServer_books|]. split.
  - intros l ty now. apply sendLocation_disconnected.
    unfold socketConnected, connectedSocket. rewrite H1. reflexivity.
  - apply disconnectFromServer_down; assumption.
Qed.

(** X11.  [disconnectFromServer] closes the socket that [socketRef]
    held: it is marked closed and not connected, and keeps its token. *)
Theorem disconnectFromServer_closes_socket (s : Session) (i : nat)
  (sk : Socket) :
  socketRef s = Some i ->
  sockets s !! i = Some sk ->
  sockets (disconnectFromServer s) !! i
  = Some (mkSocket (auth_token sk) false true)
  /\ length (sockets (disconnectFromServer s)) = length (sockets s).
Proof.
  intros Hi Hsk. rewrite disconnectFromServer_tail, disconnectTail_sockets.
  rewrite Hi. cbn [sockets set_socketRef].
  assert (Hs : sockets (socketDisconnect i s)
               = <[i := mkSocket (auth_token sk) false true]> (sockets s)).
  { unfold socketDisconnect. rewrite Hsk.
    destruct (connected sk); [rewrite onDisconnect_sockets|]; reflexivity. }
  change (sockets (set_socketRef None (socketDisconnect i s)))
    with (sockets (socketDisconnect i s)).
  rewrite Hs. split; [|apply length_insert].
  apply list_lookup_insert_eq. apply (lookup_lt_Some _ _ _ Hsk).
Qed.

Lemma disconnectFromServer_closes_socket_witness :
  socketRef connectedSession = Some 0%nat /\
  sockets connectedSession !! 0%nat = Some (mkSocket "abc123" true false) /\
  sockets (disconnectFromServer connectedSession) !! 0%nat
  = Some (mkSocket "abc123" false true).
Proof.
  split; [reflexivity|]. split; [reflexivity|].
  apply (disconnectFromServer_closes_socket connectedSession 0
           (mkSocket "abc123" true false)); reflexivity.
Defined.

(** X12.  Once [stopTracking] has run, the subscription and the timer
    that the tracker held cannot fire any more. *)
Theorem stopTracking_silences (s : Session) (sub t : nat)
  (location : LocationObject) (iso : string) (now : N) :
  locationSubscription s = Some sub ->
  trackingIntervalRef s = Some t ->
  step (stopTracking s) (EWatchCallback sub location iso now) = None
  /\ step (stopTracking s) (ETrackingTick t) = None.
Proof.
  destruct s as [? ? ? ? ? ? ? ? ? ? ? ? ls tr ? ? ? ? ? subs tm ? ? ? ? ?].
  simpl. intros -> ->. unfold stopTracking. cbn [step]. simpl. split.
  - destruct (decide (sub ∈ subs ∖ {[sub]})) as [Hin|_]; [|reflexivity].
    exfalso. apply elem_of_difference in Hin as [_ Hn].
    apply Hn, elem_of_singleton. reflexivity.
  - rewrite lookup_delete_eq. reflexivity.
Qed.

Lemma stopTracking_silences_witness :
  locationSubscription trackingSession = Some 1%nat /\
  trackingIntervalRef trackingSession = Some 2%nat /\
  step (stopTracking trackingSession) (ETrackingTick 2) = None.
Proof.
  split; [reflexivity|]. split; [reflexivity|].
  apply (stopTracking_silences trackingSession 1 2
           (positionAt 0 0 1714557603000) "2024-05-01T10:00:03.000Z"
           1714557603001); reflexivity.
Defined.

(** ** Starting *)

(** Everything but the ledger is left alone by [sendLocation]. *)
Lemma sendLocation_frame l ty now s :
  isConnected (sendLocation l ty now s) = isConnected s
  /\ isTracking (sendLocation l ty now s) = isTracking s
  /\ pending (sendLocation l ty now s) = pending s
  /\ nextId (sendLocation l ty now s) = nextId s
  /\ subscriptions (sendLocation l ty now s) = subscriptions s
  /\ timers (sendLocation l ty now s) = timers s
  /\ locationSubscription (sendLocation l ty now s) = locationSubscription s
  /\ trackingIntervalRef (sendLocation l ty now s) = trackingIntervalRef s
  /\ currentLocation (sendLocation l ty now s) = currentLocation s.
Proof. unfold sendLocation. case_match; repeat split; reflexivity. Qed.

(** X13.  [startTracking] while not connected, or without the location
    permission, only raises an alert: tracking stays as it was, nothing
    is fetched and no subscription or timer is requested. *)
Theorem startTracking_refused (s : Session) :
  isConnected s = false \/ permissionStatus s <> Granted ->
  (exists a, startTracking s = alert a s)
  /\ isTracking (startTracking s) = isTracking s
  /\ pending (startTracking s) = pending s
  /\ subscriptions (startTracking s) = subscriptions s
  /\ timers (startTracking s) = timers s.
Proof.
  intros H. unfold startTracking.
  destruct (isConnected s); simpl.
  - destruct H as [H|H]; [discriminate H|].
    destruct (permissionStatus s); [contradiction| |];
      (split; [eexists; reflexivity|repeat split; reflexivity]).
  - split; [eexists; reflexivity|repeat split; reflexivity].
Qed.

Lemma startTracking_refused_witness :
  (isConnected freshSession = false \/ permissionStatus freshSession <> Granted)
  /\ isTracking (startTracking freshSession) = false.
Proof.
  split; [left; reflexivity|].
  destruct (startTracking_refused freshSession (or_introl eq_refl))
    as (_ & H & _).
  rewrite H. reflexivity.
Defined.

(** X14.  Starting in a connected session with the permission: the
    press makes the session tracking and asks for a position; when the
    position arrives it is submitted with kind auto, before any tick of
    the timer; when the watch is established the tracker holds a new live
    subscription and a new live timer.  Nothing of the start is left
    pending. *)
Theorem tracking_starts (s : Session) (location : LocationObject)
  (iso : string) (now : N) :
  isConnected s = true ->
  permissionStatus s = Granted ->
  isTracking s = false ->
  socketConnected s = true ->
  let n := length (pending s) in
  exists s1 s2 s3,
    step s ETrackingButton = Some s1
    /\ step s1 (EPositionResult n (Some location) iso now) = Some s2
    /\ step s2 (EWatchResult n true) = Some s3
    /\ isTracking s1 = true /\ timers s2 = timers s
    /\ sentLocations s3
       = mkSentLocation (locationDataOf (coords location) iso) (pretty now) TAuto
           :: take 99 (sentLocations s)
    /\ isTracking s3 = true
    /\ locationSubscription s3 = Some (S (nextId s))
    /\ S (nextId s) ∈ subscriptions s3
    /\ trackingIntervalRef s3 = Some (S (S (nextId s)))
    /\ timers s3 !! S (S (nextId s)) = Some TimerTracking
    /\ pending s3 = pending s.
Proof.
  intros Hc Hp Ht Hs n.
  set (L := mkLocRef (nextId s) (locationDataOf (coords location) iso)).
  set (s1 := suspend (PFetch CStart) (setIsTracking true s)).
  set (x := set_lastLocationRef (Some L)
              (setCurrentLocation (Some location) (snd (fresh (resume n s1))))).
  set (s2 := suspend PWatch (sendLocation L TAuto now x)).
  set (s3 := watchResult true (resume n s2)).
  assert (Hx : socketConnected x = true) by exact Hs.
  destruct (sendLocation_frame L TAuto now x)
    as (F1 & F2 & F3 & F4 & F5 & F6 & F7 & F8 & F9).
  assert (Hpx : pending x = pending s).
  { unfold x, s1, n. cbn [pending set_lastLocationRef setCurrentLocation fresh
                          snd set_nextId resume suspend set_pending
                          setIsTracking].
    apply delete_app_length. }
  assert (Hp2 : pending s2 = pending s ++ [PWatch]).
  { unfold s2. cbn [pending suspend set_pending]. rewrite F3, Hpx. reflexivity. }
  exists s1, s2, s3.
  split; [cbn [step]; unfold startTracking; rewrite Hc, Hp, Ht; reflexivity|].
  split.
  { cbn [step]. unfold s1 at 1. cbn [pending suspend set_pending setIsTracking].
    unfold n. rewrite lookup_app_length. reflexivity. }
  split.
  { cbn [step]. rewrite Hp2. unfold n. rewrite lookup_app_length. reflexivity. }
  split; [reflexivity|].
  split; [unfold s2; cbn [timers suspend set_pending]; rewrite F6; reflexivity|].
  assert (Hn : nextId (resume n s2) = S (nextId s)).
  { unfold s2. cbn [nextId resume suspend set_pending]. rewrite F4. reflexivity. }
  unfold s3, watchResult. cbn [fresh]. rewrite Hn.
  cbn [sentLocations isTracking locationSubscription subscriptions
       trackingIntervalRef timers pending alert set_alerts
       set_trackingIntervalRef set_timers set_nextId set_locationSubscription
       set_subscriptions nextId resume set_pending].
  split.
  { unfold s2. cbn [sentLocations suspend set_pending].
    rewrite sendLocation_sentLocations by exact Hx. reflexivity. }
  split; [unfold s2; cbn [isTracking suspend set_pending]; rewrite F2;
          reflexivity|].
  split; [reflexivity|].
  split; [apply elem_of_union_l, elem_of_singleton; reflexivity|].
  split; [reflexivity|].
  split; [apply lookup_insert_eq|].
  rewrite Hp2. unfold n. apply delete_app_length.
Qed.

Lemma tracking_starts_witness :
  isConnected connectedSession = true /\
  permissionStatus connectedSession = Granted /\
  isTracking connectedSession = false /\
  socketConnected connectedSession = true /\
  exists s1 s2 s3,
    step connectedSession ETrackingButton = Some s1
    /\ step s1 (EPositionResult 0 (Some (positionAt 0 0 1714557602000))
                  "2024-05-01T10:00:02.000Z" 1714557602001) = Some s2
    /\ step s2 (EWatchResult 0 true) = Some s3
    /\ isTracking s3 = true.
Proof.
  split; [reflexivity|]. split; [reflexivity|]. split; [reflexivity|].
  split; [reflexivity|].
  destruct (tracking_starts connectedSession (positionAt 0 0 1714557602000)
              "2024-05-01T10:00:02.000Z" 1714557602001
              eq_refl eq_refl eq_refl eq_refl)
    as (s1 & s2 & s3 & H1 & H2 & H3 & _ & _ & _ & H7 & _).
  exists s1, s2, s3. repeat split; assumption.
Defined.

(** ** Connecting with a token *)

Lemma socketConnected_onConnect iso i sk s :
  socketRef s = Some i -> (i < length (sockets s))%nat -> connected sk = true ->
  socketConnected (onConnect iso (setSocket i sk s)) = true.
Proof.
  intros Hi Hl Hk. unfold socketConnected, connectedSocket. simpl.
  rewrite Hi, list_lookup_insert_eq by exact Hl. rewrite Hk. reflexivity.
Qed.

(** X15.  With a token in the store, connecting opens exactly one new
    socket that carries the token and makes it the current one; the
    session stays connecting until that socket connects, and then it is
    connected and active, with the start instant of the new connection. *)
Theorem connect_with_token (s : Session) (t : option string) (token : string)
  (iso : string) :
  isConnecting s = false ->
  isConnected s = false ->
  truthyToken t = Some token ->
  let n := length (pending s) in
  let i := length (sockets s) in
  exists s1 s2 s3,
    step s EConnectButton = Some s1
    /\ step s1 (ETokenResult n (Some t)) = Some s2
    /\ step s2 (ESocketConnect i iso) = Some s3
    /\ sockets s2 = sockets s ++ [mkSocket token false false]
    /\ socketRef s2 = Some i
    /\ isConnecting s2 = true /\ isConnected s2 = false
    /\ isConnected s3 = true /\ isConnecting s3 = false
    /\ socketConnected s3 = true
    /\ connectionStatus s3 = StConectado
    /\ isActive (sessionStats s3) = true
    /\ sessionStartTime (sessionStats s3) = iso
    /\ books s3 = books s.
Proof.
  intros Hg Hd Ht n i.
  set (s1 := suspend PToken
               (setConnectionStatus StConectando (setIsConnecting true s))).
  set (s2 := set_socketRef (Some i)
               (set_sockets (sockets s ++ [mkSocket token false false])
                  (resume n s1))).
  set (s3 := onConnect iso (setSocket i (mkSocket token true false) s2)).
  exists s1, s2, s3.
  assert (Hl : sockets s2 !! i = Some (mkSocket token false false))
    by apply lookup_app_length.
  split; [cbn [step]; unfold connectToServer; rewrite Hg, Hd; reflexivity|].
  split.
  { cbn [step]. unfold s1 at 1.
    cbn [pending suspend set_pending setConnectionStatus setIsConnecting].
    unfold n. rewrite lookup_app_length. unfold tokenResult. rewrite Ht.
    reflexivity. }
  split; [cbn [step]; rewrite Hl; reflexivity|].
  split; [reflexivity|]. split; [reflexivity|]. split; [reflexivity|].
  split; [exact Hd|]. split; [reflexivity|]. split; [reflexivity|].
  split.
  { apply socketConnected_onConnect;
      [reflexivity|apply (lookup_lt_Some _ _ _ Hl)|reflexivity]. }
  repeat split; reflexivity.
Qed.

Lemma connect_with_token_witness :
  isConnecting freshSession = false /\
  isConnected freshSession = false /\
  truthyToken (Some "abc123"%string) = Some "abc123"%string /\
  exists s1 s2 s3,
    step freshSession EConnectButton = Some s1
    /\ step s1 (ETokenResult 0 (Some (Some "abc123"%string))) = Some s2
    /\ step s2 (ESocketConnect 0 "2024-05-01T10:00:01.000Z") = Some s3
    /\ isConnected s3 = true.
Proof.
  split; [reflexivity|]. split; [reflexivity|]. split; [reflexivity|].
  destruct (connect_with_token freshSession (Some "abc123"%string) "abc123"
              "2024-05-01T10:00:01.000Z" eq_refl eq_refl eq_refl)
    as (s1 & s2 & s3 & H1 & H2 & H3 & _ & _ & _ & _ & H8 & _).
  exists s1, s2, s3. repeat split; assumption.
Defined.

(** ** Clearing, failed fetches, the test location *)

Lemma failed_fetch_state (k : Caller) (iso : string) (now : N) (s : Session) :
  positionResult k None iso now s
  = (match k with
     | CStart => suspend PWatch (alert AlErrorUbicacion s)
     | _ => alert AlErrorUbicacion s
     end)
  /\ books (positionResult k None iso now s) = books s.
Proof. destruct k; split; reflexivity. Qed.


(** X16.  Clearing puts the ledger back to its start: the history is
    empty and the counters are zero, so the submissions that follow are
    counted from zero and fill the history from empty.  Clearing twice is
    clearing once, and the emitted messages, the distance baseline and
    the connection and tracking flags are kept. *)
Theorem clearHistory_restarts_ledger (cs : list Submission) (s : Session) :
  socketConnected s = true ->
  totalLocationsSent (sessionStats (submitAll cs (clearHistory s))) = length cs
  /\ sentLocations (submitAll cs (clearHistory s))
     = take 100 (reverse (recordOf <$> cs))
  /\ clearHistory (clearHistory s) = clearHistory s
  /\ emitted (clearHistory s) = emitted s
  /\ lastLocationRef (clearHistory s) = lastLocationRef s
  /\ isConnected (clearHistory s) = isConnected s
  /\ isTracking (clearHistory s) = isTracking s.
Proof.
  intros Hc.
  assert (Hc' : socketConnected (clearHistory s) = true) by exact Hc.
  split; [rewrite submitAll_count by exact Hc'; reflexivity|].
  split; [|repeat split; reflexivity].
  rewrite <- (take_ge (sentLocations (submitAll cs (clearHistory s))) 100).
  - rewrite submitAll_sentLocations by exact Hc'. simpl.
    rewrite app_nil_r. reflexivity.
  - apply submitAll_length; [exact Hc'|simpl; lia].
Qed.

Lemma clearHistory_restarts_ledger_witness :
  socketConnected trackingSession = true /\
  totalLocationsSent
    (sessionStats
       (submitAll [(sampleAt 7 10 (-75) "t", TManual, 1714557600000%N)]
          (clearHistory trackingSession)))
  = 1%nat.
Proof.
  split; [reflexivity|].
  apply (clearHistory_restarts_ledger
           [(sampleAt 7 10 (-75) "t", TManual, 1714557600000%N)]
           trackingSession). reflexivity.
Defined.

(** X17.  Only five kinds of events can give a message to the
    transport: a position fetch that succeeded, a callback of the
    position subscription, a tick of the random generator, a timeout of a
    random route and the test button.  Every other event (the presses on
    connect, tracking, manual send and refresh, a failed fetch, the
    socket events, the timer tick itself) emits nothing, and unless it is
    the clearing it leaves history, counter and distance baseline alone. *)
Theorem only_submitting_events_emit (s s' : Session) (e : Event) :
  step s e = Some s' ->
  maySubmit e = false ->
  emitted s' = emitted s
  /\ (e <> EClearConfirmed -> books s' = books s).
Proof.
  intros Hs Hm.
  destruct e; simpl in Hm; try discriminate Hm; simpl in Hs;
    repeat case_match; simplify_eq.
  all: try (split; [reflexivity|intros _; reflexivity]).
  all: try (split; [reflexivity|intros Hne; contradiction]).
  all: match goal with
       | |- emitted ?x = _ /\ _ =>
           assert (Hb : books x = books s);
           [|split; [apply (books_eq _ _ Hb)|intros _; exact Hb]]
       end.
  all: rewrite ?disconnectFromServer_books, ?connectToServer_books,
         ?tokenResult_books, ?onConnect_books, ?onDisconnect_books,
         ?onConnectError_books, ?stopTracking_books, ?startTracking_books,
         ?watchResult_books, ?trackingTick_books,
         ?stopRandomDataGeneration_books, ?startRandomDataGeneration_books,
         ?generateAndSendRandomRoute_books, ?routeSend_books,
         ?sendCurrentLocationManually_books, ?onRefresh_books;
       try reflexivity.
  destruct (failed_fetch_state k iso now (resume i s)) as [_ Hb]. exact Hb.
Qed.

Lemma only_submitting_events_emit_witness :
  step trackingSession (ETrackingTick 2) = Some (trackingTick trackingSession)
  /\ maySubmit (ETrackingTick 2) = false
  /\ emitted (trackingTick trackingSession) = emitted trackingSession.
Proof.
  assert (H : step trackingSession (ETrackingTick 2)
              = Some (trackingTick trackingSession)) by reflexivity.
  split; [exact H|]. split; [reflexivity|].
  apply (only_submitting_events_emit _ _ _ H eq_refl).
Defined.

(** ** The fixture generators *)

(** X18.  With draws in [0, 1) the test location lies in the rectangle
    from 10.28 to 10.5 degrees of latitude and from -75.6 to -75.35
    degrees of longitude, edges included. *)
Theorem generateCartagenaTestLocation_in_bounds (rnd : nat -> R) :
  unitDraws rnd ->
  inCartagena (fst (generateCartagenaTestLocation rnd))
    (snd (generateCartagenaTestLocation rnd)).
Proof.
  intros Hu. pose proof (Hu 0%nat) as H0. pose proof (Hu 1%nat) as H1.
  unfold inCartagena, generateCartagenaTestLocation. simpl. lra.
Qed.

Lemma generateCartagenaTestLocation_in_bounds_witness :
  unitDraws (fun _ => 0) /\
  inCartagena (fst (generateCartagenaTestLocation (fun _ => 0)))
    (snd (generateCartagenaTestLocation (fun _ => 0))).
Proof.
  assert (H : unitDraws (fun _ => 0)) by (intros i; lra).
  split; [exact H|]. apply (generateCartagenaTestLocation_in_bounds _ H).
Defined.

(** [Math.floor(u * n)] for a draw [u] and a whole [n] is one of
    [0 .. n-1]. *)
Lemma Math_floor_draw (u : R) (n : Z) :
  0 <= u < 1 -> (0 < n)%Z -> (0 <= Math_floor (u * IZR n) < n)%Z.
Proof.
  intros Hu Hn. unfold Math_floor.
  pose proof (base_Int_part (u * IZR n)) as [Hle Hgt].
  assert (HN : 0 < IZR n) by (apply IZR_lt; exact Hn).
  assert (Hr : 0 <= u * IZR n < IZR n) by nra.
  split.
  - apply Z.lt_succ_r, lt_IZR. rewrite succ_IZR. lra.
  - apply lt_IZR. lra.
Qed.

(** X19.  With draws in [0, 1), [generateRandomTestData] always finds a
    scenario; the position it returns lies in the rectangle of the test
    location, the accuracy is a whole number from 5 to 24 and the speed
    is at least 0 and below 50. *)
Theorem generateRandomTestData_in_range (rnd : nat -> R) :
  unitDraws rnd ->
  exists rd,
    generateRandomTestData rnd = Some rd
    /\ inCartagena (rd_latitude rd) (rd_longitude rd)
    /\ (exists n : Z, rd_accuracy rd = IZR n /\ (5 <= n <= 24)%Z)
    /\ 0 <= rd_speed rd < 50.
Proof.
  intros Hu. pose proof (Hu 0%nat) as H0. pose proof (Hu 1%nat) as H1.
  pose proof (Hu 2%nat) as H2. pose proof (Hu 3%nat) as H3.
  pose proof (Hu 4%nat) as H4.
  unfold generateRandomTestData. cbv zeta.
  change (INR (length testScenarios)) with (INR 8).
  replace (INR 8) with (IZR 8) by (simpl; lra).
  pose proof (Math_floor_draw (rnd 0%nat) 8 H0 eq_refl) as [Hi0 Hi8].
  pose proof (Math_floor_draw (rnd 3%nat) 20 H3 eq_refl) as [Ha0 Ha20].
  destruct (decide (0 <= Math_floor (rnd 0%nat * IZR 8))%Z) as [_|Hn];
    [|contradiction].
  set (idx := Math_floor (rnd 0%nat * IZR 8)) in *.
  set (acc := Math_floor (rnd 3%nat * 20)) in *.
  assert (Hacc : exists n : Z, IZR acc + 5 = IZR n /\ (5 <= n <= 24)%Z).
  { exists (acc + 5)%Z. rewrite plus_IZR. split; [reflexivity|lia]. }
  assert (Hidx : (idx = 0 \/ idx = 1 \/ idx = 2 \/ idx = 3 \/ idx = 4
                  \/ idx = 5 \/ idx = 6 \/ idx = 7)%Z) by lia.
  destruct Hidx as [->|[->|[->|[->|[->|[->|[->| ->]]]]]]]; simpl;
    (eexists; split; [reflexivity|]; simpl;
     split; [unfold inCartagena; lra|]; split; [exact Hacc|lra]).
Qed.

Lemma generateRandomTestData_in_range_witness :
  unitDraws (fun _ => 0) /\
  exists rd, generateRandomTestData (fun _ => 0) = Some rd
             /\ 0 <= rd_speed rd < 50.
Proof.
  assert (H : unitDraws (fun _ => 0)) by (intros i; lra).
  split; [exact H|].
  destruct (generateRandomTestData_in_range _ H) as (rd & Hrd & _ & _ & Hs).
  exists rd. split; assumption.
Defined.

Lemma unitDraws_shift (n : nat) (rnd : nat -> R) :
  unitDraws rnd -> unitDraws (shift n rnd).
Proof. intros H i. apply H. Qed.

Lemma routeSteps_length (n : nat) : forall rnd lat lng,
  length (routeSteps n rnd lat lng) = n.
Proof.
  induction n as [|n IH]; intros rnd lat lng; simpl; [reflexivity|].
  rewrite IH. reflexivity.
Qed.

(** No step moves a coordinate by more than the 0.001 degrees of its
    amplitude. *)
Lemma routeSteps_drift (n : nat) : forall rnd lat lng i pt,
  unitDraws rnd ->
  routeSteps n rnd lat lng !! i = Some pt ->
  lat - 0.001 * INR (S i) <= rp_latitude pt <= lat + 0.001 * INR (S i)
  /\ lng - 0.001 * INR (S i) <= rp_longitude pt <= lng + 0.001 * INR (S i).
Proof.
  induction n as [|n IH]; intros rnd lat lng i pt Hu Hl; [discriminate Hl|].
  pose proof (Hu 0%nat) as H0. pose proof (Hu 1%nat) as H1.
  simpl in Hl. destruct i as [|i].
  - injection Hl as <-. simpl. lra.
  - simpl in Hl.
    destruct (IH _ _ _ _ _ (unitDraws_shift 2 rnd Hu) Hl) as [Hlat Hlng].
    rewrite (S_INR (S i)). lra.
Qed.

(** X20.  A generated route has as many points as asked for (one when
    none is asked for) and starts at the start location; with draws in
    [0, 1) its point number [i] is within [i] times 0.001 degrees, the
    amplitude of one step, of the start in each coordinate. *)
Theorem generateRandomRoute_shape (startLocation : RandomTestData)
  (duration : nat) (rnd : nat -> R) :
  unitDraws rnd ->
  length (generateRandomRoute startLocation duration rnd)
  = (duration `max` 1)%nat
  /\ head (generateRandomRoute startLocation duration rnd)
     = Some (mkRoutePoint (rd_latitude startLocation)
               (rd_longitude startLocation))
  /\ (forall i pt,
        generateRandomRoute startLocation duration rnd !! i = Some pt ->
        rd_latitude startLocation - 0.001 * INR i <= rp_latitude pt
          <= rd_latitude startLocation + 0.001 * INR i
        /\ rd_longitude startLocation - 0.001 * INR i <= rp_longitude pt
          <= rd_longitude startLocation + 0.001 * INR i).
Proof.
  intros Hu. unfold generateRandomRoute. split; [|split].
  - simpl. rewrite routeSteps_length. lia.
  - reflexivity.
  - intros i pt Hl. destruct i as [|i].
    + injection Hl as <-. simpl. lra.
    + simpl in Hl. exact (routeSteps_drift _ _ _ _ _ _ Hu Hl).
Qed.

Lemma generateRandomRoute_shape_witness :
  unitDraws (fun _ => 0) /\
  length (generateRandomRoute randomDraw0 8 (fun _ => 0)) = 8%nat.
Proof.
  assert (H : unitDraws (fun _ => 0)) by (intros i; lra).
  split; [exact H|].
  apply (generateRandomRoute_shape randomDraw0 8 _ H).
Defined.

(** ** The route drawn on the map *)

(** X21.  The route on the map has the 20 newest records at most, oldest
    first: its last point is the newest record, and right after a
    successful submission it ends at the submitted sample. *)
Theorem getRouteCoordinates_ends_at_newest (locationData : LocRef)
  (type : LocationType) (now : N) (s : Session) :
  socketConnected s = true ->
  length (getRouteCoordinates s) = (length (sentLocations s) `min` 20)%nat
  /\ last (getRouteCoordinates s)
     = (fun loc => (latitude (sl_data loc), longitude (sl_data loc)))
         <$> head (sentLocations s)
  /\ last (getRouteCoordinates (sendLocation locationData type now s))
     = Some (latitude (deref locationData), longitude (deref locationData)).
Proof.
  intros Hc.
  assert (Hlast : forall h : list SentLocation,
            last ((fun loc => (latitude (sl_data loc), longitude (sl_data loc)))
                    <$> reverse (take 20 h))
            = (fun loc => (latitude (sl_data loc), longitude (sl_data loc)))
                <$> head h).
  { intros h. rewrite fmap_last, last_reverse. destruct h; reflexivity. }
  unfold getRouteCoordinates. split; [|split].
  - rewrite length_fmap, length_reverse, length_take. lia.
  - apply Hlast.
  - rewrite Hlast, sendLocation_sentLocations by exact Hc. reflexivity.
Qed.

Lemma getRouteCoordinates_ends_at_newest_witness :
  socketConnected connectedSession = true /\
  last (getRouteCoordinates
          (sendLocation (sampleAt 7 10 (-75) "t") TManual 1714557600000%N
             connectedSession))
  = Some (10, -75).
Proof.
  split; [reflexivity|].
  apply (getRouteCoordinates_ends_at_newest (sampleAt 7 10 (-75) "t") TManual
           1714557600000%N connectedSession). reflexivity.
Defined.

(** ** The test location button *)

(** X22.  The test location button always makes a new sample inside the
    rectangle the baseline of the distance; it never adds to the
    distance; it leaves history and messages alone while [isConnected]
    is false, and with a connected socket the sample is recorded as the
    newest entry, of kind test. *)
Theorem useCartagenaTestLocation_sets_baseline (rnd : nat -> R)
  (iso : string) (nowObj now : N) (s : Session) :
  unitDraws rnd ->
  exists l,
    lastLocationRef (useCartagenaTestLocation rnd iso nowObj now s) = Some l
    /\ addr l = nextId s
    /\ inCartagena (latitude (deref l)) (longitude (deref l))
    /\ totalDistance (sessionStats (useCartagenaTestLocation rnd iso nowObj now s))
       = totalDistance (sessionStats s)
    /\ (isConnected s = false ->
        sentLocations (useCartagenaTestLocation rnd iso nowObj now s)
        = sentLocations s
        /\ emitted (useCartagenaTestLocation rnd iso nowObj now s) = emitted s)
    /\ (isConnected s = true -> socketConnected s = true ->
        sentLocations (useCartagenaTestLocation rnd iso nowObj now s)
        = recordOf (l, TTest, now) :: take 99 (sentLocations s)).
Proof.
  intros Hu.
  assert (Hb : inCartagena (fst (generateCartagenaTestLocation rnd))
                (snd (generateCartagenaTestLocation rnd))).
  { pose proof (Hu 0%nat) as H0. pose proof (Hu 1%nat) as H1.
    unfold inCartagena, generateCartagenaTestLocation. simpl. lra. }
  eexists. split; [|split; [|split; [|split; [|split]]]].
  - unfold useCartagenaTestLocation. simpl.
    destruct (isConnected s); simpl;
      rewrite ?sendLocation_lastLocationRef; reflexivity.
  - reflexivity.
  - exact Hb.
  - apply useCartagenaTestLocation_totalDistance.
  - intros Hc. unfold useCartagenaTestLocation. simpl. rewrite Hc.
    split; reflexivity.
  - intros Hc Hs. unfold useCartagenaTestLocation. simpl. rewrite Hc. simpl.
    rewrite sendLocation_sentLocations; [reflexivity|exact Hs].
Qed.

Lemma useCartagenaTestLocation_sets_baseline_witness :
  unitDraws (fun _ => 0) /\
  exists l,
    lastLocationRef
      (useCartagenaTestLocation (fun _ => 0) "t" 5%N 6%N connectedSession)
    = Some l
    /\ inCartagena (latitude (deref l)) (longitude (deref l)).
Proof.
  assert (H : unitDraws (fun _ => 0)) by (intros i; lra).
  split; [exact H|].
  destruct (useCartagenaTestLocation_sets_baseline (fun _ => 0) "t" 5%N 6%N
              connectedSession H) as (l & Hl & _ & Hin & _).
  exists l. split; assumption.
Defined.

(** ** The authentication context *)

Lemma truthyToken_Some (t : option string) (tok : string) :
  truthyToken t = Some tok -> t = Some tok /\ truthyToken (Some tok) = Some tok.
Proof.
  unfold truthyToken. destruct t as [x|]; [|discriminate].
  destruct (decide (x = EmptyString)); [discriminate|].
  intros [= <-]. split; [reflexivity|].
  destruct (decide (x = EmptyString)); [contradiction|reflexivity].
Qed.

(** X23.  [login] resolves exactly when the login answer is ok and
    carries a token, the store takes the token, and /user/me answers ok
    with a body; the token is then stored, the user is the one of
    /user/me, loading is over and no alert is shown. *)
Theorem login_resolves (env : Auth.LoginEnv) (st st' : Auth.State) :
  Auth.login env st = (st', true)
  <-> exists data token me u,
        Auth.loginFetch env = Auth.Ok data
        /\ Auth.login_ok data = true
        /\ truthyToken (Auth.access_token data) = Some token
        /\ Auth.storeSet env = true
        /\ Auth.meFetch env = Auth.Ok me
        /\ Auth.me_ok me = true
        /\ Auth.me_json me = Auth.Ok u
        /\ st' = Auth.mkState u false (Some token) (Auth.alerts st).
Proof.
  unfold Auth.login. split.
  - destruct (Auth.loginFetch env) as [data|]; [|discriminate].
    destruct (Auth.login_ok data) eqn:Hok; [|discriminate].
    destruct (truthyToken (Auth.access_token data)) as [token|] eqn:Ht;
      [|discriminate].
    destruct (Auth.storeSet env) eqn:Hs; [|discriminate].
    destruct (Auth.meFetch env) as [me|]; [|discriminate].
    destruct (Auth.me_ok me) eqn:Hm; [|discriminate].
    destruct (Auth.me_json me) as [u|] eqn:Hj; [|discriminate].
    intros [= <-]. exists data, token, me, u. repeat split; assumption.
  - intros (data & token & me & u & -> & -> & -> & -> & -> & -> & -> & ->).
    reflexivity.
Qed.

Lemma login_resolves_witness :
  Auth.login
    (Auth.mkLoginEnv
       (Auth.Ok (Auth.mkLoginResponse true (Some "tok"%string) None)) true
       (Auth.Ok
          (Auth.mkMeResponse true
             (Auth.Ok (Some (Auth.mkUser "7" "a@b.co" "driver" None None))))))
    Auth.initial
  = (Auth.mkState (Some (Auth.mkUser "7" "a@b.co" "driver" None None)) false
       (Some "tok"%string) [], true).
Proof.
  apply (proj2 (login_resolves _ Auth.initial _)).
  exists (Auth.mkLoginResponse true (Some "tok"%string) None), "tok"%string,
    (Auth.mkMeResponse true
       (Auth.Ok (Some (Auth.mkUser "7" "a@b.co" "driver" None None)))),
    (Some (Auth.mkUser "7" "a@b.co" "driver" None None)).
  repeat split; reflexivity.
Defined.

(** X24.  A rejected [login] leaves the user as it was, ends with
    loading over and always shows the network alert last, also when the
    server refused the credentials: then the credentials alert comes
    first and the store is not touched. *)
Theorem login_rejected (env : Auth.LoginEnv) (st st' : Auth.State) :
  Auth.login env st = (st', false) ->
  Auth.user st' = Auth.user st
  /\ Auth.isLoading st' = false
  /\ head (Auth.alerts st') = Some Auth.AlNetworkError
  /\ (forall data,
        Auth.loginFetch env = Auth.Ok data ->
        Auth.login_ok data = false
        \/ truthyToken (Auth.access_token data) = None ->
        Auth.alerts st'
        = Auth.AlNetworkError
          :: Auth.AlLoginError
               (Auth.orString (Auth.message data) "Credenciales incorrectas.")
          :: Auth.alerts st
        /\ Auth.accessToken st' = Auth.accessToken st).
Proof.
  unfold Auth.login.
  destruct (Auth.loginFetch env) as [data|].
  - destruct (Auth.login_ok data) eqn:Hok.
    + destruct (truthyToken (Auth.access_token data)) as [token|] eqn:Ht.
      * destruct (Auth.storeSet env);
          [destruct (Auth.meFetch env) as [me|];
           [destruct (Auth.me_ok me);
            [destruct (Auth.me_json me); [discriminate|]|]|]|];
          intros [= <-];
          refine (conj eq_refl (conj eq_refl (conj eq_refl _)));
          intros d [= <-] [Hd|Hd]; congruence.
      * intros [= <-].
        refine (conj eq_refl (conj eq_refl (conj eq_refl _))).
        intros d [= <-] _. split; reflexivity.
    + intros [= <-].
      refine (conj eq_refl (conj eq_refl (conj eq_refl _))).
      intros d [= <-] _. split; reflexivity.
  - intros [= <-].
    refine (conj eq_refl (conj eq_refl (conj eq_refl _))).
    intros d [=].
Qed.

Lemma login_rejected_witness :
  Auth.login
    (Auth.mkLoginEnv
       (Auth.Ok (Auth.mkLoginResponse false None (Some "bad password"%string)))
       true Auth.Throws)
    Auth.initial
  = (Auth.mkState None false None
       [Auth.AlNetworkError; Auth.AlLoginError "bad password"], false)
  /\ head
       (Auth.alerts
          (Auth.mkState None false None
             [Auth.AlNetworkError; Auth.AlLoginError "bad password"]))
     = Some Auth.AlNetworkError.
Proof.
  split; [reflexivity|].
  apply (login_rejected
           (Auth.mkLoginEnv
              (Auth.Ok
                 (Auth.mkLoginResponse false None (Some "bad password"%string)))
              true Auth.Throws)
           Auth.initial). reflexivity.
Defined.

(** X25.  When the token was stored but /user/me failed, [login] rejects
    and leaves the token in the store; a later [loadUserFromStorage]
    whose /user/me answers then signs that user in without
    credentials. *)
Theorem rejected_login_leaves_session (env : Auth.LoginEnv)
  (lenv : Auth.LoadEnv) (st st' : Auth.State) (data : Auth.LoginResponse)
  (token : string) (me : Auth.MeResponse) (u : option Auth.User) :
  Auth.login env st = (st', false) ->
  Auth.loginFetch env = Auth.Ok data ->
  Auth.login_ok data = true ->
  truthyToken (Auth.access_token data) = Some token ->
  Auth.storeSet env = true ->
  Auth.storeGet lenv = true ->
  Auth.loadMe lenv = Auth.Ok me ->
  Auth.me_ok me = true ->
  Auth.me_json me = Auth.Ok u ->
  Auth.accessToken st' = Some token
  /\ Auth.loadUserFromStorage lenv st'
     = Auth.mkState u false (Some token) (Auth.alerts st').
Proof.
  intros Hl Hf Hok Ht Hs Hg Hm Hmo Hj.
  destruct (truthyToken_Some _ _ Ht) as [_ Htok].
  assert (Hst : Auth.accessToken st' = Some token).
  { revert Hl. unfold Auth.login. rewrite Hf, Hok, Ht, Hs.
    destruct (Auth.meFetch env) as [m|];
      [destruct (Auth.me_ok m); [destruct (Auth.me_json m); [discriminate|]|]|];
      intros [= <-]; reflexivity. }
  split; [exact Hst|].
  destruct st' as [u' l' a' al']. simpl in Hst. subst a'.
  unfold Auth.loadUserFromStorage. cbn [Auth.accessToken Auth.setIsLoading].
  rewrite Hg, Htok, Hm, Hmo, Hj. reflexivity.
Qed.

Lemma rejected_login_leaves_session_witness :
  Auth.loadUserFromStorage
    (Auth.mkLoadEnv true
       (Auth.Ok
          (Auth.mkMeResponse true
             (Auth.Ok (Some (Auth.mkUser "7" "a@b.co" "driver" None None)))))
       true true)
    (Auth.mkState None false (Some "tok"%string) [Auth.AlNetworkError])
  = Auth.mkState (Some (Auth.mkUser "7" "a@b.co" "driver" None None)) false
      (Some "tok"%string) [Auth.AlNetworkError].
Proof.
  apply (rejected_login_leaves_session
           (Auth.mkLoginEnv
              (Auth.Ok (Auth.mkLoginResponse true (Some "tok"%string) None))
              true Auth.Throws)
           (Auth.mkLoadEnv true
              (Auth.Ok
                 (Auth.mkMeResponse true
                    (Auth.Ok
                       (Some (Auth.mkUser "7" "a@b.co" "driver" None None)))))
              true true)
           Auth.initial
           (Auth.mkState None false (Some "tok"%string) [Auth.AlNetworkError])
           (Auth.mkLoginResponse true (Some "tok"%string) None) "tok"
           (Auth.mkMeResponse true
              (Auth.Ok (Some (Auth.mkUser "7" "a@b.co" "driver" None None))))
           (Some (Auth.mkUser "7" "a@b.co" "driver" None None)));
    reflexivity.
Defined.

(** X26.  [loadUserFromStorage] always ends with loading over and shows
    no alert; the token is kept or removed, never replaced; the user
    changes only when a stored token was accepted by /user/me, and then
    the token is kept. *)
Theorem loadUserFromStorage_outcome (env : Auth.LoadEnv) (st : Auth.State) :
  Auth.isLoading (Auth.loadUserFromStorage env st) = false
  /\ Auth.alerts (Auth.loadUserFromStorage env st) = Auth.alerts st
  /\ (Auth.accessToken (Auth.loadUserFromStorage env st) = Auth.accessToken st
      \/ Auth.accessToken (Auth.loadUserFromStorage env st) = None)
  /\ (Auth.user (Auth.loadUserFromStorage env st) = Auth.user st
      \/ exists token me,
           Auth.storeGet env = true
           /\ Auth.accessToken st = Some token
           /\ token <> EmptyString
           /\ Auth.loadMe env = Auth.Ok me
           /\ Auth.me_ok me = true
           /\ Auth.me_json me = Auth.Ok (Auth.user (Auth.loadUserFromStorage env st))
           /\ Auth.accessToken (Auth.loadUserFromStorage env st) = Some token).
Proof.
  unfold Auth.loadUserFromStorage. simpl.
  destruct (Auth.storeGet env) eqn:Hg.
  - destruct (Auth.accessToken st) as [token|] eqn:Ha; simpl.
    + destruct (decide (token = EmptyString)) as [He|He]; simpl.
      * rewrite Ha. repeat split; auto.
      * destruct (Auth.loadMe env) as [me|] eqn:Hm.
        -- destruct (Auth.me_ok me) eqn:Hok.
           ++ destruct (Auth.me_json me) as [u|] eqn:Hj.
              ** simpl. rewrite Ha. repeat split; auto.
                 right. exists token, me. repeat split; auto.
              ** destruct (Auth.deleteOnError env); simpl; rewrite ?Ha;
                   repeat split; auto.
           ++ destruct (Auth.deleteInvalid env); simpl;
                [|destruct (Auth.deleteOnError env); simpl]; rewrite ?Ha;
                repeat split; auto.
        -- destruct (Auth.deleteOnError env); simpl; rewrite ?Ha;
             repeat split; auto.
    + rewrite Ha. repeat split; auto.
  - destruct (Auth.deleteOnError env); simpl; repeat split; auto.
Qed.

(** X27.  A stored token that /user/me refuses is removed as soon as one
    of the two delete attempts works, and stays in the store when both
    fail; the user is left as it was either way. *)
Theorem loadUserFromStorage_refused_token (env : Auth.LoadEnv)
  (st : Auth.State) (token : string) (me : Auth.MeResponse) :
  Auth.storeGet env = true ->
  truthyToken (Auth.accessToken st) = Some token ->
  Auth.loadMe env = Auth.Ok me ->
  Auth.me_ok me = false ->
  Auth.user (Auth.loadUserFromStorage env st) = Auth.user st
  /\ Auth.accessToken (Auth.loadUserFromStorage env st)
     = (if Auth.deleteInvalid env || Auth.deleteOnError env
        then None else Some token).
Proof.
  intros Hg Ht Hm Hok. destruct (truthyToken_Some _ _ Ht) as [Ha _].
  unfold Auth.loadUserFromStorage. rewrite Hg. simpl. rewrite Ht, Hm, Hok.
  destruct (Auth.deleteInvalid env); simpl;
    [|destruct (Auth.deleteOnError env); simpl]; rewrite ?Ha;
    split; reflexivity.
Qed.

Lemma loadUserFromStorage_refused_token_witness :
  Auth.accessToken
    (Auth.loadUserFromStorage
       (Auth.mkLoadEnv true (Auth.Ok (Auth.mkMeResponse false Auth.Throws))
          false true)
       (Auth.mkState None true (Some "old"%string) []))
  = None.
Proof.
  apply (loadUserFromStorage_refused_token
           (Auth.mkLoadEnv true (Auth.Ok (Auth.mkMeResponse false Auth.Throws))
              false true)
           (Auth.mkState None true (Some "old"%string) []) "old"
           (Auth.mkMeResponse false Auth.Throws)); reflexivity.
Defined.

(** X28.  A redirect of [useProtectedRoute] happens only once loading is
    over; it sends a signed-out visitor of a driver route to the login
    route and a signed-in visitor of the login route to the driver
    route, and once the router shows the target path the guard asks for
    no further redirect. *)
Theorem useProtectedRoute_settles (user : option Auth.User)
  (isLoading : bool) (segments segments' : list string) (target : string) :
  Auth.useProtectedRoute user isLoading segments = Some target ->
  Auth.currentPathOf segments' = target ->
  isLoading = false
  /\ (target = "/(tabs)"%string /\ user = None
      /\ Auth.isDriverRoute (Auth.currentPathOf segments) = true
      \/ target = "/(tabs)/driver"%string /\ user <> None
         /\ Auth.isLoginRoute (Auth.currentPathOf segments) = true)
  /\ Auth.useProtectedRoute user isLoading segments' = None.
Proof.
  unfold Auth.useProtectedRoute. intros H Hp.
  destruct isLoading; [discriminate|]. split; [reflexivity|].
  rewrite Hp. destruct user as [u|]; simpl in *.
  - destruct (Auth.isLoginRoute (Auth.currentPathOf segments)) eqn:Hl;
      [|discriminate].
    injection H as <-. split; [right; repeat split; discriminate|].
    reflexivity.
  - destruct (Auth.isDriverRoute (Auth.currentPathOf segments)) eqn:Hd;
      [|discriminate].
    injection H as <-. split; [left; repeat split|]. reflexivity.
Qed.

Lemma useProtectedRoute_settles_witness :
  Auth.useProtectedRoute None false ["(tabs)"; "driver"]%string
  = Some "/(tabs)"%string
  /\ Auth.useProtectedRoute None false ["(tabs)"]%string = None.
Proof.
  split; [reflexivity|].
  apply (useProtectedRoute_settles None false ["(tabs)"; "driver"]%string
           ["(tabs)"]%string "/(tabs)"); reflexivity.
Defined.

Lemma driver_route_not_login (p : string) :
  Auth.isDriverRoute p = true -> Auth.isLoginRoute p = false.
Proof.
  unfold Auth.isDriverRoute, Auth.isLoginRoute. intros H.
  apply orb_false_intro; apply bool_decide_eq_false; intros ->;
    vm_compute in H; discriminate H.
Qed.

(** X29.  A [logout] whose delete works signs the user out and empties
    the store, after which the guard sends a visitor of a driver route
    to the login route; a [logout] whose delete fails changes nothing and
    the guard leaves that visitor on the driver route. *)
Theorem logout_then_guard (st : Auth.State) (segments : list string) :
  Auth.isLoading st = false ->
  Auth.isDriverRoute (Auth.currentPathOf segments) = true ->
  Auth.user st <> None ->
  Auth.accessToken (Auth.logout true st) = None
  /\ Auth.useProtectedRoute (Auth.user (Auth.logout true st))
       (Auth.isLoading (Auth.logout true st)) segments
     = Some "/(tabs)"%string
  /\ Auth.logout false st = st
  /\ Auth.useProtectedRoute (Auth.user (Auth.logout false st))
       (Auth.isLoading (Auth.logout false st)) segments
     = None.
Proof.
  intros Hl Hd Hu. pose proof (driver_route_not_login _ Hd) as Hn.
  unfold Auth.logout, Auth.useProtectedRoute. simpl.
  rewrite Hl, Hd, Hn. destruct (Auth.user st); [|contradiction].
  repeat split; reflexivity.
Qed.

Lemma logout_then_guard_witness :
  Auth.useProtectedRoute
    (Auth.user
       (Auth.logout true
          (Auth.mkState (Some (Auth.mkUser "7" "a@b.co" "driver" None None))
             false (Some "tok"%string) [])))
    false ["(tabs)"; "driver"]%string
  = Some "/(tabs)"%string.
Proof.
  apply (logout_then_guard
           (Auth.mkState (Some (Auth.mkUser "7" "a@b.co" "driver" None None))
              false (Some "tok"%string) [])
           ["(tabs)"; "driver"]%string); [reflexivity..|discriminate].
Defined.

(** ** Route timeouts and disconnecting *)

Lemma disconnectTail_routeTimeouts (s : Session) :
  routeTimeouts (disconnectTail s) = routeTimeouts s.
Proof.
  destruct s as [? ? ? ? ? ? ? ? ? ? ? ? ls tr rr ? ? ? ? ? ? ? ? ? ? ?].
  unfold disconnectTail, stopTracking, stopRandomDataGeneration.
  destruct ls, tr, rr; reflexivity.
Qed.

Lemma onDisconnect_routeTimeouts (reason : string) (s : Session) :
  routeTimeouts (onDisconnect reason s) = routeTimeouts s.
Proof.
  destruct s as [? ? ? ? ? ? ? ? ? ? ? ? ls tr rr ? ? ? ? ? ? ? ? ? ? ?].
  unfold onDisconnect, stopTracking, stopRandomDataGeneration.
  destruct ls, tr, rr; reflexivity.
Qed.

Lemma disconnectFromServer_routeTimeouts (s : Session) :
  routeTimeouts (disconnectFromServer s) = routeTimeouts s.
Proof.
  rewrite disconnectFromServer_tail, disconnectTail_routeTimeouts.
  destruct (socketRef s) as [i|]; [|reflexivity].
  cbn [routeTimeouts set_socketRef]. unfold socketDisconnect.
  destruct (sockets s !! i) as [sk|]; [|reflexivity].
  destruct (connected sk); [rewrite onDisconnect_routeTimeouts|]; reflexivity.
Qed.

(** X30.  The timeouts of a random route are not cancelled by
    disconnecting: a timeout that was waiting still fires afterwards; it
    moves the position shown to its route point, but nothing is
    recorded or emitted and the no-connection alert is raised. *)
Theorem route_timeouts_outlive_disconnect (s : Session) (i : nat)
  (point : RoutePoint) (rnd : nat -> R) (iso : string) (nowObj now : N) :
  routeTimeouts s !! i = Some point ->
  routeTimeouts (disconnectFromServer s) = routeTimeouts s
  /\ exists s',
       step (disconnectFromServer s) (ERouteTimeout i rnd iso nowObj now)
       = Some s'
       /\ head (alerts s') = Some AlNoHayConexion
       /\ books s' = books s
       /\ (exists shown,
             currentLocation s' = Some shown
             /\ c_latitude (coords shown) = rp_latitude point
             /\ c_longitude (coords shown) = rp_longitude point)
       /\ routeTimeouts s' = delete i (routeTimeouts s).
Proof.
  intros Hi. pose proof (disconnectFromServer_routeTimeouts s) as Hrt.
  split; [exact Hrt|].
  destruct (disconnectFromServer_result s) as (Hsock & _).
  pose proof (disconnectFromServer_books s) as Hb.
  revert Hrt Hsock Hb. generalize (disconnectFromServer s). intros d.
  destruct d as [? ? ? ? ? ? ? ? ? ? ? sr ? ? ? ? ? ? ? ? ? ? ? rt ? ?].
  cbn [routeTimeouts socketRef]. intros -> -> Hb.
  eexists. split; [cbn [step routeTimeouts]; rewrite Hi; reflexivity|].
  unfold routeTimeout, sendRandom. cbn [fresh].
  rewrite sendLocation_disconnected by reflexivity.
  split; [reflexivity|]. split; [exact Hb|].
  split; [eexists; split; [reflexivity|split; reflexivity]|].
  reflexivity.
Qed.

Lemma route_timeouts_outlive_disconnect_witness :
  exists s',
    step
      (disconnectFromServer
         (set_routeTimeouts [mkRoutePoint 10.4 (-75.5)] connectedSession))
      (ERouteTimeout 0 (fun _ => 0) "t" 5%N 6%N)
    = Some s'
    /\ head (alerts s') = Some AlNoHayConexion.
Proof.
  destruct (route_timeouts_outlive_disconnect
              (set_routeTimeouts [mkRoutePoint 10.4 (-75.5)] connectedSession)
              0 (mkRoutePoint 10.4 (-75.5)) (fun _ => 0) "t" 5%N 6%N eq_refl)
    as (_ & s' & Hs & Ha & _).
  exists s'. split; assumption.
Defined.
